(** * LifeOS backend: document ingestion and derived reminders

    A shallow embedding of the upload pipeline of the LifeOS backend:

    - [services/ocrService.js]   : [extractTextFromImage]
    - [services/aiService.js]    : [analyzeDocument], [calculatePriority]
    - [controllers/documentController.js] : [uploadDocument]
    - [models/Document.js], [models/Reminder.js] : the two record shapes

    JavaScript strings are sequences of UTF-16 code units, numbers coming
    out of [JSON.parse] are rationals, [Date] objects are time values in
    milliseconds since the epoch (or NaN).  Effects (file system, the two
    persistence stores, the system clock, thrown exceptions) are threaded
    through a small state-and-exception monad; everything the process does
    not control (Tesseract, Gemini, [JSON.parse], [Date.parse], the clock,
    the outcome of a database write) is a field of an environment record. *)

From Stdlib Require Import List ZArith QArith Bool Lia String Ascii.
Import ListNotations.
Local Open Scope Z_scope.

(* ------------------------------------------------------------------ *)
(** ** JavaScript strings *)

(** A string is the list of its UTF-16 code units; [.length] is [length]. *)
Definition jsstring := list N.

(** String literals of the source. *)
Definition lit (s : string) : jsstring :=
  map N_of_ascii (list_ascii_of_string s).

Definition jsstring_eqb (a b : jsstring) : bool :=
  if list_eq_dec N.eq_dec a b then true else false.

Definition isEmpty (s : jsstring) : bool :=
  match s with [] => true | _ :: _ => false end.

(** The regular-expression class [\s], which is also what
    [String.prototype.trim] strips: WhiteSpace and LineTerminator. *)
Definition isSpace (c : N) : bool :=
  ((9 <=? c) && (c <=? 13) || (c =? 32) || (c =? 160) || (c =? 5760)
   || (8192 <=? c) && (c <=? 8202) || (c =? 8232) || (c =? 8233)
   || (c =? 8239) || (c =? 8287) || (c =? 12288) || (c =? 65279))%N.

(** [s.replace(/\s+/g, " ")]: every maximal run of white space becomes one
    space character. *)
Fixpoint replaceSpaces (s : jsstring) : jsstring :=
  match s with
  | [] => []
  | c :: rest =>
      if isSpace c then
        match rest with
        | [] => [32%N]
        | c' :: _ => if isSpace c' then replaceSpaces rest
                     else 32%N :: replaceSpaces rest
        end
      else c :: replaceSpaces rest
  end.

Fixpoint trimStart (s : jsstring) : jsstring :=
  match s with
  | [] => []
  | c :: rest => if isSpace c then trimStart rest else s
  end.

Definition trimEnd (s : jsstring) : jsstring := rev (trimStart (rev s)).

Definition trim (s : jsstring) : jsstring := trimEnd (trimStart s).

(** [responseText.match(/\{[\s\S]*\}/)]: the match starts at the first
    opening brace and, the star being greedy, ends at the last closing brace
    after it; there is no match when no closing brace follows the first
    opening one. *)
Fixpoint fromFirstOpen (s : jsstring) : option jsstring :=
  match s with
  | [] => None
  | c :: rest => if (c =? 123)%N then Some rest else fromFirstOpen rest
  end.

Fixpoint upToLastClose (s : jsstring) : option jsstring :=
  match s with
  | [] => None
  | c :: rest =>
      match upToLastClose rest with
      | Some p => Some (c :: p)
      | None => if (c =? 125)%N then Some [c] else None
      end
  end.

Definition jsonMatch (responseText : jsstring) : option jsstring :=
  match fromFirstOpen responseText with
  | Some rest => option_map (cons 123%N) (upToLastClose rest)
  | None => None
  end.

(* ------------------------------------------------------------------ *)
(** ** JavaScript values of one type, truthiness, [||] *)

(** The value of an object property that holds an [A] when it holds
    anything: missing ([undefined]), [null], or a value. *)
Inductive Js (A : Type) : Type :=
| undefined
| null
| val (a : A).
Arguments undefined {A}.
Arguments null {A}.
Arguments val {A} a.

Class ToBoolean (A : Type) := truthy : A -> bool.

#[export] Instance string_ToBoolean : ToBoolean jsstring :=
  fun s => negb (isEmpty s).

#[export] Instance number_ToBoolean : ToBoolean Q :=
  fun q => negb (Qeq_bool q 0).

#[export] Instance Js_ToBoolean {A} `{ToBoolean A} : ToBoolean (Js A) :=
  fun v => match v with val a => truthy a | _ => false end.

(** [v || d] where [d] is a plain value. *)
Definition orDefault {A} `{ToBoolean A} (v : Js A) (d : A) : A :=
  match v with
  | val a => if truthy a then a else d
  | _ => d
  end.

(** [v || null]; [None] is [null]. *)
Definition orNull {A} `{ToBoolean A} (v : Js A) : option A :=
  match v with
  | val a => if truthy a then Some a else None
  | _ => None
  end.

(** [v || w] between two properties. *)
Definition orElse {A} `{ToBoolean A} (v w : Js A) : Js A :=
  if truthy v then v else w.

(** A property interpolated in a template literal. *)
Definition toString (v : Js jsstring) : jsstring :=
  match v with
  | undefined => lit "undefined"
  | null => lit "null"
  | val s => s
  end.

(* ------------------------------------------------------------------ *)
(** ** Dates *)

(** The time value of a [Date]: milliseconds since the epoch, [None] for
    an Invalid Date (NaN). *)
Definition JsDate := option Z.

Definition msPerDay : Z := 1000 * 60 * 60 * 24.
Definition maxTime : Z := 8640000000000000.

Definition TimeClip (t : Z) : JsDate :=
  if Z.abs t <=? maxTime then Some t else None.

(** [d.setDate(d.getDate() + n)] for an integer [n].  The day of the month is
    taken and set in local time: [getDate()] is the day of [LocalTime(t)],
    and [setDate] makes the local time of that day number at the same time
    of day, which is [LocalTime(t) + n * msPerDay], and converts it back.
    [tza] is the [LocalTZA(t, isUTC)] of the process's time zone:
    [LocalTime(t) = t + tza t true] and [UTC(t) = t - tza t false]. *)
Definition setDate_getDate_plus (tza : Z -> bool -> Z) (d : JsDate) (n : Z)
  : JsDate :=
  match d with
  | Some t =>
      let local := t + tza t true + n * msPerDay in
      TimeClip (local - tza local false)
  | None => None
  end.

(** Moving [t] by [n] days of local time stays within one offset from UTC,
    as it always does in a zone without daylight saving. *)
Definition sameOffset (tza : Z -> bool -> Z) (t n : Z) : Prop :=
  tza (t + tza t true + n * msPerDay) false = tza t true.

(** [a > b] between a [Date] and the current time: false on NaN. *)
Definition dateGt (a : JsDate) (now : Z) : bool :=
  match a with
  | Some t => now <? t
  | None => false
  end.

(** [Math.ceil((a - now) / (1000 * 60 * 60 * 24))], NaN when [a] is.  The
    quotient is taken exactly; the comparisons made with its ceiling are
    against 7 and 30, where the double division rounds no quotient of two
    time values across an integer. *)
Definition ceilDays (a : JsDate) (now : Z) : option Z :=
  match a with
  | Some t => Some (- ((- (t - now)) / msPerDay))
  | None => None
  end.

(** [n <= k] on a number that may be NaN. *)
Definition leNum (n : option Z) (k : Z) : bool :=
  match n with
  | Some z => z <=? k
  | None => false
  end.

(** [x > k] for a number property [x]: [undefined] is NaN, [null] is 0. *)
Definition gtNum (x : Js Q) (k : Z) : bool :=
  match x with
  | val q => negb (Qle_bool q (inject_Z k))
  | null => k <? 0
  | undefined => false
  end.

(** [Date.parse] on the date-only form [YYYY-MM-DD] the analyzer is asked
    for, when it names a day of the calendar: midnight UTC of that day.  The
    scenarios below give their [Date_parse] no other string; on other strings
    this function answers NaN, which is not said of [Date.parse]. *)
Definition digit (c : N) : option Z :=
  if ((48 <=? c) && (c <=? 57))%N then Some (Z.of_N c - 48) else None.

Definition number4 (a b c d : N) : option Z :=
  match digit a, digit b, digit c, digit d with
  | Some x, Some y, Some z, Some w => Some (1000 * x + 100 * y + 10 * z + w)
  | _, _, _, _ => None
  end.

Definition number2 (a b : N) : option Z :=
  match digit a, digit b with
  | Some x, Some y => Some (10 * x + y)
  | _, _ => None
  end.

Definition isLeap (y : Z) : bool :=
  ((y mod 4 =? 0) && negb (y mod 100 =? 0)) || (y mod 400 =? 0).

Definition daysInMonth (y m : Z) : Z :=
  if m =? 2 then (if isLeap y then 29 else 28)
  else if (m =? 4) || (m =? 6) || (m =? 9) || (m =? 11) then 30 else 31.

Definition daysFromCivil (y m d : Z) : Z :=
  let y' := if m <=? 2 then y - 1 else y in
  let era := y' / 400 in
  let yoe := y' - era * 400 in
  let doy := (153 * (m + (if 2 <? m then -3 else 9)) + 2) / 5 + d - 1 in
  let doe := yoe * 365 + yoe / 4 - yoe / 100 + doy in
  era * 146097 + doe - 719468.

Definition isoDateParse (s : jsstring) : option Z :=
  match s with
  | [y1; y2; y3; y4; h1; m1; m2; h2; d1; d2] =>
      if ((h1 =? 45) && (h2 =? 45))%N then
        match number4 y1 y2 y3 y4, number2 m1 m2, number2 d1 d2 with
        | Some y, Some m, Some d =>
            if (1 <=? m) && (m <=? 12) && (1 <=? d) && (d <=? daysInMonth y m)
            then Some (daysFromCivil y m d * msPerDay)
            else None
        | _, _, _ => None
        end
      else None
  | _ => None
  end.


(* ------------------------------------------------------------------ *)
(** ** Records of the data model *)

Definition Path := jsstring.
Definition UserId := jsstring.
(** A Mongoose [ObjectId], drawn by the model constructor. *)
Definition ObjectId := nat.

(** The object [analyzeDocument] returns and [calculatePriority] reads:
    what [JSON.parse] made of the backend's answer, or a default. *)
Module Analysis.
Record t := mk {
  documentType : Js jsstring;
  category : Js jsstring;
  dueDate : Js jsstring;
  expiryDate : Js jsstring;
  issueDate : Js jsstring;
  amount : Js Q;
  idNumber : Js jsstring;
  provider : Js jsstring;
  priority : Js jsstring;
  summary : Js jsstring
}.
End Analysis.

Inductive Priority := HIGH | MEDIUM | LOW.

Inductive DocumentStatus := ACTIVE | EXPIRED | COMPLETED.

Inductive ReminderType := DUE_DATE | EXPIRY | RENEWAL | PAYMENT | OTHER.

Inductive ReminderStatus := PENDING | REMINDER_COMPLETED | DISMISSED.

(** The [extractedData] sub-document; [None] is [null]. *)
Module ExtractedData.
Record t := mk {
  dueDate : option jsstring;
  expiryDate : option jsstring;
  issueDate : option jsstring;
  amount : option Q;
  idNumber : option jsstring;
  provider : option jsstring;
  rawText : jsstring;
  summary : jsstring
}.
End ExtractedData.

(** A [Document] as the controller hands it to the model constructor.  The
    schema defaults ([uploadedAt]) and the casts of the persistence layer
    are not part of it. *)
Module Document.
Record t := mk {
  _id : ObjectId;
  user : UserId;
  fileName : jsstring;
  fileUrl : Path;
  documentType : jsstring;
  category : jsstring;
  extractedData : ExtractedData.t;
  priority : jsstring;
  status : DocumentStatus
}.
End Document.

Module Reminder.
Record t := mk {
  _id : ObjectId;
  user : UserId;
  document : ObjectId;
  title : jsstring;
  description : jsstring;
  reminderDate : JsDate;
  reminderType : ReminderType;
  status : ReminderStatus
}.
End Reminder.

Definition ReminderType_eqb (a b : ReminderType) : bool :=
  match a, b with
  | DUE_DATE, DUE_DATE | EXPIRY, EXPIRY | RENEWAL, RENEWAL
  | PAYMENT, PAYMENT | OTHER, OTHER => true
  | _, _ => false
  end.

(** [req.file] and [req.user.id]. *)
Record File := { originalname : jsstring; path : Path }.
Record Request := { file : option File; user_id : UserId }.

(** The JSON bodies [uploadDocument] sends. *)
Inductive Body :=
| Failure (message : jsstring) (error : option jsstring)
| Uploaded (message : jsstring) (document : Document.t)
    (analysis : Analysis.t) (remindersCreated : nat)
    (extractedTextLength : nat).

Record Response := { statusCode : Z; json : Body }.

(* ------------------------------------------------------------------ *)
(** ** The world, the environment, the monad *)

(** One write accepted by the persistence layer.  The journal lists them in
    the order they were made durable, oldest first. *)
Inductive Write :=
| DocumentInsert (d : Document.t)
| ReminderInsert (r : Reminder.t).

Record World := {
  files : list Path;        (* the paths that exist in the file store *)
  journal : list Write;     (* the document and reminder stores *)
  clockReads : nat;         (* how often the clock has been read *)
  nextId : ObjectId         (* the next ObjectId to be drawn *)
}.

(** A thrown [Error] is its [message]. *)
Inductive Completion (A : Type) : Type :=
| Normal (a : A)
| Throw (message : jsstring).
Arguments Normal {A} a.
Arguments Throw {A} message.

Record Env := {
  GEMINI_API_KEY : Js jsstring;                 (* process.env.GEMINI_API_KEY *)
  recognize : Path -> Completion (Js jsstring); (* Tesseract: result.data.text *)
  generateContent : jsstring -> Completion jsstring;
      (* the text of Gemini's response to the prompt built from a document
         text, as a function of that text *)
  JSON_parse : jsstring -> Completion Analysis.t;
  Date_parse : jsstring -> option Z;
  clock : nat -> Z;                             (* the n-th reading of the clock *)
  LocalTZA : Z -> bool -> Z;
      (* the offset of the process's time zone, in milliseconds: at the
         time value t when the flag is true, at the local time t otherwise *)
  documentSave : Document.t -> option jsstring; (* [Some m]: save() rejects *)
  reminderSave : Reminder.t -> option jsstring
}.

(** Exceptions keep the effects made before them. *)
Definition M (A : Type) : Type := World -> Completion A * World.

Definition ret {A} (a : A) : M A := fun w => (Normal a, w).

Definition bind {A B} (m : M A) (k : A -> M B) : M B :=
  fun w => match m w with
           | (Normal a, w') => k a w'
           | (Throw e, w') => (Throw e, w')
           end.

Definition throw {A} (message : jsstring) : M A := fun w => (Throw message, w).

(** [try { m } catch (e) { h e }]. *)
Definition tryCatch {A} (m : M A) (h : jsstring -> M A) : M A :=
  fun w => match m w with
           | (Normal a, w') => (Normal a, w')
           | (Throw e, w') => h e w'
           end.

(** Runs [m] and hands its completion to the code after a [try] whose
    [catch] block leaves the function. *)
Definition attempt {A} (m : M A) : M (Completion A) :=
  fun w => let (c, w') := m w in (Normal c, w').

Definition liftCompletion {A} (c : Completion A) : M A := fun w => (c, w).

Declare Scope monad_scope.
Delimit Scope monad_scope with monad.
Notation "x <- m ;; k" := (bind m (fun x => k))
  (at level 61, m at next level, right associativity) : monad_scope.
Notation "m ;; k" := (bind m (fun _ => k))
  (at level 61, right associativity) : monad_scope.
Local Open Scope monad_scope.

Definition pathExists (p : Path) (w : World) : bool :=
  existsb (jsstring_eqb p) (files w).

Definition fs_existsSync (p : Path) : M bool :=
  fun w => (Normal (pathExists p w), w).

Definition fs_unlinkSync (p : Path) : M unit :=
  fun w =>
    if pathExists p w then
      (Normal tt,
       {| files := filter (fun q => negb (jsstring_eqb p q)) (files w);
          journal := journal w; clockReads := clockReads w;
          nextId := nextId w |})
    else (Throw (lit "ENOENT: no such file or directory"), w).

(** The [_id] a Mongoose constructor draws. *)
Definition newObjectId : M ObjectId :=
  fun w => (Normal (nextId w),
            {| files := files w; journal := journal w;
               clockReads := clockReads w; nextId := S (nextId w) |}).

Definition persist (x : Write) (w : World) : World :=
  {| files := files w; journal := journal w ++ [x];
     clockReads := clockReads w; nextId := nextId w |}.

(* ------------------------------------------------------------------ *)
(** ** The services and the controller *)

Section Pipeline.

Variable env : Env.

(** [new Date()]: one reading of the system clock. *)
Definition new_Date_now : M Z :=
  fun w => (Normal (clock env (clockReads w)),
            {| files := files w; journal := journal w;
               clockReads := S (clockReads w); nextId := nextId w |}).

(** [new Date(v)] for a string property [v]: [undefined] is NaN, [null] is
    the epoch, a string goes through [Date.parse]. *)
Definition new_Date (v : Js jsstring) : JsDate :=
  match v with
  | undefined => None
  | null => Some 0
  | val s => match Date_parse env s with
             | Some t => TimeClip t
             | None => None
             end
  end.

Definition Tesseract_recognize (imagePath : Path) : M (Js jsstring) :=
  liftCompletion (recognize env imagePath).

Definition model_generateContent (documentText : jsstring) : M jsstring :=
  liftCompletion (generateContent env documentText).

Definition document_save (d : Document.t) : M unit :=
  fun w => match documentSave env d with
           | None => (Normal tt, persist (DocumentInsert d) w)
           | Some e => (Throw e, w)
           end.

Definition reminder_save (r : Reminder.t) : M unit :=
  fun w => match reminderSave env r with
           | None => (Normal tt, persist (ReminderInsert r) w)
           | Some e => (Throw e, w)
           end.

(** *** services/ocrService.js *)

Definition extractTextFromImage (imagePath : Path) : M jsstring :=
  tryCatch
    (found <- fs_existsSync imagePath ;;
     if negb found then
       throw (lit "Image file not found at path: " ++ imagePath)
     else
       data_text <- Tesseract_recognize imagePath ;;
       let text := orDefault data_text (lit "") in
       let cleanedText := trim (replaceSpaces text) in
       ret cleanedText)
    (fun error => throw (lit "Failed to extract text from image: " ++ error)).

(** *** services/aiService.js *)

(** The default of the inner [catch (parseError)]. *)
Definition manualReviewAnalysis : Analysis.t :=
  {| Analysis.documentType := val (lit "other");
     Analysis.category := val (lit "Personal");
     Analysis.dueDate := null;
     Analysis.expiryDate := null;
     Analysis.issueDate := null;
     Analysis.amount := null;
     Analysis.idNumber := null;
     Analysis.provider := null;
     Analysis.priority := val (lit "MEDIUM");
     Analysis.summary := val (lit "Document uploaded - manual review needed") |}.

(** The default of the outer [catch (error)]. *)
Definition analysisFailedAnalysis : Analysis.t :=
  {| Analysis.documentType := val (lit "other");
     Analysis.category := val (lit "Personal");
     Analysis.dueDate := null;
     Analysis.expiryDate := null;
     Analysis.issueDate := null;
     Analysis.amount := null;
     Analysis.idNumber := null;
     Analysis.provider := null;
     Analysis.priority := val (lit "MEDIUM");
     Analysis.summary := val (lit "Document uploaded - AI analysis failed") |}.

Definition analyzeDocument (extractedText : jsstring) : M Analysis.t :=
  tryCatch
    (if negb (truthy (GEMINI_API_KEY env)) then
       throw (lit "GEMINI_API_KEY not configured")
     else
       responseText <- model_generateContent extractedText ;;
       analysisData <-
         tryCatch
           (match jsonMatch responseText with
            | Some jsonText => liftCompletion (JSON_parse env jsonText)
            | None => throw (lit "No JSON found in response")
            end)
           (fun parseError => ret manualReviewAnalysis) ;;
       ret analysisData)
    (fun error => ret analysisFailedAnalysis).

Definition calculatePriority (data : Analysis.t) : M Priority :=
  now <- new_Date_now ;;
  let targetDate :=
    new_Date (orElse (Analysis.dueDate data) (Analysis.expiryDate data)) in
  if negb (truthy (Analysis.dueDate data))
     && negb (truthy (Analysis.expiryDate data))
  then ret LOW
  else
    let daysUntil := ceilDays targetDate now in
    if leNum daysUntil 7
       || (truthy (Analysis.amount data) && gtNum (Analysis.amount data) 10000)
    then ret HIGH
    else if leNum daysUntil 30
            || (truthy (Analysis.amount data)
                && gtNum (Analysis.amount data) 1000)
    then ret MEDIUM
    else ret LOW.

(** *** controllers/documentController.js *)

(** The analysis of the controller's own [catch (aiError)]: the four
    properties it sets, the others missing. *)
Definition incompleteAnalysis : Analysis.t :=
  {| Analysis.documentType := val (lit "other");
     Analysis.category := val (lit "Personal");
     Analysis.dueDate := undefined;
     Analysis.expiryDate := undefined;
     Analysis.issueDate := undefined;
     Analysis.amount := undefined;
     Analysis.idNumber := undefined;
     Analysis.provider := undefined;
     Analysis.priority := val (lit "MEDIUM");
     Analysis.summary := val (lit "Document uploaded - analysis incomplete") |}.

(** STEP 3, the constructor call. *)
Definition newDocument (id : ObjectId) (user : UserId) (f : File)
    (analysis : Analysis.t) (extractedText : jsstring) : Document.t :=
  {| Document._id := id;
     Document.user := user;
     Document.fileName := originalname f;
     Document.fileUrl := path f;
     Document.documentType :=
       orDefault (Analysis.documentType analysis) (lit "other");
     Document.category := orDefault (Analysis.category analysis) (lit "Personal");
     Document.extractedData :=
       {| ExtractedData.dueDate := orNull (Analysis.dueDate analysis);
          ExtractedData.expiryDate := orNull (Analysis.expiryDate analysis);
          ExtractedData.issueDate := orNull (Analysis.issueDate analysis);
          ExtractedData.amount := orNull (Analysis.amount analysis);
          ExtractedData.idNumber := orNull (Analysis.idNumber analysis);
          ExtractedData.provider := orNull (Analysis.provider analysis);
          ExtractedData.rawText := extractedText;
          ExtractedData.summary :=
            orDefault (Analysis.summary analysis) (lit "Document uploaded") |};
     Document.priority := orDefault (Analysis.priority analysis) (lit "MEDIUM");
     Document.status := ACTIVE |}.

(** STEP 4: the four [new Reminder({...})] of the step, [id] being the
    [_id] the constructor draws. *)
Definition dueReminder (id : ObjectId) (user : UserId) (f : File)
    (document_id : ObjectId) (analysis : Analysis.t) : Reminder.t :=
  {| Reminder._id := id;
     Reminder.user := user;
     Reminder.document := document_id;
     Reminder.title :=
       toString (Analysis.documentType analysis) ++ lit " Payment Due";
     Reminder.description :=
       orDefault (Analysis.summary analysis)
                 (originalname f ++ lit " payment is due");
     Reminder.reminderDate := new_Date (Analysis.dueDate analysis);
     Reminder.reminderType := DUE_DATE;
     Reminder.status := PENDING |}.

Definition advanceReminder (id : ObjectId) (user : UserId) (f : File)
    (document_id : ObjectId) (analysis : Analysis.t) (advanceDate : JsDate)
  : Reminder.t :=
  {| Reminder._id := id;
     Reminder.user := user;
     Reminder.document := document_id;
     Reminder.title :=
       lit "Upcoming: " ++ toString (Analysis.documentType analysis)
           ++ lit " Payment";
     Reminder.description :=
       lit "Reminder: "
           ++ orDefault (Analysis.summary analysis) (originalname f)
           ++ lit " due in 7 days";
     Reminder.reminderDate := advanceDate;
     Reminder.reminderType := DUE_DATE;
     Reminder.status := PENDING |}.

Definition expiryReminder (id : ObjectId) (user : UserId) (f : File)
    (document_id : ObjectId) (analysis : Analysis.t) : Reminder.t :=
  {| Reminder._id := id;
     Reminder.user := user;
     Reminder.document := document_id;
     Reminder.title :=
       toString (Analysis.documentType analysis) ++ lit " Expiring Soon";
     Reminder.description :=
       orDefault (Analysis.summary analysis)
                 (originalname f ++ lit " is expiring");
     Reminder.reminderDate := new_Date (Analysis.expiryDate analysis);
     Reminder.reminderType := EXPIRY;
     Reminder.status := PENDING |}.

Definition advanceExpiryReminder (id : ObjectId) (user : UserId) (f : File)
    (document_id : ObjectId) (analysis : Analysis.t)
    (advanceExpiryDate : JsDate) : Reminder.t :=
  {| Reminder._id := id;
     Reminder.user := user;
     Reminder.document := document_id;
     Reminder.title :=
       lit "Renewal Reminder: " ++ toString (Analysis.documentType analysis);
     Reminder.description :=
       orDefault (Analysis.summary analysis) (originalname f)
         ++ lit " expires in 30 days - consider renewal";
     Reminder.reminderDate := advanceExpiryDate;
     Reminder.reminderType := RENEWAL;
     Reminder.status := PENDING |}.

(** STEP 4, the block for [analysis.dueDate]; [reminders] is the array the
    block pushes to. *)
Definition dueDateReminders (user : UserId) (f : File) (document_id : ObjectId)
    (analysis : Analysis.t) (reminders : list Reminder.t)
  : M (list Reminder.t) :=
  if truthy (Analysis.dueDate analysis) then
    id <- newObjectId ;;
    let due := dueReminder id user f document_id analysis in
    reminder_save due ;;
    let reminders := reminders ++ [due] in
    let advanceDate :=
      setDate_getDate_plus (LocalTZA env)
                           (new_Date (Analysis.dueDate analysis)) (-7) in
    now <- new_Date_now ;;
    if dateGt advanceDate now then
      id <- newObjectId ;;
      let advance :=
        advanceReminder id user f document_id analysis advanceDate in
      reminder_save advance ;;
      ret (reminders ++ [advance])
    else ret reminders
  else ret reminders.

(** STEP 4, the block for [analysis.expiryDate]. *)
Definition expiryDateReminders (user : UserId) (f : File)
    (document_id : ObjectId) (analysis : Analysis.t)
    (reminders : list Reminder.t) : M (list Reminder.t) :=
  if truthy (Analysis.expiryDate analysis) then
    id <- newObjectId ;;
    let expiry := expiryReminder id user f document_id analysis in
    reminder_save expiry ;;
    let reminders := reminders ++ [expiry] in
    let advanceExpiryDate :=
      setDate_getDate_plus (LocalTZA env)
                           (new_Date (Analysis.expiryDate analysis)) (-30) in
    now <- new_Date_now ;;
    if dateGt advanceExpiryDate now then
      id <- newObjectId ;;
      let advanceExpiry :=
        advanceExpiryReminder id user f document_id analysis
                              advanceExpiryDate in
      reminder_save advanceExpiry ;;
      ret (reminders ++ [advanceExpiry])
    else ret reminders
  else ret reminders.

(** STEP 4 as a whole: the reminder-generation step. *)
Definition createReminders (user : UserId) (f : File) (document_id : ObjectId)
    (analysis : Analysis.t) : M (list Reminder.t) :=
  reminders <- dueDateReminders user f document_id analysis [] ;;
  expiryDateReminders user f document_id analysis reminders.

Definition unlinkIfExists (p : Path) : M unit :=
  found <- fs_existsSync p ;;
  if found then fs_unlinkSync p else ret tt.

Definition uploadDocument (req : Request) : M Response :=
  tryCatch
    (match file req with
     | None =>
         ret {| statusCode := 400;
                json := Failure (lit "No file uploaded") None |}
     | Some f =>
         let filePath := path f in
         (* STEP 1 *)
         ocr <- attempt
                  (extractedText <- extractTextFromImage filePath ;;
                   if isEmpty extractedText
                      || (List.length extractedText <? 10)%nat
                   then throw (lit "Insufficient text extracted from image")
                   else ret extractedText) ;;
         match ocr with
         | Throw ocrError =>
             unlinkIfExists filePath ;;
             ret {| statusCode := 400;
                    json := Failure
                      (lit "Could not extract text from image. Please ensure the image is clear and contains readable text.")
                      (Some ocrError) |}
         | Normal extractedText =>
             (* STEP 2 *)
             analysis <- tryCatch (analyzeDocument extractedText)
                                  (fun aiError => ret incompleteAnalysis) ;;
             (* STEP 3 *)
             id <- newObjectId ;;
             let document :=
               newDocument id (user_id req) f analysis extractedText in
             document_save document ;;
             (* STEP 4 *)
             reminders <- createReminders (user_id req) f (Document._id document)
                                          analysis ;;
             (* STEP 5 *)
             ret {| statusCode := 201;
                    json := Uploaded
                      (lit "Document uploaded and analyzed successfully")
                      document analysis (List.length reminders)
                      (List.length extractedText) |}
         end
     end)
    (fun error =>
       match file req with
       | Some f => unlinkIfExists (path f)
       | None => ret tt
       end ;;
       ret {| statusCode := 500;
              json := Failure (lit "Error processing document")
                              (Some error) |}).

End Pipeline.

(* ------------------------------------------------------------------ *)
(** ** The schemas *)

(** The text of an [ObjectId]: 24 hexadecimal digits. *)
Definition isHexDigit (c : N) : bool :=
  ((48 <=? c) && (c <=? 57) || (65 <=? c) && (c <=? 70)
   || (97 <=? c) && (c <=? 102))%N.

Definition isObjectIdText (s : jsstring) : bool :=
  (List.length s =? 24)%nat && forallb isHexDigit s.

Definition oneOf (s : jsstring) (allowed : list string) : bool :=
  existsb (fun a => jsstring_eqb s (lit a)) allowed.

(** [documentSchema] and [reminderSchema] as validators: a record passes
    only if it has every path that is [required], its strings are among the
    values of their [enum], its [user] is the text of an ObjectId and its
    dates can be cast, [parse] being [Date.parse].  [None] is a pass. *)
Definition documentSchema (parse : jsstring -> option Z) (d : Document.t)
  : option jsstring :=
  let castable (v : option jsstring) :=
    match v with
    | None => true
    | Some s => match parse s with
                | Some t => Z.abs t <=? maxTime
                | None => false
                end
    end in
  if isObjectIdText (Document.user d)
     && negb (isEmpty (Document.fileName d))
     && negb (isEmpty (Document.fileUrl d))
     && oneOf (Document.documentType d)
              ["bill"%string; "id"%string; "certificate"%string;
               "medicine"%string; "insurance"%string; "vehicle"%string;
               "warranty"%string; "other"%string]
     && oneOf (Document.category d)
              ["Financial"%string; "Government"%string; "Health"%string;
               "Personal"%string; "Vehicle"%string]
     && oneOf (Document.priority d)
              ["HIGH"%string; "MEDIUM"%string; "LOW"%string]
     && castable (ExtractedData.dueDate (Document.extractedData d))
     && castable (ExtractedData.expiryDate (Document.extractedData d))
     && castable (ExtractedData.issueDate (Document.extractedData d))
  then None
  else Some (lit "Document validation failed").

Definition reminderSchema (r : Reminder.t) : option jsstring :=
  if isObjectIdText (Reminder.user r)
     && negb (isEmpty (Reminder.title r))
     && match Reminder.reminderDate r with Some _ => true | None => false end
  then None
  else Some (lit "Reminder validation failed").

(* ------------------------------------------------------------------ *)
(** ** Scenarios *)

(** A bill and an insurance policy going through the pipeline, used to run
    the definitions on concrete uploads. *)
Module Scenario.

Definition upload : File :=
  {| originalname := lit "bill.png";
     path := lit "uploads/1734739200000-bill.png" |}.

Definition user : UserId := lit "66f0c0ffee0123456789abcd".

Definition request : Request :=
  {| file := Some upload; user_id := user |}.

Definition world : World :=
  {| files := [path upload]; journal := []; clockReads := 0%nat;
     nextId := 0%nat |}.

Definition billText : jsstring :=
  lit "Electricity Bill, Due: 2025-01-10, Amount: 2500".

Definition bill : Analysis.t :=
  {| Analysis.documentType := val (lit "bill");
     Analysis.category := val (lit "Financial");
     Analysis.dueDate := val (lit "2025-01-10");
     Analysis.expiryDate := null;
     Analysis.issueDate := null;
     Analysis.amount := val (2500 # 1);
     Analysis.idNumber := null;
     Analysis.provider := null;
     Analysis.priority := val (lit "MEDIUM");
     Analysis.summary := val (lit "Electricity bill of 2500 due 2025-01-10") |}.

Definition policy : Analysis.t :=
  {| Analysis.documentType := val (lit "insurance");
     Analysis.category := val (lit "Health");
     Analysis.dueDate := null;
     Analysis.expiryDate := val (lit "2025-03-01");
     Analysis.issueDate := val (lit "2024-03-01");
     Analysis.amount := null;
     Analysis.idNumber := val (lit "POL-778");
     Analysis.provider := val (lit "Acme Health");
     Analysis.priority := val (lit "LOW");
     Analysis.summary := val (lit "Health insurance policy") |}.

(** A bill whose amount the analyzer reports as zero. *)
Definition freeBill : Analysis.t :=
  {| Analysis.documentType := val (lit "bill");
     Analysis.category := val (lit "Financial");
     Analysis.dueDate := val (lit "2025-01-10");
     Analysis.expiryDate := null;
     Analysis.issueDate := null;
     Analysis.amount := val (0 # 1);
     Analysis.idNumber := val (lit "");
     Analysis.provider := null;
     Analysis.priority := val (lit "LOW");
     Analysis.summary := val (lit "Zero balance statement") |}.

(** 2025-01-10T00:00:00Z and days around it. *)
Definition jan10 : Z := 1736467200000.
Definition dec21 : Z := jan10 - 20 * msPerDay.
Definition jan01 : Z := jan10 - 9 * msPerDay.
Definition jan05 : Z := jan10 - 5 * msPerDay.
Definition jan07 : Z := jan10 - 3 * msPerDay.
(** 2025-03-01T00:00:00Z is 45 days after 2025-01-15. *)
Definition mar01 : Z := 1740787200000.
Definition jan15 : Z := mar01 - 45 * msPerDay.

(** 2025-03-09 and 2025-11-02, the days on which clocks change in New York
    in 2025, and an hour. *)
Definition mar09 : Z := jan10 + 58 * msPerDay.
Definition nov02 : Z := jan10 + 296 * msPerDay.
Definition hour : Z := 3600000.

(** UTC, and New York in 2025: five hours behind UTC, four from
    2025-03-09T07:00Z to 2025-11-02T06:00Z; a local time that the change
    skips or repeats is read with the offset from before the change. *)
Definition utc : Z -> bool -> Z := fun _ _ => 0.

Definition newYork2025 (t : Z) (isUTC : bool) : Z :=
  if isUTC then
    if (mar09 + 7 * hour <=? t) && (t <? nov02 + 6 * hour)
    then -4 * hour else -5 * hour
  else
    if (mar09 + 3 * hour <=? t) && (t <? nov02 + 2 * hour)
    then -4 * hour else -5 * hour.

(** An environment in which Tesseract answers [ocr], Gemini wraps a JSON
    object that parses to [parsed], the clock reads [time n] at its n-th
    reading, the process runs on UTC, the stores accept what the schemas
    accept, and reminder writes are rejected with [rejected] if it is a
    message. *)
Definition env (ocr : Completion (Js jsstring)) (parsed : Analysis.t)
    (time : nat -> Z) (rejected : option jsstring) : Env :=
  {| GEMINI_API_KEY := val (lit "AIza-test-key");
     recognize := fun _ => ocr;
     generateContent := fun _ => Normal (lit "Here you go: {...} Done.");
     JSON_parse := fun _ => Normal parsed;
     Date_parse := isoDateParse;
     clock := time;
     LocalTZA := utc;
     documentSave := documentSchema isoDateParse;
     reminderSave := fun r => match rejected with
                              | Some m => Some m
                              | None => reminderSchema r
                              end |}.

(** The same environment in another time zone. *)
Definition inZone (tza : Z -> bool -> Z) (e : Env) : Env :=
  {| GEMINI_API_KEY := GEMINI_API_KEY e;
     recognize := recognize e;
     generateContent := generateContent e;
     JSON_parse := JSON_parse e;
     Date_parse := Date_parse e;
     clock := clock e;
     LocalTZA := tza;
     documentSave := documentSave e;
     reminderSave := reminderSave e |}.

(** The same environment with a reminder store that rejects, with [m], the
    reminders [p] selects. *)
Definition rejecting (p : Reminder.t -> bool) (m : jsstring) (e : Env) : Env :=
  {| GEMINI_API_KEY := GEMINI_API_KEY e;
     recognize := recognize e;
     generateContent := generateContent e;
     JSON_parse := JSON_parse e;
     Date_parse := Date_parse e;
     clock := clock e;
     LocalTZA := LocalTZA e;
     documentSave := documentSave e;
     reminderSave := fun r => if p r then Some m else reminderSave e r |}.

(** A backend that answers in prose, without any JSON object. *)
Definition proseBackend : Env :=
  {| GEMINI_API_KEY := val (lit "AIza-test-key");
     recognize := fun _ => Normal (val billText);
     generateContent := fun _ => Normal (lit "Sorry, I cannot read this.");
     JSON_parse := fun _ => Normal bill;
     Date_parse := isoDateParse;
     clock := fun _ => dec21;
     LocalTZA := utc;
     documentSave := documentSchema isoDateParse;
     reminderSave := reminderSchema |}.

(** A bill due on 2025-03-15 and a policy expiring on 2025-03-20: a week
    before the one and thirty days before the other, New York is on another
    offset. *)
Definition marchBill : Analysis.t :=
  {| Analysis.documentType := val (lit "bill");
     Analysis.category := val (lit "Financial");
     Analysis.dueDate := val (lit "2025-03-15");
     Analysis.expiryDate := null;
     Analysis.issueDate := null;
     Analysis.amount := val (2500 # 1);
     Analysis.idNumber := null;
     Analysis.provider := null;
     Analysis.priority := val (lit "MEDIUM");
     Analysis.summary := val (lit "Electricity bill of 2500 due 2025-03-15") |}.

Definition marchPolicy : Analysis.t :=
  {| Analysis.documentType := val (lit "insurance");
     Analysis.category := val (lit "Health");
     Analysis.dueDate := null;
     Analysis.expiryDate := val (lit "2025-03-20");
     Analysis.issueDate := null;
     Analysis.amount := null;
     Analysis.idNumber := null;
     Analysis.provider := null;
     Analysis.priority := val (lit "LOW");
     Analysis.summary := val (lit "Health insurance policy") |}.

(** 2025-03-15T00:00:00Z and 2025-03-20T00:00:00Z. *)
Definition mar15 : Z := jan10 + 64 * msPerDay.
Definition mar20 : Z := jan10 + 69 * msPerDay.

(** A bill due on 2025-03-06 that also names an expiry on 2025-01-08. *)
Definition lateBill : Analysis.t :=
  {| Analysis.documentType := val (lit "bill");
     Analysis.category := val (lit "Financial");
     Analysis.dueDate := val (lit "2025-03-06");
     Analysis.expiryDate := val (lit "2025-01-08");
     Analysis.issueDate := null;
     Analysis.amount := val (500 # 1);
     Analysis.idNumber := null;
     Analysis.provider := null;
     Analysis.priority := val (lit "LOW");
     Analysis.summary := val (lit "Offer valid until 2025-01-08") |}.

End Scenario.

(** What identifies a reminder for a reader: type, title and date. *)
Definition brief (r : Reminder.t) : ReminderType * jsstring * JsDate :=
  (Reminder.reminderType r, Reminder.title r, Reminder.reminderDate r).

Definition ofType (ty : ReminderType) (rs : list Reminder.t) : list Reminder.t :=
  filter (fun r => ReminderType_eqb (Reminder.reminderType r) ty) rs.

Definition notOfType (ty : ReminderType) (rs : list Reminder.t)
  : list Reminder.t :=
  filter (fun r => negb (ReminderType_eqb (Reminder.reminderType r) ty)) rs.

(* ------------------------------------------------------------------ *)
(** ** Worlds after a cleanup *)

(** The world once [p] has been unlinked from it. *)
Definition unlinked (p : Path) (w : World) : World :=
  {| files := filter (fun q => negb (jsstring_eqb p q)) (files w);
     journal := journal w; clockReads := clockReads w; nextId := nextId w |}.

(** The world [unlinkIfExists p] leaves. *)
Definition cleaned (p : Path) (w : World) : World :=
  if pathExists p w then unlinked p w else w.

(* ------------------------------------------------------------------ *)
(** ** What STEP 4 leaves behind *)

Section ReminderOutcomes.

Variable env : Env.
Variables (user : UserId) (f : File) (document_id : ObjectId).
Variable analysis : Analysis.t.

(** A reminder the step makes belongs to its document and its user. *)
Definition tagged (r : Reminder.t) : Prop :=
  Reminder.document r = document_id /\ Reminder.user r = user.

(** What a block leaves behind, whether it ends normally or throws: the
    reminders [news] it persisted, in order, and nothing else. *)
Definition blockOutcome (reminders : list Reminder.t) (w : World)
    (run : Completion (list Reminder.t) * World) : Prop :=
  exists news,
    journal (snd run) = journal w ++ map ReminderInsert news
    /\ files (snd run) = files w
    /\ Forall tagged news
    /\ match fst run with
       | Normal rs => rs = reminders ++ news
       | Throw m => exists r, reminderSave env r = Some m
       end.

(** The reminders each block sets out to write from [w], in order. *)
Definition dueNews (w : World) : list Reminder.t :=
  if truthy (Analysis.dueDate analysis) then
    let advanceDate :=
      setDate_getDate_plus (LocalTZA env)
                           (new_Date env (Analysis.dueDate analysis)) (-7) in
    dueReminder env (nextId w) user f document_id analysis
    :: (if dateGt advanceDate (clock env (clockReads w))
        then [advanceReminder (S (nextId w)) user f document_id analysis
                              advanceDate]
        else [])
  else [].

Definition expiryNews (w : World) : list Reminder.t :=
  if truthy (Analysis.expiryDate analysis) then
    let advanceExpiryDate :=
      setDate_getDate_plus (LocalTZA env)
                           (new_Date env (Analysis.expiryDate analysis))
                           (-30) in
    expiryReminder env (nextId w) user f document_id analysis
    :: (if dateGt advanceExpiryDate (clock env (clockReads w))
        then [advanceExpiryReminder (S (nextId w)) user f document_id
                                    analysis advanceExpiryDate]
        else [])
  else [].

End ReminderOutcomes.

(* ------------------------------------------------------------------ *)
(** ** Failure modes of the analyzer's backend *)

(** The ways the generative backend lets [analyzeDocument] down on a text:
    no credential configured, an error of the backend or the network, a
    response in which no JSON object can be found, and a response whose
    braces do not enclose parsable JSON. *)
Inductive AnalyzerFailure (env : Env) (text : jsstring) : Prop :=
| MissingCredential :
    truthy (GEMINI_API_KEY env) = false -> AnalyzerFailure env text
| BackendError (m : jsstring) :
    generateContent env text = Throw m -> AnalyzerFailure env text
| NoJsonObject (responseText : jsstring) :
    generateContent env text = Normal responseText ->
    jsonMatch responseText = None -> AnalyzerFailure env text
| UnparsableJson (responseText jsonText m : jsstring) :
    generateContent env text = Normal responseText ->
    jsonMatch responseText = Some jsonText ->
    JSON_parse env jsonText = Throw m -> AnalyzerFailure env text.

(* ------------------------------------------------------------------ *)
(** ** The priority rule in words *)

(** The date [target] is at most [n] days after [now]; an Invalid Date is
    at no distance. *)
Definition withinDays (target : JsDate) (now n : Z) : Prop :=
  exists t, target = Some t /\ t - now <= n * msPerDay.

(** The amount is a number greater than [k]. *)
Definition amountAbove (x : Js Q) (k : Z) : Prop :=
  exists q, x = val q /\ (inject_Z k < q)%Q.

(** The amount is a number in the interval (lo, hi]. *)
Definition amountBetween (x : Js Q) (lo hi : Z) : Prop :=
  exists q, x = val q /\ (inject_Z lo < q)%Q /\ (q <= inject_Z hi)%Q.

(** The world once an [ObjectId] has been drawn from it. *)
Definition drawn (w : World) : World :=
  {| files := files w; journal := journal w; clockReads := clockReads w;
     nextId := S (nextId w) |}.

(** The analysis with another [amount]. *)
Definition withAmount (a : Analysis.t) (x : Js Q) : Analysis.t :=
  {| Analysis.documentType := Analysis.documentType a;
     Analysis.category := Analysis.category a;
     Analysis.dueDate := Analysis.dueDate a;
     Analysis.expiryDate := Analysis.expiryDate a;
     Analysis.issueDate := Analysis.issueDate a;
     Analysis.amount := x;
     Analysis.idNumber := Analysis.idNumber a;
     Analysis.provider := Analysis.provider a;
     Analysis.priority := Analysis.priority a;
     Analysis.summary := Analysis.summary a |}.

(** The two bodies of the controller's failure answers. *)
Definition serverError (m : jsstring) : Response :=
  {| statusCode := 500;
     json := Failure (lit "Error processing document") (Some m) |}.

Definition created (document : Document.t) (analysis : Analysis.t)
    (reminders : list Reminder.t) (extractedText : jsstring) : Response :=
  {| statusCode := 201;
     json := Uploaded (lit "Document uploaded and analyzed successfully")
                      document analysis (List.length reminders)
                      (List.length extractedText) |}.

Ltac unfold_monad :=
  unfold tryCatch, attempt, bind, ret, throw, liftCompletion,
         fs_existsSync, fs_unlinkSync, newObjectId, new_Date_now,
         Tesseract_recognize, model_generateContent,
         document_save, reminder_save in *.

From Stdlib Require Import DecimalString Sorted.

(* ------------------------------------------------------------------ *)
(** ** Shapes of strings *)

(** The text [extractTextFromImage] returns for what the recognizer read. *)
Definition cleanedText (raw : Js jsstring) : jsstring :=
  trim (replaceSpaces (orDefault raw (lit ""))).

(** White space occurs only as single U+0020 characters, never two in a
    row. *)
Fixpoint singleSpaced (s : jsstring) : bool :=
  match s with
  | [] => true
  | c :: rest =>
      if isSpace c then
        (c =? 32)%N
        && match rest with
           | [] => true
           | d :: _ => negb (isSpace d)
           end
        && singleSpaced rest
      else singleSpaced rest
  end.

(** The first and the last character, if any, are not white space. *)
Definition unpadded (s : jsstring) : Prop :=
  (forall c rest, s = c :: rest -> isSpace c = false)
  /\ (forall front c, s = front ++ [c] -> isSpace c = false).

(* ------------------------------------------------------------------ *)
(** ** The reminders of a run, and the ways a run ends *)

Section ReminderPlan.

Variable env : Env.
Variables (user : UserId) (f : File) (document_id : ObjectId).
Variable analysis : Analysis.t.

(** The world as the expiry block finds it when the due-date block has
    ended normally, as far as identifiers and the clock go. *)
Definition afterDueBlock (w : World) : World :=
  {| files := files w;
     journal := journal w;
     clockReads :=
       (clockReads w + if truthy (Analysis.dueDate analysis) then 1 else 0)%nat;
     nextId :=
       (nextId w
        + List.length (dueNews env user f document_id analysis w))%nat |}.

(** The reminders STEP 4 sets out to write from [w], in the order in which it
    writes them. *)
Definition plannedReminders (w : World) : list Reminder.t :=
  dueNews env user f document_id analysis w
  ++ expiryNews env user f document_id analysis (afterDueBlock w).

(** What a block has done of its plan [plan]: it has written [news], the
    reminders before the one whose write was rejected, or all of them. *)
Definition blockProgress (plan : list Reminder.t) (reminders : list Reminder.t)
    (w : World) (run : Completion (list Reminder.t) * World) : Prop :=
  exists news rest,
    plan = news ++ rest
    /\ journal (snd run) = journal w ++ map ReminderInsert news
    /\ files (snd run) = files w
    /\ match fst run with
       | Normal rs => rs = reminders ++ news /\ rest = []
       | Throw m =>
           exists r rest', rest = r :: rest' /\ reminderSave env r = Some m
       end.

End ReminderPlan.

(** The hint of the answer to a failed extraction. *)
Definition extractionHint : jsstring :=
  lit "Could not extract text from image. Please ensure the image is clear and contains readable text.".

(** The ways a run of [uploadDocument] on [req] from [w] ends: the answer
    and the world it leaves. *)
Inductive Ingested (env : Env) (req : Request) (w : World)
  : Response -> World -> Prop :=
| ingested_no_file :
    file req = None ->
    Ingested env req w
      {| statusCode := 400; json := Failure (lit "No file uploaded") None |} w
| ingested_extraction_failed (f : File) (m : jsstring) :
    file req = Some f ->
    extractTextFromImage env (path f) w = (Throw m, w) ->
    Ingested env req w
      {| statusCode := 400; json := Failure extractionHint (Some m) |}
      (cleaned (path f) w)
| ingested_insufficient_text (f : File) (text : jsstring) :
    file req = Some f ->
    extractTextFromImage env (path f) w = (Normal text, w) ->
    (List.length text < 10)%nat ->
    Ingested env req w
      {| statusCode := 400;
         json := Failure extractionHint
                   (Some (lit "Insufficient text extracted from image")) |}
      (cleaned (path f) w)
| ingested_document_rejected (f : File) (text : jsstring) (a : Analysis.t)
    (m : jsstring) :
    file req = Some f ->
    extractTextFromImage env (path f) w = (Normal text, w) ->
    (10 <= List.length text)%nat ->
    analyzeDocument env text w = (Normal a, w) ->
    documentSave env (newDocument (nextId w) (user_id req) f a text) = Some m ->
    Ingested env req w (serverError m) (cleaned (path f) (drawn w))
| ingested_reminder_rejected (f : File) (text : jsstring) (a : Analysis.t)
    (m : jsstring) (w' : World) :
    file req = Some f ->
    extractTextFromImage env (path f) w = (Normal text, w) ->
    (10 <= List.length text)%nat ->
    analyzeDocument env text w = (Normal a, w) ->
    documentSave env (newDocument (nextId w) (user_id req) f a text) = None ->
    createReminders env (user_id req) f (nextId w) a
      (persist (DocumentInsert (newDocument (nextId w) (user_id req) f a text))
               (drawn w))
    = (Throw m, w') ->
    Ingested env req w (serverError m) (cleaned (path f) w')
| ingested_created (f : File) (text : jsstring) (a : Analysis.t)
    (rs : list Reminder.t) (w' : World) :
    file req = Some f ->
    extractTextFromImage env (path f) w = (Normal text, w) ->
    (10 <= List.length text)%nat ->
    analyzeDocument env text w = (Normal a, w) ->
    documentSave env (newDocument (nextId w) (user_id req) f a text) = None ->
    createReminders env (user_id req) f (nextId w) a
      (persist (DocumentInsert (newDocument (nextId w) (user_id req) f a text))
               (drawn w))
    = (Normal rs, w') ->
    Ingested env req w
      (created (newDocument (nextId w) (user_id req) f a text) a rs text) w'.

(** The reminders among some writes, in order. *)
Fixpoint reminderWrites (l : list Write) : list Reminder.t :=
  match l with
  | [] => []
  | ReminderInsert r :: rest => r :: reminderWrites rest
  | DocumentInsert _ :: rest => reminderWrites rest
  end.

(** The orders in which STEP 4 can have written reminders: due, upcoming,
    expiry, renewal, without what does not apply. *)
Definition inStepOrder (types : list ReminderType) : bool :=
  match types with
  | []
  | [DUE_DATE] | [DUE_DATE; DUE_DATE]
  | [EXPIRY] | [EXPIRY; RENEWAL]
  | [DUE_DATE; EXPIRY] | [DUE_DATE; EXPIRY; RENEWAL]
  | [DUE_DATE; DUE_DATE; EXPIRY]
  | [DUE_DATE; DUE_DATE; EXPIRY; RENEWAL] => true
  | _ => false
  end.

(* ------------------------------------------------------------------ *)
(** ** Priorities in order, an analysis with another expiry date *)

Definition urgency (p : Priority) : nat :=
  match p with LOW => 0 | MEDIUM => 1 | HIGH => 2 end.

Definition withExpiryDate (a : Analysis.t) (x : Js jsstring) : Analysis.t :=
  {| Analysis.documentType := Analysis.documentType a;
     Analysis.category := Analysis.category a;
     Analysis.dueDate := Analysis.dueDate a;
     Analysis.expiryDate := x;
     Analysis.issueDate := Analysis.issueDate a;
     Analysis.amount := Analysis.amount a;
     Analysis.idNumber := Analysis.idNumber a;
     Analysis.provider := Analysis.provider a;
     Analysis.priority := Analysis.priority a;
     Analysis.summary := Analysis.summary a |}.

(* ------------------------------------------------------------------ *)
(** ** server.js: the two test routes and the error handler *)

Inductive TestBody :=
| TestFailure (message : jsstring)
| AiResult (analysis : Analysis.t) (priority : Priority)
| OcrResult (extractedText : jsstring).

Record TestResponse := { testStatus : Z; testJson : TestBody }.

(** A double quote inside a message. *)
Definition quoted (s : jsstring) : jsstring := [34%N] ++ s ++ [34%N].


(** [req.body.text] for a body that is an object: a value of JSON, or
    [undefined] when the body has no [text]. *)
Inductive BodyValue :=
| Missing
| JsonNull
| JsonBool (b : bool)
| JsonNumber (q : Q)
| JsonString (s : jsstring)
| JsonArray
| JsonObject.

#[export] Instance BodyValue_ToBoolean : ToBoolean BodyValue :=
  fun v => match v with
           | Missing | JsonNull => false
           | JsonBool b => b
           | JsonNumber q => truthy q
           | JsonString s => truthy s
           | JsonArray | JsonObject => true
           end.


Section TestRoutes.

Variable env : Env.


(** [POST /api/test/ocr]. *)
Definition testOcr (req : Request) : M TestResponse :=
  tryCatch
    (match file req with
     | None =>
         ret {| testStatus := 400;
                testJson := TestFailure
                  (lit "Please upload an image with field name "
                       ++ quoted (lit "file")) |}
     | Some f =>
         extractedText <- extractTextFromImage env (path f) ;;
         ret {| testStatus := 200; testJson := OcrResult extractedText |}
     end)
    (fun err => ret {| testStatus := 500; testJson := TestFailure err |}).

End TestRoutes.

(** A bill for which the analyzer named no document type. *)
Definition untypedBill : Analysis.t :=
  {| Analysis.documentType := undefined;
     Analysis.category := val (lit "Financial");
     Analysis.dueDate := val (lit "2025-01-10");
     Analysis.expiryDate := val (lit "2025-03-01");
     Analysis.issueDate := null;
     Analysis.amount := val (2500 # 1);
     Analysis.idNumber := null;
     Analysis.provider := null;
     Analysis.priority := val (lit "MEDIUM");
     Analysis.summary := val (lit "A bill") |}.

(* ------------------------------------------------------------------ *)
(** ** The stored records, Mongoose calls that can be rejected *)

(** The collections hold what the journal holds: a delete takes the entry of
    a record out of it, an update rewrites the entry where it stands. *)
Fixpoint documentWrites (l : list Write) : list Document.t :=
  match l with
  | [] => []
  | DocumentInsert d :: rest => d :: documentWrites rest
  | ReminderInsert _ :: rest => documentWrites rest
  end.

Definition documentsOf (w : World) : list Document.t :=
  documentWrites (journal w).

Definition remindersOf (w : World) : list Reminder.t :=
  reminderWrites (journal w).

Definition withJournal (w : World) (l : list Write) : World :=
  {| files := files w; journal := l; clockReads := clockReads w;
     nextId := nextId w |}.

(** The error of a rejected Mongoose call: its [kind], which is "ObjectId"
    when an id could not be cast, and its message. *)
Record MongooseError := { kind : Js jsstring; message : jsstring }.

Inductive Settled (A : Type) : Type :=
| Fulfilled (a : A)
| Rejected (error : MongooseError).
Arguments Fulfilled {A} a.
Arguments Rejected {A} error.

Definition K (A : Type) : Type := World -> Settled A * World.

Definition retK {A} (a : A) : K A := fun w => (Fulfilled a, w).

Definition bindK {A B} (m : K A) (k : A -> K B) : K B :=
  fun w => match m w with
           | (Fulfilled a, w') => k a w'
           | (Rejected e, w') => (Rejected e, w')
           end.

Definition rejectK {A} (e : MongooseError) : K A := fun w => (Rejected e, w).

Definition tryCatchK {A} (m : K A) (h : MongooseError -> K A) : K A :=
  fun w => match m w with
           | (Fulfilled a, w') => (Fulfilled a, w')
           | (Rejected e, w') => h e w'
           end.

(** A computation of the pipeline's monad inside a handler; what it throws
    is a plain [Error]. *)
Definition liftM {A} (m : M A) : K A :=
  fun w => match m w with
           | (Normal a, w') => (Fulfilled a, w')
           | (Throw e, w') => (Rejected {| kind := undefined; message := e |}, w')
           end.

Declare Scope crud_scope.
Delimit Scope crud_scope with crud.
Notation "x <- m ;; k" := (bindK m (fun x => k))
  (at level 61, m at next level, right associativity) : crud_scope.
Notation "m ;; k" := (bindK m (fun _ => k))
  (at level 61, right associativity) : crud_scope.

(** [req.params.id]: the text of an ObjectId, or a string Mongoose cannot
    cast to one. *)
Inductive IdParam :=
| ObjectIdString (id : ObjectId)
| NotAnObjectId (s : jsstring).

(** A request for one record: [req.params.id] and [req.user.id]. *)
Record ItemRequest := { params_id : IdParam; requester : UserId }.

(** [req.body.reminderIds]: falsy, something that is not an array, or an
    array of ids. *)
Inductive IdsBody :=
| NoIds
| NotAnArray
| IdArray (ids : list IdParam).

Record BulkRequest := { reminderIds : IdsBody; bulk_requester : UserId }.

(** [req.body.days] as [snoozeReminder] sees it: what [parseInt] makes of it
    ([None] is NaN) and how a template literal shows it. *)
Record DaysValue := { parseInt : option Z; shown : jsstring }.

(** What the database does to the calls of one request other than [save]:
    the message with which it rejects a call, if it does, and the message of
    Mongoose's CastError for a string that is no ObjectId. *)
Record Faults := {
  findById_fault : option jsstring;
  deleteOne_fault : option jsstring;
  deleteMany_fault : option jsstring;
  updateMany_fault : option jsstring;
  castErrorMessage : jsstring -> jsstring
}.

(** The JSON bodies of the handlers of single records. *)
Inductive Payload :=
| Notice (success : bool) (message : jsstring) (error : option jsstring)
| ReminderData (message : option jsstring) (data : Reminder.t)
| PopulatedReminder (data : Reminder.t) (document : option Document.t)
| DocumentData (data : Document.t)
| Counted (message : jsstring) (count : nat).

Record Reply := { code : Z; payload : Payload }.

Definition decimal (n : nat) : jsstring :=
  lit (NilEmpty.string_of_uint (Nat.to_uint n)).

Definition withStatus (r : Reminder.t) (s : ReminderStatus) : Reminder.t :=
  {| Reminder._id := Reminder._id r;
     Reminder.user := Reminder.user r;
     Reminder.document := Reminder.document r;
     Reminder.title := Reminder.title r;
     Reminder.description := Reminder.description r;
     Reminder.reminderDate := Reminder.reminderDate r;
     Reminder.reminderType := Reminder.reminderType r;
     Reminder.status := s |}.

Definition withReminderDate (r : Reminder.t) (d : JsDate) : Reminder.t :=
  {| Reminder._id := Reminder._id r;
     Reminder.user := Reminder.user r;
     Reminder.document := Reminder.document r;
     Reminder.title := Reminder.title r;
     Reminder.description := Reminder.description r;
     Reminder.reminderDate := d;
     Reminder.reminderType := Reminder.reminderType r;
     Reminder.status := Reminder.status r |}.

Definition ReminderStatus_eqb (a b : ReminderStatus) : bool :=
  match a, b with
  | PENDING, PENDING | REMINDER_COMPLETED, REMINDER_COMPLETED
  | DISMISSED, DISMISSED => true
  | _, _ => false
  end.

(** The entry of the first reminder with the [_id] of [r] becomes [r]. *)
Fixpoint updateReminder (r : Reminder.t) (l : list Write) : list Write :=
  match l with
  | [] => []
  | ReminderInsert x :: rest =>
      if (Reminder._id x =? Reminder._id r)%nat then ReminderInsert r :: rest
      else ReminderInsert x :: updateReminder r rest
  | DocumentInsert d :: rest => DocumentInsert d :: updateReminder r rest
  end.

(** The entry of the first reminder with this [_id] goes. *)
Fixpoint removeReminder (id : ObjectId) (l : list Write) : list Write :=
  match l with
  | [] => []
  | ReminderInsert x :: rest =>
      if (Reminder._id x =? id)%nat then rest
      else ReminderInsert x :: removeReminder id rest
  | DocumentInsert d :: rest => DocumentInsert d :: removeReminder id rest
  end.

(** The entry of the first document with this [_id] goes. *)
Fixpoint removeDocument (id : ObjectId) (l : list Write) : list Write :=
  match l with
  | [] => []
  | DocumentInsert x :: rest =>
      if (Document._id x =? id)%nat then rest
      else DocumentInsert x :: removeDocument id rest
  | ReminderInsert r :: rest => ReminderInsert r :: removeDocument id rest
  end.

(** The reminders a filter selects, and the entries left without them. *)
Definition selected (q : Reminder.t -> bool) (l : list Write)
  : list Reminder.t :=
  filter q (reminderWrites l).

Definition withoutReminders (q : Reminder.t -> bool) (l : list Write)
  : list Write :=
  filter (fun x => match x with
                   | ReminderInsert r => negb (q r)
                   | DocumentInsert _ => true
                   end) l.

(** [$set: { status: 'COMPLETED' }] on the reminders a filter selects. *)
Definition completeSelected (q : Reminder.t -> bool) (l : list Write)
  : list Write :=
  map (fun x => match x with
                | ReminderInsert r =>
                    if q r then ReminderInsert (withStatus r REMINDER_COMPLETED)
                    else x
                | DocumentInsert _ => x
                end) l.

(** [_id: { $in: ids }] once the ids are cast. *)
Fixpoint castIds (ids : list IdParam) : jsstring + list ObjectId :=
  match ids with
  | [] => inr []
  | NotAnObjectId s :: _ => inl s
  | ObjectIdString id :: rest =>
      match castIds rest with
      | inl s => inl s
      | inr l => inr (id :: l)
      end
  end.

Definition idIn (l : list ObjectId) (id : ObjectId) : bool :=
  existsb (Nat.eqb id) l.

(* ------------------------------------------------------------------ *)
(** ** The handlers of single records and of batches *)

Section Crud.

Variable env : Env.
Variable faults : Faults.

Local Open Scope crud_scope.

Definition castError {A} (s : jsstring) : K A :=
  rejectK {| kind := val (lit "ObjectId");
             message := castErrorMessage faults s |}.

Definition databaseError {A} (m : jsstring) : K A :=
  rejectK {| kind := undefined; message := m |}.

(** [Reminder.findById(id)]. *)
Definition Reminder_findById (p : IdParam) : K (option Reminder.t) :=
  match p with
  | NotAnObjectId s => castError s
  | ObjectIdString id =>
      match findById_fault faults with
      | Some m => databaseError m
      | None =>
          fun w => (Fulfilled
                      (find (fun r => (Reminder._id r =? id)%nat)
                            (remindersOf w)), w)
      end
  end.

(** [Document.findById(id)]. *)
Definition Document_findById (p : IdParam) : K (option Document.t) :=
  match p with
  | NotAnObjectId s => castError s
  | ObjectIdString id =>
      match findById_fault faults with
      | Some m => databaseError m
      | None =>
          fun w => (Fulfilled
                      (find (fun d => (Document._id d =? id)%nat)
                            (documentsOf w)), w)
      end
  end.

(** [reminder.save()] on a reminder that was found and changed. *)
Definition Reminder_resave (r : Reminder.t) : K unit :=
  fun w => match reminderSave env r with
           | Some m => (Rejected {| kind := undefined; message := m |}, w)
           | None => (Fulfilled tt, withJournal w (updateReminder r (journal w)))
           end.

(** [reminder.deleteOne()]. *)
Definition Reminder_deleteOne (r : Reminder.t) : K unit :=
  match deleteOne_fault faults with
  | Some m => databaseError m
  | None =>
      fun w => (Fulfilled tt,
                withJournal w (removeReminder (Reminder._id r) (journal w)))
  end.

(** [document.deleteOne()]. *)
Definition Document_deleteOne (d : Document.t) : K unit :=
  match deleteOne_fault faults with
  | Some m => databaseError m
  | None =>
      fun w => (Fulfilled tt,
                withJournal w (removeDocument (Document._id d) (journal w)))
  end.

(** [Reminder.deleteMany(filter)]: the [deletedCount]. *)
Definition Reminder_deleteMany (q : Reminder.t -> bool) : K nat :=
  match deleteMany_fault faults with
  | Some m => databaseError m
  | None =>
      fun w => (Fulfilled (List.length (selected q (journal w))),
                withJournal w (withoutReminders q (journal w)))
  end.

(** [Reminder.updateMany(filter, { $set: { status: 'COMPLETED' } })]: the
    [modifiedCount], which leaves out the reminders that were COMPLETED
    already. *)
Definition Reminder_completeMany (q : Reminder.t -> bool) : K nat :=
  match updateMany_fault faults with
  | Some m => databaseError m
  | None =>
      fun w =>
        (Fulfilled
           (List.length
              (selected (fun r => q r
                                  && negb (ReminderStatus_eqb
                                             (Reminder.status r)
                                             REMINDER_COMPLETED))
                        (journal w))),
         withJournal w (completeSelected q (journal w)))
  end.

Definition isObjectIdError (error : MongooseError) : bool :=
  match kind error with
  | val k => jsstring_eqb k (lit "ObjectId")
  | _ => false
  end.

Definition notice (status : Z) (m : jsstring) : Reply :=
  {| code := status; payload := Notice false m None |}.

(** The [catch] block the reminder handlers share, up to the message. *)
Definition reminderCatch (failed : jsstring) (error : MongooseError) : K Reply :=
  if isObjectIdError error then retK (notice 400 (lit "Invalid reminder ID"))
  else retK {| code := 500;
               payload := Notice false failed (Some (message error)) |}.

(** *** controllers/reminderController.js *)

Definition getReminder (req : ItemRequest) : K Reply :=
  tryCatchK
    (found <- Reminder_findById (params_id req) ;;
     match found with
     | None => retK (notice 404 (lit "Reminder not found"))
     | Some reminder =>
         if negb (jsstring_eqb (Reminder.user reminder) (requester req)) then
           retK (notice 403 (lit "Not authorized to access this reminder"))
         else
           fun w =>
             (Fulfilled
                {| code := 200;
                   payload := PopulatedReminder reminder
                     (find (fun d => (Document._id d
                                      =? Reminder.document reminder)%nat)
                           (documentsOf w)) |}, w)
     end)
    (reminderCatch (lit "Error fetching reminder")).

Definition completeReminder (req : ItemRequest) : K Reply :=
  tryCatchK
    (found <- Reminder_findById (params_id req) ;;
     match found with
     | None => retK (notice 404 (lit "Reminder not found"))
     | Some reminder =>
         if negb (jsstring_eqb (Reminder.user reminder) (requester req)) then
           retK (notice 403 (lit "Not authorized to update this reminder"))
         else
           let reminder := withStatus reminder REMINDER_COMPLETED in
           Reminder_resave reminder ;;
           retK {| code := 200;
                   payload := ReminderData
                     (Some (lit "Reminder marked as completed")) reminder |}
     end)
    (reminderCatch (lit "Error completing reminder")).

Definition dismissReminder (req : ItemRequest) : K Reply :=
  tryCatchK
    (found <- Reminder_findById (params_id req) ;;
     match found with
     | None => retK (notice 404 (lit "Reminder not found"))
     | Some reminder =>
         if negb (jsstring_eqb (Reminder.user reminder) (requester req)) then
           retK (notice 403 (lit "Not authorized to update this reminder"))
         else
           let reminder := withStatus reminder DISMISSED in
           Reminder_resave reminder ;;
           retK {| code := 200;
                   payload := ReminderData (Some (lit "Reminder dismissed"))
                                           reminder |}
     end)
    (reminderCatch (lit "Error dismissing reminder")).

(** [days] is [req.body.days], [None] when the body has none: the default
    is the number 1. *)
Definition snoozeReminder (req : ItemRequest) (body_days : option DaysValue)
  : K Reply :=
  tryCatchK
    (let days := match body_days with
                 | Some v => v
                 | None => {| parseInt := Some 1; shown := lit "1" |}
                 end in
     found <- Reminder_findById (params_id req) ;;
     match found with
     | None => retK (notice 404 (lit "Reminder not found"))
     | Some reminder =>
         if negb (jsstring_eqb (Reminder.user reminder) (requester req)) then
           retK (notice 403 (lit "Not authorized to update this reminder"))
         else
           let newDate :=
             match parseInt days with
             | Some n => setDate_getDate_plus (LocalTZA env)
                                              (Reminder.reminderDate reminder) n
             | None => None
             end in
           let reminder :=
             withStatus (withReminderDate reminder newDate) PENDING in
           Reminder_resave reminder ;;
           retK {| code := 200;
                   payload := ReminderData
                     (Some (lit "Reminder snoozed by " ++ shown days
                                ++ lit " day(s)")) reminder |}
     end)
    (reminderCatch (lit "Error snoozing reminder")).

Definition deleteReminder (req : ItemRequest) : K Reply :=
  tryCatchK
    (found <- Reminder_findById (params_id req) ;;
     match found with
     | None => retK (notice 404 (lit "Reminder not found"))
     | Some reminder =>
         if negb (jsstring_eqb (Reminder.user reminder) (requester req)) then
           retK (notice 403 (lit "Not authorized to delete this reminder"))
         else
           Reminder_deleteOne reminder ;;
           retK {| code := 200;
                   payload := Notice true (lit "Reminder deleted successfully")
                                     None |}
     end)
    (reminderCatch (lit "Error deleting reminder")).

(** The filter [{ _id: { $in: ids }, user: req.user.id }]. *)
Definition ownAmong (ids : list ObjectId) (user : UserId) (r : Reminder.t)
  : bool :=
  idIn ids (Reminder._id r) && jsstring_eqb (Reminder.user r) user.

Definition bulkDeleteReminders (req : BulkRequest) : K Reply :=
  tryCatchK
    (match reminderIds req with
     | NoIds | NotAnArray | IdArray [] =>
         retK (notice 400 (lit "Please provide an array of reminder IDs"))
     | IdArray ids =>
         match castIds ids with
         | inl s => castError s
         | inr l =>
             deletedCount <-
               Reminder_deleteMany (ownAmong l (bulk_requester req)) ;;
             retK {| code := 200;
                     payload := Counted
                       (decimal deletedCount
                          ++ lit " reminder(s) deleted successfully")
                       deletedCount |}
         end
     end)
    (fun error =>
       retK {| code := 500;
               payload := Notice false (lit "Error deleting reminders")
                                 (Some (message error)) |}).

Definition bulkCompleteReminders (req : BulkRequest) : K Reply :=
  tryCatchK
    (match reminderIds req with
     | NoIds | NotAnArray | IdArray [] =>
         retK (notice 400 (lit "Please provide an array of reminder IDs"))
     | IdArray ids =>
         match castIds ids with
         | inl s => castError s
         | inr l =>
             modifiedCount <-
               Reminder_completeMany (ownAmong l (bulk_requester req)) ;;
             retK {| code := 200;
                     payload := Counted
                       (decimal modifiedCount
                          ++ lit " reminder(s) marked as completed")
                       modifiedCount |}
         end
     end)
    (fun error =>
       retK {| code := 500;
               payload := Notice false (lit "Error completing reminders")
                                 (Some (message error)) |}).

(** *** controllers/documentController.js *)

Definition getDocument (req : ItemRequest) : K Reply :=
  tryCatchK
    (found <- Document_findById (params_id req) ;;
     match found with
     | None => retK (notice 404 (lit "Document not found"))
     | Some document =>
         if negb (jsstring_eqb (Document.user document) (requester req)) then
           retK (notice 403 (lit "Not authorized to access this document"))
         else retK {| code := 200; payload := DocumentData document |}
     end)
    (fun error =>
       retK {| code := 500;
               payload := Notice false (lit "Error fetching document")
                                 (Some (message error)) |}).

Definition deleteDocument (req : ItemRequest) : K Reply :=
  tryCatchK
    (found <- Document_findById (params_id req) ;;
     match found with
     | None => retK (notice 404 (lit "Document not found"))
     | Some document =>
         if negb (jsstring_eqb (Document.user document) (requester req)) then
           retK (notice 403 (lit "Not authorized to delete this document"))
         else
           liftM (unlinkIfExists (Document.fileUrl document)) ;;
           Reminder_deleteMany
             (fun r => (Reminder.document r =? Document._id document)%nat) ;;
           Document_deleteOne document ;;
           retK {| code := 200;
                   payload := Notice true (lit "Document deleted successfully")
                                     None |}
     end)
    (fun error =>
       retK {| code := 500;
               payload := Notice false (lit "Error deleting document")
                                 (Some (message error)) |}).

End Crud.

(** The handlers of one reminder; [days] is the body of a snooze. *)
Definition reminderHandlers (env : Env) (faults : Faults)
    (days : option DaysValue) : list (ItemRequest -> K Reply) :=
  [ getReminder faults;
    completeReminder env faults;
    dismissReminder env faults;
    (fun req => snoozeReminder env faults req days);
    deleteReminder faults ].

(** The two handlers that set a status, with the status they set. *)
Definition statusHandlers (env : Env) (faults : Faults)
  : list ((ItemRequest -> K Reply) * ReminderStatus) :=
  [ (completeReminder env faults, REMINDER_COMPLETED);
    (dismissReminder env faults, DISMISSED) ].

Definition byId (id : ObjectId) (r : Reminder.t) : bool :=
  (Reminder._id r =? id)%nat.

Ltac unfold_crud :=
  unfold tryCatchK, bindK, retK, rejectK, castError, databaseError,
         Reminder_findById, Document_findById, Reminder_resave,
         Reminder_deleteOne, Document_deleteOne, Reminder_deleteMany,
         Reminder_completeMany, reminderCatch, isObjectIdError, notice in *.

(** A store to run the handlers on: what the upload of the bill on
    2024-12-21 leaves, a database without faults, and two users. *)
Module Stored.

Definition world : World :=
  snd (uploadDocument
         (Scenario.env (Normal (val Scenario.billText)) Scenario.bill
                       (fun _ => Scenario.dec21) None)
         Scenario.request Scenario.world).

Definition env : Env :=
  Scenario.env (Normal (val Scenario.billText)) Scenario.bill
               (fun _ => Scenario.dec21) None.

Definition noFaults : Faults :=
  {| findById_fault := None;
     deleteOne_fault := None;
     deleteMany_fault := None;
     updateMany_fault := None;
     castErrorMessage := fun s => lit "Cast to ObjectId failed for value " ++ s |}.

Definition owner : UserId := Scenario.user.
Definition stranger : UserId := lit "77a1b2c3d40123456789abcd".

End Stored.

(** [req.body.days] when the body has none. *)
Definition defaultDays : DaysValue := {| parseInt := Some 1; shown := lit "1" |}.

Definition daysOf (body_days : option DaysValue) : DaysValue :=
  match body_days with
  | Some v => v
  | None => defaultDays
  end.

(** The reminder [r] once snoozed to the date [d]. *)
Definition snoozed (r : Reminder.t) (d : JsDate) : Reminder.t :=
  withStatus (withReminderDate r d) PENDING.

Definition byDocumentId (id : ObjectId) (d : Document.t) : bool :=
  (Document._id d =? id)%nat.

Definition ofDocument (id : ObjectId) (r : Reminder.t) : bool :=
  (Reminder.document r =? id)%nat.

(* ------------------------------------------------------------------ *)
(** ** routes/reminderRoutes.js and routes/documentRoutes.js *)

Inductive Method := GET | POST | PATCH | DELETE.

Definition Method_eqb (a b : Method) : bool :=
  match a, b with
  | GET, GET | POST, POST | PATCH, PATCH | DELETE, DELETE => true
  | _, _ => false
  end.

(** A segment of the path of a route: a word, or a parameter [:name]. *)
Inductive Segment :=
| Word (s : string)
| Named (name : string).

Record Route (H : Type) := { verb : Method; pattern : list Segment; handler : H }.

Arguments verb {H}.
Arguments pattern {H}.
Arguments handler {H}.

Inductive ReminderHandler :=
| GetReminders | GetUpcomingReminders | GetOverdueReminders | GetTodayReminders
| GetReminderStats | GetReminder
| CompleteReminder | DismissReminder | SnoozeReminder
| DeleteReminder | BulkDeleteReminders | BulkCompleteReminders.

Inductive DocumentHandler :=
| UploadDocument | GetDocuments | GetStats | GetDocument | DeleteDocument.

(** The routes in the order in which the router registers them. *)
Definition reminderRoutes : list (Route ReminderHandler) :=
  [ {| verb := GET; pattern := []; handler := GetReminders |};
    {| verb := GET; pattern := [Word "upcoming"];
       handler := GetUpcomingReminders |};
    {| verb := GET; pattern := [Word "overdue"];
       handler := GetOverdueReminders |};
    {| verb := GET; pattern := [Word "today"]; handler := GetTodayReminders |};
    {| verb := GET; pattern := [Word "stats"]; handler := GetReminderStats |};
    {| verb := GET; pattern := [Named "id"]; handler := GetReminder |};
    {| verb := PATCH; pattern := [Named "id"; Word "complete"];
       handler := CompleteReminder |};
    {| verb := PATCH; pattern := [Named "id"; Word "dismiss"];
       handler := DismissReminder |};
    {| verb := PATCH; pattern := [Named "id"; Word "snooze"];
       handler := SnoozeReminder |};
    {| verb := DELETE; pattern := [Named "id"]; handler := DeleteReminder |};
    {| verb := DELETE; pattern := [Word "bulk"; Word "delete"];
       handler := BulkDeleteReminders |};
    {| verb := PATCH; pattern := [Word "bulk"; Word "complete"];
       handler := BulkCompleteReminders |} ].

Definition documentRoutes : list (Route DocumentHandler) :=
  [ {| verb := POST; pattern := [Word "upload"]; handler := UploadDocument |};
    {| verb := GET; pattern := []; handler := GetDocuments |};
    {| verb := GET; pattern := [Word "stats"]; handler := GetStats |};
    {| verb := GET; pattern := [Named "id"]; handler := GetDocument |};
    {| verb := DELETE; pattern := [Named "id"]; handler := DeleteDocument |} ].

(** A router made by [express.Router()] compares the words of a path
    without regard to the case of the letters A to Z. *)
Definition asciiLower (c : N) : N :=
  if ((65 <=? c) && (c <=? 90))%N then (c + 32)%N else c.

Definition sameWord (a b : jsstring) : bool :=
  jsstring_eqb (map asciiLower a) (map asciiLower b).

(** A path, given by its segments, against the path of a route: a word
    matches itself, a parameter any segment that is not empty, and the
    parameters are bound in order. *)
Fixpoint matchPath (pattern : list Segment) (segments : list jsstring)
  : option (list (string * jsstring)) :=
  match pattern, segments with
  | [], [] => Some []
  | Word l :: pattern, s :: segments =>
      if sameWord (lit l) s then matchPath pattern segments else None
  | Named n :: pattern, s :: segments =>
      if isEmpty s then None
      else option_map (cons (n, s)) (matchPath pattern segments)
  | _, _ => None
  end.

(** The router hands a request to the first route of its method whose path
    matches; the handlers of these routers answer and never pass on. *)
Fixpoint dispatch {H : Type} (routes : list (Route H)) (m : Method)
    (segments : list jsstring) : option (H * list (string * jsstring)) :=
  match routes with
  | [] => None
  | r :: rest =>
      if Method_eqb (verb r) m then
        match matchPath (pattern r) segments with
        | Some params => Some (handler r, params)
        | None => dispatch rest m segments
        end
      else dispatch rest m segments
  end.

(* ------------------------------------------------------------------ *)
(** ** middleware/auth.js *)

Fixpoint startsWith (prefix s : jsstring) : bool :=
  match prefix, s with
  | [], _ => true
  | p :: prefix, c :: s => (p =? c)%N && startsWith prefix s
  | _ :: _, [] => false
  end.

(** [s.split(sep)] for a separator of one code unit. *)
Fixpoint splitBy (sep : N) (s : jsstring) : list jsstring :=
  match s with
  | [] => [[]]
  | c :: rest =>
      if (c =? sep)%N then [] :: splitBy sep rest
      else match splitBy sep rest with
           | piece :: pieces => (c :: piece) :: pieces
           | [] => [[c]]
           end
  end.

(** What the middleware calls: [jwt.verify(token, process.env.JWT_SECRET)],
    of which it reads [decoded.id], and [User.findById(id)], [None] being
    [null]. *)
Record Verifier := {
  jwt_verify : jsstring -> Completion (Js jsstring);
  User_findById : Js jsstring -> Completion (option UserId)
}.

(** How the middleware ends: with an answer, or with [next()] and the user
    in [req.user]. *)
Inductive Guard :=
| Refused (status : Z) (message : jsstring)
| Passed (user : UserId).

(** [token] once the header has been looked at. *)
Definition bearerToken (prefix : jsstring) (authorization : Js jsstring)
  : Js jsstring :=
  match authorization with
  | val header =>
      if truthy header && startsWith prefix header then
        match nth_error (splitBy 32 header) 1 with
        | Some token => val token
        | None => undefined
        end
      else undefined
  | _ => undefined
  end.

(** [protect], the word the header has to start with being [prefix]: the
    file holds the middleware twice, once with "Bearer" and once with
    "Bearer " followed by a space. *)
Definition protectWith (prefix : jsstring) (v : Verifier)
    (authorization : Js jsstring) : Guard :=
  match bearerToken prefix authorization with
  | val token =>
      if negb (truthy token) then
        Refused 401 (lit "Not authorized, no token")
      else
        match jwt_verify v token with
        | Throw _ => Refused 401 (lit "Not authorized, token invalid")
        | Normal decoded_id =>
            match User_findById v decoded_id with
            | Throw _ => Refused 401 (lit "Not authorized, token invalid")
            | Normal None => Refused 401 (lit "User no longer exists")
            | Normal (Some user) => Passed user
            end
        end
  | _ => Refused 401 (lit "Not authorized, no token")
  end.

Definition protect_first : Verifier -> Js jsstring -> Guard :=
  protectWith (lit "Bearer").

Definition protect : Verifier -> Js jsstring -> Guard :=
  protectWith (lit "Bearer ").

(** A verifier that knows one token and one user. *)
Definition singleUser (token : jsstring) (user : UserId) : Verifier :=
  {| jwt_verify := fun t => if jsstring_eqb t token then Normal (val user)
                            else Throw (lit "invalid signature");
     User_findById := fun id => match id with
                                | val i => if jsstring_eqb i user
                                           then Normal (Some user)
                                           else Normal None
                                | _ => Normal None
                                end |}.

(* ------------------------------------------------------------------ *)
(** ** controllers/reminderController.js: the lists by date *)

(** An entry of a list: the reminder and, in place of its [document], the
    Document [populate] found for it. *)
Record Entry := { entry_reminder : Reminder.t; entry_document : option Document.t }.

(** An entry of the list of upcoming reminders, with the computed fields. *)
Record UpcomingEntry := {
  upcoming : Entry;
  daysUntil : option Z;
  isUrgent : bool;
  isOverdue : bool
}.

Inductive ListPayload (A : Type) :=
| Listed (count : nat) (data : list A)
| ListFailure (message : jsstring) (error : jsstring).

Arguments Listed {A}.
Arguments ListFailure {A}.

Record ListReply (A : Type) := { listCode : Z; listJson : ListPayload A }.

Arguments listCode {A}.
Arguments listJson {A}.

(** The order of [sort({ reminderDate: 1 })]; a reminder without a date
    would come first. *)
Definition dateLe (a b : JsDate) : bool :=
  match a, b with
  | None, _ => true
  | Some _, None => false
  | Some x, Some y => x <=? y
  end.

Fixpoint insertByDate (r : Reminder.t) (l : list Reminder.t)
  : list Reminder.t :=
  match l with
  | [] => [r]
  | x :: rest =>
      if dateLe (Reminder.reminderDate r) (Reminder.reminderDate x)
      then r :: l
      else x :: insertByDate r rest
  end.

(** Reminders of the same date stay in the order of the store. *)
Definition sortByDate (l : list Reminder.t) : list Reminder.t :=
  fold_right insertByDate [] l.

(** [n < k] on a number that may be NaN. *)
Definition ltNum (n : option Z) (k : Z) : bool :=
  match n with
  | Some z => z <? k
  | None => false
  end.

(** [user: req.user.id, status: 'PENDING'] of a filter. *)
Definition pendingOf (user : UserId) (r : Reminder.t) : bool :=
  jsstring_eqb (Reminder.user r) user
  && ReminderStatus_eqb (Reminder.status r) PENDING.

(** [reminderDate: { $gte: lo, $lte: hi }] and [reminderDate: { $lt: hi }]. *)
Definition dateBetween (lo hi : Z) (r : Reminder.t) : bool :=
  match Reminder.reminderDate r with
  | Some t => (lo <=? t) && (t <=? hi)
  | None => false
  end.

Definition dateBefore (hi : Z) (r : Reminder.t) : bool :=
  match Reminder.reminderDate r with
  | Some t => t <? hi
  | None => false
  end.

Section Lists.

Variable env : Env.

(** The message with which the database rejects a [find], if it does. *)
Variable find_fault : option jsstring.

Local Open Scope crud_scope.

(** [Reminder.find(filter).populate('document', ...).sort({ reminderDate: 1 })]. *)
Definition Reminder_find (filter_ : Reminder.t -> bool) : K (list Entry) :=
  match find_fault with
  | Some m => rejectK {| kind := undefined; message := m |}
  | None =>
      fun w =>
        (Fulfilled
           (map (fun r =>
                   {| entry_reminder := r;
                      entry_document :=
                        find (fun d => (Document._id d
                                        =? Reminder.document r)%nat)
                             (documentsOf w) |})
                (sortByDate (filter filter_ (remindersOf w)))), w)
  end.

Definition enrich (now : Z) (e : Entry) : UpcomingEntry :=
  let daysUntil :=
    ceilDays (Reminder.reminderDate (entry_reminder e)) now in
  {| upcoming := e;
     daysUntil := daysUntil;
     isUrgent := leNum daysUntil 3;
     isOverdue := ltNum daysUntil 0 |}.

(** A [Date] that is not valid cannot be cast for a filter. *)
Definition getUpcomingReminders (user : UserId) : K (ListReply UpcomingEntry) :=
  tryCatchK
    (now <- liftM (new_Date_now env) ;;
     next30Days <- liftM (new_Date_now env) ;;
     let next30Days :=
       setDate_getDate_plus (LocalTZA env) (Some next30Days) 30 in
     match next30Days with
     | None =>
         rejectK {| kind := val (lit "date");
                    message := lit "Cast to date failed" |}
     | Some next30Days =>
         reminders <- Reminder_find
                        (fun r => pendingOf user r
                                  && dateBetween now next30Days r) ;;
         let enrichedReminders := map (enrich now) reminders in
         retK {| listCode := 200;
                 listJson := Listed (List.length enrichedReminders)
                                    enrichedReminders |}
     end)
    (fun error =>
       retK {| listCode := 500;
               listJson := ListFailure
                 (lit "Error fetching upcoming reminders") (message error) |}).

Definition getOverdueReminders (user : UserId) : K (ListReply Entry) :=
  tryCatchK
    (now <- liftM (new_Date_now env) ;;
     reminders <- Reminder_find
                    (fun r => pendingOf user r && dateBefore now r) ;;
     retK {| listCode := 200;
             listJson := Listed (List.length reminders) reminders |})
    (fun error =>
       retK {| listCode := 500;
               listJson := ListFailure
                 (lit "Error fetching overdue reminders") (message error) |}).

End Lists.

(** The world after [n] more readings of the clock. *)
Definition afterReadings (n : nat) (w : World) : World :=
  {| files := files w; journal := journal w;
     clockReads := (n + clockReads w)%nat; nextId := nextId w |}.

(** The order of the lists, on reminders. *)
Definition byDate (a b : Reminder.t) : Prop :=
  dateLe (Reminder.reminderDate a) (Reminder.reminderDate b) = true.

(** The reminders of a list of upcoming reminders. *)
Definition upcomingReminders (entries : list UpcomingEntry)
  : list Reminder.t :=
  map (fun e => entry_reminder (upcoming e)) entries.

(* ------------------------------------------------------------------ *)
(** ** The definitions on small inputs *)

Example replace_then_trim :
  trim (replaceSpaces (lit "  Electricity   Bill  ")) = lit "Electricity Bill".
Proof. reflexivity. Qed.

Example jsonMatch_is_greedy :
  jsonMatch (lit "Sure: {a{b}c} and } more") = Some (lit "{a{b}c} and }").
Proof. reflexivity. Qed.

Example jsonMatch_needs_a_closing_brace :
  jsonMatch (lit "} then { and nothing") = None.
Proof. reflexivity. Qed.

Example isoDateParse_2025_01_10 :
  isoDateParse (lit "2025-01-10") = Some 1736467200000.
Proof. reflexivity. Qed.

Example setDate_on_UTC_and_in_New_York :
  setDate_getDate_plus Scenario.utc (Some Scenario.mar15) (-7)
  = Some (Scenario.mar15 - 7 * msPerDay)
  /\ setDate_getDate_plus Scenario.newYork2025 (Some Scenario.mar15) (-7)
     = Some (Scenario.mar15 - 7 * msPerDay + Scenario.hour).
Proof. split; reflexivity. Qed.

Example ceilDays_rounds_up :
  ceilDays (Some (3 * msPerDay + 1)) 0 = Some 4
  /\ ceilDays (Some (- msPerDay - 1)) 0 = Some (-1).
Proof. split; reflexivity. Qed.

Example zero_amount_is_falsy :
  truthy (val (0 # 1)) = false /\ truthy (val (5 # 2)) = true.
Proof. split; reflexivity. Qed.

(* ------------------------------------------------------------------ *)
(** ** Running the monad *)

Lemma jsstring_eqb_refl (p : jsstring) : jsstring_eqb p p = true.
Proof.
  unfold jsstring_eqb. destruct (list_eq_dec N.eq_dec p p); congruence.
Qed.

Lemma jsstring_eqb_eq (p q : jsstring) : jsstring_eqb p q = true <-> p = q.
Proof.
  unfold jsstring_eqb. destruct (list_eq_dec N.eq_dec p q); split; congruence.
Qed.

Lemma pathExists_unlinked (p : Path) (w : World) :
  pathExists p (unlinked p w) = false.
Proof.
  unfold pathExists, unlinked; simpl.
  induction (files w) as [|q l IH]; simpl; [reflexivity|].
  destruct (jsstring_eqb p q) eqn:E; simpl; [exact IH|].
  rewrite E. exact IH.
Qed.

Lemma unlinkIfExists_run (p : Path) (w : World) :
  unlinkIfExists p w = (Normal tt, cleaned p w).
Proof.
  unfold unlinkIfExists, cleaned, unlinked. unfold_monad.
  destruct (pathExists p w) eqn:E; [rewrite E|]; reflexivity.
Qed.

Lemma pathExists_cleaned (p : Path) (w : World) :
  pathExists p (cleaned p w) = false.
Proof.
  unfold cleaned. destruct (pathExists p w) eqn:E;
    [apply pathExists_unlinked | exact E].
Qed.

Lemma journal_cleaned (p : Path) (w : World) :
  journal (cleaned p w) = journal w.
Proof. unfold cleaned. destruct (pathExists p w); reflexivity. Qed.

Section PipelineFacts.

Variable env : Env.

(** [analyzeDocument] catches whatever is thrown inside it and touches
    nothing of the world. *)
Lemma analyzeDocument_never_throws (text : jsstring) (w : World) :
  exists a, analyzeDocument env text w = (Normal a, w).
Proof.
  unfold analyzeDocument. unfold_monad.
  destruct (truthy (GEMINI_API_KEY env)); simpl; [|eauto].
  destruct (generateContent env text) as [resp|m]; [|eauto].
  destruct (jsonMatch resp) as [j|]; [|eauto].
  destruct (JSON_parse env j); eauto.
Qed.

(** The three ways [extractTextFromImage] ends. *)
Lemma extractTextFromImage_missing (p : Path) (w : World) :
  pathExists p w = false ->
  extractTextFromImage env p w =
    (Throw (lit "Failed to extract text from image: "
              ++ lit "Image file not found at path: " ++ p), w).
Proof.
  intros E. unfold extractTextFromImage. unfold_monad. rewrite E. reflexivity.
Qed.

Lemma extractTextFromImage_recognizer_error (p : Path) (w : World) (m : jsstring) :
  pathExists p w = true ->
  recognize env p = Throw m ->
  extractTextFromImage env p w =
    (Throw (lit "Failed to extract text from image: " ++ m), w).
Proof.
  intros E R. unfold extractTextFromImage. unfold_monad. rewrite E, R.
  reflexivity.
Qed.

Lemma extractTextFromImage_recognized (p : Path) (w : World) (raw : Js jsstring) :
  pathExists p w = true ->
  recognize env p = Normal raw ->
  extractTextFromImage env p w =
    (Normal (trim (replaceSpaces (orDefault raw (lit "")))), w).
Proof.
  intros E R. unfold extractTextFromImage. unfold_monad. rewrite E, R.
  reflexivity.
Qed.

Lemma extractTextFromImage_world (p : Path) (w : World) :
  snd (extractTextFromImage env p w) = w.
Proof.
  unfold extractTextFromImage. unfold_monad.
  destruct (pathExists p w); simpl; [|reflexivity].
  destruct (recognize env p); reflexivity.
Qed.

End PipelineFacts.

(* ------------------------------------------------------------------ *)
(** ** Dates *)

Lemma TimeClip_Some (t u : Z) : TimeClip t = Some u -> u = t /\ Z.abs t <= maxTime.
Proof.
  unfold TimeClip. destruct (Z.abs t <=? maxTime) eqn:E; [|discriminate].
  intros [= <-]. split; [reflexivity | now apply Z.leb_le].
Qed.

Lemma new_Date_valid (env : Env) (v : Js jsstring) (t : Z) :
  new_Date env v = Some t -> Z.abs t <= maxTime.
Proof.
  destruct v as [| |s]; simpl; [discriminate| |].
  - intros [= <-]. unfold maxTime. lia.
  - destruct (Date_parse env s) as [u|]; [|discriminate].
    intros H. apply TimeClip_Some in H. destruct H as [-> H]. exact H.
Qed.

(** Within one offset, [setDate] moves the time value by whole days. *)
Lemma setDate_sameOffset (tza : Z -> bool -> Z) (t n : Z) :
  sameOffset tza t n ->
  setDate_getDate_plus tza (Some t) n = TimeClip (t + n * msPerDay).
Proof.
  unfold sameOffset, setDate_getDate_plus. intros E. cbv zeta. rewrite E.
  f_equal. lia.
Qed.

Lemma sameOffset_fixed (tza : Z -> bool -> Z) (c t n : Z) :
  (forall u b, tza u b = c) -> sameOffset tza t n.
Proof. intros F. unfold sameOffset. now rewrite !F. Qed.

(** The advance date [n] days before a valid date [t], compared with a
    clock reading. *)
Lemma advance_in_future (tza : Z -> bool -> Z) (t n now : Z) :
  sameOffset tza t (- n) ->
  Z.abs t <= maxTime -> 0 <= n -> - maxTime <= now ->
  now < t - n * msPerDay ->
  setDate_getDate_plus tza (Some t) (- n) = Some (t - n * msPerDay)
  /\ dateGt (setDate_getDate_plus tza (Some t) (- n)) now = true.
Proof.
  intros Hs Ht Hn Hnow Hlt. rewrite (setDate_sameOffset tza t (- n) Hs).
  unfold TimeClip.
  assert (E : t + - n * msPerDay = t - n * msPerDay) by lia.
  rewrite E.
  assert (0 <= n * msPerDay) by (unfold msPerDay; lia).
  destruct (Z.abs (t - n * msPerDay) <=? maxTime) eqn:C.
  - split; [reflexivity|]. simpl. now apply Z.ltb_lt.
  - apply Z.leb_gt in C. lia.
Qed.

Lemma advance_not_in_future (tza : Z -> bool -> Z) (t n now : Z) :
  sameOffset tza t (- n) ->
  t - n * msPerDay <= now ->
  dateGt (setDate_getDate_plus tza (Some t) (- n)) now = false.
Proof.
  intros Hs Hle. rewrite (setDate_sameOffset tza t (- n) Hs).
  unfold TimeClip.
  assert (E : t + - n * msPerDay = t - n * msPerDay) by lia.
  rewrite E.
  destruct (Z.abs (t - n * msPerDay) <=? maxTime); simpl; [|reflexivity].
  now apply Z.ltb_ge.
Qed.


(* ------------------------------------------------------------------ *)
(** ** The two blocks of STEP 4 *)

Section ReminderBlocks.

Variable env : Env.
Variables (user : UserId) (f : File) (document_id : ObjectId).
Variable analysis : Analysis.t.

Lemma dueDateReminders_outcome (reminders : list Reminder.t) (w : World) :
  blockOutcome env user document_id reminders w
    (dueDateReminders env user f document_id analysis reminders w).
Proof.
  unfold blockOutcome, dueDateReminders. unfold_monad.
  destruct (truthy (Analysis.dueDate analysis)).
  2:{ exists []. simpl. rewrite !app_nil_r. auto. }
  cbn [nextId clockReads files journal].
  destruct (reminderSave env (dueReminder env (nextId w) user f document_id analysis))
    as [m|] eqn:S1.
  { exists []. simpl. rewrite app_nil_r. repeat split; eauto. }
  cbn [persist nextId clockReads files journal].
  destruct (dateGt _ _).
  2:{ eexists [_]. simpl. repeat split; eauto. repeat constructor. }
  match goal with |- context [reminderSave env ?r] =>
    destruct (reminderSave env r) as [m|] eqn:S2 end.
  - eexists [_]. simpl. repeat split; eauto. repeat constructor.
  - eexists [_; _]. simpl. rewrite <- !app_assoc. simpl.
    repeat split; eauto. repeat constructor.
Qed.

Lemma expiryDateReminders_outcome (reminders : list Reminder.t) (w : World) :
  blockOutcome env user document_id reminders w
    (expiryDateReminders env user f document_id analysis reminders w).
Proof.
  unfold blockOutcome, expiryDateReminders. unfold_monad.
  destruct (truthy (Analysis.expiryDate analysis)).
  2:{ exists []. simpl. rewrite !app_nil_r. auto. }
  cbn [nextId clockReads files journal].
  destruct (reminderSave env (expiryReminder env (nextId w) user f document_id analysis))
    as [m|] eqn:S1.
  { exists []. simpl. rewrite app_nil_r. repeat split; eauto. }
  cbn [persist nextId clockReads files journal].
  destruct (dateGt _ _).
  2:{ eexists [_]. simpl. repeat split; eauto. repeat constructor. }
  match goal with |- context [reminderSave env ?r] =>
    destruct (reminderSave env r) as [m|] eqn:S2 end.
  - eexists [_]. simpl. repeat split; eauto. repeat constructor.
  - eexists [_; _]. simpl. rewrite <- !app_assoc. simpl.
    repeat split; eauto. repeat constructor.
Qed.

Lemma createReminders_outcome (w : World) :
  blockOutcome env user document_id [] w (createReminders env user f document_id analysis w).
Proof.
  unfold createReminders, bind.
  pose proof (dueDateReminders_outcome [] w) as D.
  destruct (dueDateReminders env user f document_id analysis [] w) as [[rs|m] w1].
  - destruct D as (n1 & J1 & F1 & T1 & R1). simpl in *. subst rs.
    pose proof (expiryDateReminders_outcome n1 w1) as E.
    destruct E as (n2 & J2 & F2 & T2 & R2).
    exists (n1 ++ n2). rewrite J2, J1, F2, F1, map_app, app_assoc.
    repeat split; [now apply Forall_app|].
    destruct (fst _); [now subst|exact R2].
  - exact D.
Qed.

Lemma ofType_DUE_DATE_dueNews (w : World) :
  ofType DUE_DATE (dueNews env user f document_id analysis w)
  = dueNews env user f document_id analysis w.
Proof.
  unfold dueNews, ofType.
  destruct (truthy (Analysis.dueDate analysis)); [|reflexivity].
  simpl. destruct (dateGt _ _); reflexivity.
Qed.

Lemma ofType_DUE_DATE_expiryNews (w : World) :
  ofType DUE_DATE (expiryNews env user f document_id analysis w) = [].
Proof.
  unfold expiryNews, ofType.
  destruct (truthy (Analysis.expiryDate analysis)); [|reflexivity].
  simpl. destruct (dateGt _ _); reflexivity.
Qed.

Lemma notOfType_DUE_DATE_dueNews (w : World) :
  notOfType DUE_DATE (dueNews env user f document_id analysis w) = [].
Proof.
  unfold dueNews, notOfType.
  destruct (truthy (Analysis.dueDate analysis)); [|reflexivity].
  simpl. destruct (dateGt _ _); reflexivity.
Qed.

Lemma notOfType_DUE_DATE_expiryNews (w : World) :
  notOfType DUE_DATE (expiryNews env user f document_id analysis w)
  = expiryNews env user f document_id analysis w.
Proof.
  unfold expiryNews, notOfType.
  destruct (truthy (Analysis.expiryDate analysis)); [|reflexivity].
  simpl. destruct (dateGt _ _); reflexivity.
Qed.

End ReminderBlocks.

(* ------------------------------------------------------------------ *)
(** ** STEP 4 writes a prefix of what it sets out to write *)

Section ReminderPlanFacts.

Variable env : Env.
Variables (user : UserId) (f : File) (document_id : ObjectId).
Variable analysis : Analysis.t.

Lemma expiryNews_ext (w w' : World) :
  nextId w = nextId w' -> clockReads w = clockReads w' ->
  expiryNews env user f document_id analysis w
  = expiryNews env user f document_id analysis w'.
Proof. intros E1 E2. unfold expiryNews. rewrite E1, E2. reflexivity. Qed.

Lemma dueDateReminders_progress (reminders : list Reminder.t) (w : World) :
  let run := dueDateReminders env user f document_id analysis reminders w in
  blockProgress env (dueNews env user f document_id analysis w) reminders w run
  /\ (forall rs, fst run = Normal rs ->
      nextId (snd run) = nextId (afterDueBlock env user f document_id analysis w)
      /\ clockReads (snd run)
         = clockReads (afterDueBlock env user f document_id analysis w)).
Proof.
  unfold blockProgress, afterDueBlock, dueNews, dueDateReminders.
  unfold_monad.
  destruct (truthy (Analysis.dueDate analysis)).
  2:{ simpl. split.
      - exists [], []. rewrite !app_nil_r. auto.
      - intros rs _. rewrite !Nat.add_0_r. auto. }
  cbn [nextId clockReads files journal].
  destruct (reminderSave env (dueReminder env (nextId w) user f document_id
                                          analysis)) as [m|] eqn:S1.
  { simpl. split; [|discriminate].
    exists []. eexists. split; [reflexivity|]. rewrite app_nil_r.
    repeat split. eauto. }
  cbn [persist nextId clockReads files journal].
  destruct (dateGt _ _).
  2:{ simpl. split.
      - eexists [_], []. simpl. auto.
      - intros rs _. rewrite !Nat.add_1_r. auto. }
  match goal with |- context [reminderSave env ?r] =>
    destruct (reminderSave env r) as [m|] eqn:S2 end.
  - simpl. split; [|discriminate].
    eexists [_], [_]. simpl. repeat split. eauto.
  - simpl. split.
    + eexists [_; _], []. simpl. rewrite <- !app_assoc. simpl. auto.
    + intros rs _. rewrite Nat.add_1_r. split; [lia | reflexivity].
Qed.

Lemma expiryDateReminders_progress (reminders : list Reminder.t) (w : World) :
  blockProgress env (expiryNews env user f document_id analysis w) reminders w
    (expiryDateReminders env user f document_id analysis reminders w).
Proof.
  unfold blockProgress, expiryNews, expiryDateReminders.
  unfold_monad.
  destruct (truthy (Analysis.expiryDate analysis)).
  2:{ simpl. exists [], []. rewrite !app_nil_r. auto. }
  cbn [nextId clockReads files journal].
  destruct (reminderSave env (expiryReminder env (nextId w) user f document_id
                                             analysis)) as [m|] eqn:S1.
  { simpl. exists []. eexists. split; [reflexivity|]. rewrite app_nil_r.
    repeat split. eauto. }
  cbn [persist nextId clockReads files journal].
  destruct (dateGt _ _).
  2:{ simpl. eexists [_], []. simpl. auto. }
  match goal with |- context [reminderSave env ?r] =>
    destruct (reminderSave env r) as [m|] eqn:S2 end.
  - simpl. eexists [_], [_]. simpl. repeat split. eauto.
  - simpl. eexists [_; _], []. simpl. rewrite <- !app_assoc. simpl. auto.
Qed.

(** STEP 4 writes its planned reminders in order, and stops at the first
    write that is rejected. *)
Lemma createReminders_progress (w : World) :
  blockProgress env (plannedReminders env user f document_id analysis w) [] w
    (createReminders env user f document_id analysis w).
Proof.
  unfold createReminders, bind, plannedReminders.
  destruct (dueDateReminders_progress [] w) as [D Dw].
  destruct (dueDateReminders env user f document_id analysis [] w)
    as [[rs|m] w1].
  - destruct D as (n1 & r1 & P1 & J1 & F1 & R1 & ->). simpl in *.
    subst rs. rewrite app_nil_r in P1.
    destruct (Dw n1 eq_refl) as [I1 C1].
    rewrite (expiryNews_ext (afterDueBlock env user f document_id analysis w)
                            w1) by auto.
    destruct (expiryDateReminders_progress n1 w1)
      as (n2 & r2 & P2 & J2 & F2 & R2).
    exists (n1 ++ n2), r2. rewrite P1, P2, J2, J1, F2, F1, map_app, !app_assoc.
    repeat split.
    destruct (fst _); [|exact R2]. destruct R2 as [-> ->]. auto.
  - destruct D as (n1 & r1 & P1 & J1 & F1 & r & rest' & -> & S).
    exists n1, (r :: rest' ++ expiryNews env user f document_id analysis
                         (afterDueBlock env user f document_id analysis w)).
    rewrite P1, <- app_assoc. simpl in *. repeat split; auto. eauto.
Qed.

Lemma plannedReminders_length (w : World) :
  (List.length (plannedReminders env user f document_id analysis w) <= 4)%nat.
Proof.
  unfold plannedReminders, dueNews, expiryNews. rewrite length_app.
  destruct (truthy (Analysis.dueDate analysis));
    destruct (truthy (Analysis.expiryDate analysis)); simpl;
    repeat match goal with |- context [if ?b then _ else _] => destruct b end;
    simpl; lia.
Qed.

End ReminderPlanFacts.

(** When the store accepts every reminder of the plan, the step writes the
    plan. *)
Lemma createReminders_planned (env : Env) (user : UserId) (f : File)
    (document_id : ObjectId) (analysis : Analysis.t) (w : World) :
  (forall r,
     In r (plannedReminders env user f document_id analysis w) ->
     reminderSave env r = None) ->
  exists w',
    createReminders env user f document_id analysis w
    = (Normal (plannedReminders env user f document_id analysis w), w')
    /\ journal w'
       = journal w
         ++ map ReminderInsert
              (plannedReminders env user f document_id analysis w)
    /\ files w' = files w.
Proof.
  intros A.
  destruct (createReminders_progress env user f document_id analysis w)
    as (news & rest & P & J & F & X).
  destruct (createReminders env user f document_id analysis w)
    as [[rs|m] w'] eqn:R; simpl in *.
  - destruct X as [-> ->]. rewrite app_nil_r in P. exists w'.
    rewrite P. auto.
  - destruct X as (r & rest' & -> & S). rewrite A in S; [discriminate|].
    rewrite P. apply in_or_app. right. now left.
Qed.


Lemma ofType_app (ty : ReminderType) (a b : list Reminder.t) :
  ofType ty (a ++ b) = ofType ty a ++ ofType ty b.
Proof. apply filter_app. Qed.

Lemma notOfType_app (ty : ReminderType) (a b : list Reminder.t) :
  notOfType ty (a ++ b) = notOfType ty a ++ notOfType ty b.
Proof. apply filter_app. Qed.

(* ------------------------------------------------------------------ *)
(** ** The reminder-generation step *)

(** C1 as stated fails where clocks change: the advance date is set with
    [setDate(getDate() - 7)], on the calendar of the process's zone.  In New
    York, the bill due on 2025-03-15 (20 days after the upload) gets its
    second reminder at 2025-03-08T01:00Z, an hour after [now + 13d]. *)
Lemma advance_reminder_an_hour_late :
  let now := Scenario.mar15 - 20 * msPerDay in
  exists rs w',
    createReminders
      (Scenario.inZone Scenario.newYork2025
         (Scenario.env (Normal (val Scenario.billText)) Scenario.marchBill
                       (fun _ => now) None))
      Scenario.user Scenario.upload 0%nat Scenario.marchBill Scenario.world
    = (Normal rs, w')
    /\ map brief (ofType DUE_DATE rs)
       = [(DUE_DATE, lit "bill Payment Due", Some (now + 20 * msPerDay));
          (DUE_DATE, lit "Upcoming: bill Payment",
           Some (now + 13 * msPerDay + Scenario.hour))].
Proof.
  cbv zeta. do 2 eexists. split; vm_compute; reflexivity.
Qed.

(** C1, amended.  When [analysis.dueDate] is truthy and the store accepts
    the reminders the step sets out to write, the step persists a DUE_DATE
    reminder dated [dueDate] and titled "<documentType> Payment Due"; it
    persists a second DUE_DATE reminder, titled "Upcoming: <documentType>
    Payment" and dated seven days of the local calendar before [dueDate],
    exactly when that date is later than the clock reading [now] of the
    check; no other DUE_DATE reminder is made.  Where the zone has one offset
    at both dates, as on UTC, that date is [dueDate - 7d]: the second
    reminder is made exactly when [now < dueDate - 7d], a due date 20 days
    after [now] gives the two reminders at [now + 20d] and [now + 13d], and a
    due date 3 days after [now] gives the single one. *)
Theorem due_date_reminders (env : Env) (user : UserId) (f : File)
    (document_id : ObjectId) (analysis : Analysis.t) (w : World) :
  truthy (Analysis.dueDate analysis) = true ->
  (forall r,
     In r (plannedReminders env user f document_id analysis w) ->
     reminderSave env r = None) ->
  - maxTime <= clock env (clockReads w) ->
  let now := clock env (clockReads w) in
  let due := new_Date env (Analysis.dueDate analysis) in
  let advance := setDate_getDate_plus (LocalTZA env) due (-7) in
  let dueTitle :=
    toString (Analysis.documentType analysis) ++ lit " Payment Due" in
  let upcomingTitle :=
    lit "Upcoming: " ++ toString (Analysis.documentType analysis)
        ++ lit " Payment" in
  exists rs w',
    createReminders env user f document_id analysis w = (Normal rs, w')
    /\ journal w' = journal w ++ map ReminderInsert rs
    /\ map brief (ofType DUE_DATE rs)
       = (DUE_DATE, dueTitle, due)
         :: (if dateGt advance now
             then [(DUE_DATE, upcomingTitle, advance)]
             else [])
    /\ (forall t,
          due = Some t ->
          sameOffset (LocalTZA env) t (-7) ->
          (now < t - 7 * msPerDay ->
           map brief (ofType DUE_DATE rs)
           = [(DUE_DATE, dueTitle, Some t);
              (DUE_DATE, upcomingTitle, Some (t - 7 * msPerDay))])
          /\ (t - 7 * msPerDay <= now ->
              map brief (ofType DUE_DATE rs) = [(DUE_DATE, dueTitle, Some t)]))
    /\ (due = Some (now + 20 * msPerDay) ->
        sameOffset (LocalTZA env) (now + 20 * msPerDay) (-7) ->
        map brief (ofType DUE_DATE rs)
        = [(DUE_DATE, dueTitle, Some (now + 20 * msPerDay));
           (DUE_DATE, upcomingTitle, Some (now + 13 * msPerDay))])
    /\ (due = Some (now + 3 * msPerDay) ->
        sameOffset (LocalTZA env) (now + 3 * msPerDay) (-7) ->
        map brief (ofType DUE_DATE rs)
        = [(DUE_DATE, dueTitle, Some (now + 3 * msPerDay))]).
Proof.
  intros Hdue Hsave Hnow now due advance dueTitle upcomingTitle.
  destruct (createReminders_planned env user f document_id analysis w Hsave)
    as (w' & R & J & _).
  eexists; exists w'. split; [exact R|]. split; [exact J|].
  unfold plannedReminders.
  rewrite ofType_app, ofType_DUE_DATE_dueNews, ofType_DUE_DATE_expiryNews,
    app_nil_r.
  unfold dueNews. rewrite Hdue. cbv zeta. fold due. fold advance. fold now.
  assert (G : map brief
                (dueReminder env (nextId w) user f document_id analysis
                 :: (if dateGt advance now
                     then [advanceReminder (S (nextId w)) user f document_id
                             analysis advance]
                     else []))
              = (DUE_DATE, dueTitle, due)
                :: (if dateGt advance now
                    then [(DUE_DATE, upcomingTitle, advance)]
                    else [])).
  { destruct (dateGt advance now); reflexivity. }
  rewrite G. split; [reflexivity|].
  assert (Cases : forall t,
            due = Some t ->
            sameOffset (LocalTZA env) t (-7) ->
            (now < t - 7 * msPerDay ->
             (DUE_DATE, dueTitle, due)
             :: (if dateGt advance now
                 then [(DUE_DATE, upcomingTitle, advance)]
                 else [])
             = [(DUE_DATE, dueTitle, Some t);
                (DUE_DATE, upcomingTitle, Some (t - 7 * msPerDay))])
            /\ (t - 7 * msPerDay <= now ->
                (DUE_DATE, dueTitle, due)
                :: (if dateGt advance now
                    then [(DUE_DATE, upcomingTitle, advance)]
                    else [])
                = [(DUE_DATE, dueTitle, Some t)])).
  { intros t Ht Hs. pose proof (new_Date_valid _ _ _ Ht) as Hv.
    unfold advance. rewrite Ht. split; intros Hcmp.
    - destruct (advance_in_future (LocalTZA env) t 7 now Hs Hv ltac:(lia)
                  Hnow Hcmp) as [E G'].
      cbn [Z.opp] in E, G'. rewrite G', E. reflexivity.
    - pose proof (advance_not_in_future (LocalTZA env) t 7 now Hs Hcmp) as G'.
      cbn [Z.opp] in G'. rewrite G'. reflexivity. }
  split; [exact Cases|]. split.
  - intros D Hs. destruct (Cases _ D Hs) as [C _].
    rewrite C by (unfold msPerDay; lia).
    replace (now + 20 * msPerDay - 7 * msPerDay) with (now + 13 * msPerDay)
      by lia.
    reflexivity.
  - intros D Hs. destruct (Cases _ D Hs) as [_ C].
    apply C. unfold msPerDay; lia.
Qed.

(** The bill due on 2025-01-10, uploaded on 2024-12-21 to a server on UTC
    whose store applies the schema: the two DUE_DATE reminders of 2025-01-10
    and 2025-01-03. *)
Lemma due_date_reminders_witness :
  exists rs w',
    createReminders
      (Scenario.env (Normal (val Scenario.billText)) Scenario.bill
                    (fun _ => Scenario.dec21) None)
      Scenario.user Scenario.upload 0%nat Scenario.bill Scenario.world
    = (Normal rs, w')
    /\ map brief (ofType DUE_DATE rs)
       = [(DUE_DATE, lit "bill Payment Due", Some 1736467200000);
          (DUE_DATE, lit "Upcoming: bill Payment", Some 1735862400000)].
Proof.
  destruct (due_date_reminders
              (Scenario.env (Normal (val Scenario.billText)) Scenario.bill
                            (fun _ => Scenario.dec21) None)
              Scenario.user Scenario.upload 0%nat Scenario.bill
              Scenario.world eq_refl)
    as (rs & w' & R & _ & _ & M & _).
  - intros r I. vm_compute in I. destruct I as [<- | [<- | []]]; reflexivity.
  - vm_compute. discriminate.
  - exists rs, w'. split; [exact R|].
    apply (proj1 (M Scenario.jan10 eq_refl eq_refl)). reflexivity.
Defined.

(** C2 as stated fails where clocks change: the renewal date is set with
    [setDate(getDate() - 30)].  In New York, the policy expiring on
    2025-03-20 (45 days after the upload) gets its RENEWAL reminder at
    2025-02-18T01:00Z, an hour after [now + 15d]. *)
Lemma renewal_reminder_an_hour_late :
  let now := Scenario.mar20 - 45 * msPerDay in
  exists rs w',
    createReminders
      (Scenario.inZone Scenario.newYork2025
         (Scenario.env (Normal (val Scenario.billText)) Scenario.marchPolicy
                       (fun _ => now) None))
      Scenario.user Scenario.upload 0%nat Scenario.marchPolicy Scenario.world
    = (Normal rs, w')
    /\ map brief rs
       = [(EXPIRY, lit "insurance Expiring Soon", Some (now + 45 * msPerDay));
          (RENEWAL, lit "Renewal Reminder: insurance",
           Some (now + 15 * msPerDay + Scenario.hour))].
Proof.
  cbv zeta. do 2 eexists. split; vm_compute; reflexivity.
Qed.

(** C2, amended.  When [analysis.expiryDate] is truthy and the store
    accepts the reminders the step sets out to write, the step persists an
    EXPIRY reminder dated [expiryDate] and titled "<documentType> Expiring
    Soon"; it persists a RENEWAL reminder, titled "Renewal Reminder:
    <documentType>" and dated thirty days of the local calendar before
    [expiryDate], exactly when that date is later than the clock reading
    [now] of the check (the first reading of the step, or the second when the
    due-date block has read it before); nothing else is made besides the
    DUE_DATE reminders.  Where the zone has one offset at both dates, as on
    UTC, that date is [expiryDate - 30d]; then, with no due date, an expiry
    date 45 days after [now] gives exactly the EXPIRY reminder at [now + 45d]
    and the RENEWAL reminder at [now + 15d]. *)
Theorem expiry_reminders (env : Env) (user : UserId) (f : File)
    (document_id : ObjectId) (analysis : Analysis.t) (w : World) :
  truthy (Analysis.expiryDate analysis) = true ->
  (forall r,
     In r (plannedReminders env user f document_id analysis w) ->
     reminderSave env r = None) ->
  let now :=
    clock env (clockReads w
               + if truthy (Analysis.dueDate analysis) then 1 else 0)%nat in
  - maxTime <= now ->
  let expiry := new_Date env (Analysis.expiryDate analysis) in
  let advance := setDate_getDate_plus (LocalTZA env) expiry (-30) in
  let expiryTitle :=
    toString (Analysis.documentType analysis) ++ lit " Expiring Soon" in
  let renewalTitle :=
    lit "Renewal Reminder: " ++ toString (Analysis.documentType analysis) in
  exists rs w',
    createReminders env user f document_id analysis w = (Normal rs, w')
    /\ journal w' = journal w ++ map ReminderInsert rs
    /\ map brief (notOfType DUE_DATE rs)
       = (EXPIRY, expiryTitle, expiry)
         :: (if dateGt advance now
             then [(RENEWAL, renewalTitle, advance)]
             else [])
    /\ (forall t,
          expiry = Some t ->
          sameOffset (LocalTZA env) t (-30) ->
          (now < t - 30 * msPerDay ->
           map brief (notOfType DUE_DATE rs)
           = [(EXPIRY, expiryTitle, Some t);
              (RENEWAL, renewalTitle, Some (t - 30 * msPerDay))])
          /\ (t - 30 * msPerDay <= now ->
              map brief (notOfType DUE_DATE rs)
              = [(EXPIRY, expiryTitle, Some t)]))
    /\ (truthy (Analysis.dueDate analysis) = false ->
        expiry = Some (now + 45 * msPerDay) ->
        sameOffset (LocalTZA env) (now + 45 * msPerDay) (-30) ->
        map brief rs
        = [(EXPIRY, expiryTitle, Some (now + 45 * msPerDay));
           (RENEWAL, renewalTitle, Some (now + 15 * msPerDay))]).
Proof.
  intros Hexp Hsave now Hnow expiry advance expiryTitle renewalTitle.
  destruct (createReminders_planned env user f document_id analysis w Hsave)
    as (w' & R & J & _).
  eexists; exists w'. split; [exact R|]. split; [exact J|].
  unfold plannedReminders.
  rewrite notOfType_app, notOfType_DUE_DATE_dueNews,
    notOfType_DUE_DATE_expiryNews, app_nil_l.
  unfold expiryNews. rewrite Hexp. cbv zeta.
  cbn [afterDueBlock clockReads nextId].
  fold expiry. fold advance. fold now.
  set (made :=
         map brief
           (expiryReminder env
              (nextId w
               + List.length (dueNews env user f document_id analysis w))%nat
              user f document_id analysis
            :: (if dateGt advance now
                then [advanceExpiryReminder
                        (S (nextId w
                            + List.length
                                (dueNews env user f document_id analysis w)))
                        user f document_id analysis advance]
                else []))).
  assert (G : made
              = (EXPIRY, expiryTitle, expiry)
                :: (if dateGt advance now
                    then [(RENEWAL, renewalTitle, advance)]
                    else [])).
  { unfold made. destruct (dateGt advance now); reflexivity. }
  assert (Cases : forall t,
            expiry = Some t ->
            sameOffset (LocalTZA env) t (-30) ->
            (now < t - 30 * msPerDay ->
             made = [(EXPIRY, expiryTitle, Some t);
                     (RENEWAL, renewalTitle, Some (t - 30 * msPerDay))])
            /\ (t - 30 * msPerDay <= now ->
                made = [(EXPIRY, expiryTitle, Some t)])).
  { intros t Ht Hs. pose proof (new_Date_valid _ _ _ Ht) as Hv.
    rewrite G. unfold advance. rewrite Ht. split; intros Hcmp.
    - destruct (advance_in_future (LocalTZA env) t 30 now Hs Hv ltac:(lia)
                  Hnow Hcmp) as [E G'].
      cbn [Z.opp] in E, G'. rewrite G', E. reflexivity.
    - pose proof (advance_not_in_future (LocalTZA env) t 30 now Hs Hcmp)
        as G'.
      cbn [Z.opp] in G'. rewrite G'. reflexivity. }
  split; [exact G|]. split; [exact Cases|].
  intros Hno D Hs. unfold dueNews at 1. rewrite Hno. simpl app.
  fold made. destruct (Cases _ D Hs) as [K _].
  rewrite K by (unfold msPerDay; lia).
  replace (now + 45 * msPerDay - 30 * msPerDay) with (now + 15 * msPerDay)
    by lia.
  reflexivity.
Qed.

(** The policy expiring on 2025-03-01, uploaded on 2025-01-15 to a server on
    UTC whose store applies the schema: the EXPIRY reminder of 2025-03-01 and
    the RENEWAL reminder of 2025-01-30. *)
Lemma expiry_reminders_witness :
  exists rs w',
    createReminders
      (Scenario.env (Normal (val Scenario.billText)) Scenario.policy
                    (fun _ => Scenario.jan15) None)
      Scenario.user Scenario.upload 0%nat Scenario.policy Scenario.world
    = (Normal rs, w')
    /\ map brief rs
       = [(EXPIRY, lit "insurance Expiring Soon", Some 1740787200000);
          (RENEWAL, lit "Renewal Reminder: insurance", Some 1738195200000)].
Proof.
  destruct (expiry_reminders
              (Scenario.env (Normal (val Scenario.billText)) Scenario.policy
                            (fun _ => Scenario.jan15) None)
              Scenario.user Scenario.upload 0%nat Scenario.policy
              Scenario.world eq_refl)
    as (rs & w' & R & _ & _ & _ & M).
  - intros r I. vm_compute in I. destruct I as [<- | [<- | []]]; reflexivity.
  - vm_compute. discriminate.
  - exists rs, w'. split; [exact R|].
    apply M; reflexivity.
Defined.

(* ------------------------------------------------------------------ *)
(** ** The analyzer *)

(** C3.  Whatever the text, when the backend fails in one of the modes of
    [AnalyzerFailure], [analyzeDocument] ends normally, leaves the world as it
    was, and returns an analysis with documentType "other", category
    "Personal", priority "MEDIUM", null dates, amount, idNumber and provider,
    and a summary that is not empty. *)
Theorem analyzeDocument_defaults_on_failure (env : Env) (text : jsstring)
    (w : World) :
  AnalyzerFailure env text ->
  exists a,
    analyzeDocument env text w = (Normal a, w)
    /\ Analysis.documentType a = val (lit "other")
    /\ Analysis.category a = val (lit "Personal")
    /\ Analysis.priority a = val (lit "MEDIUM")
    /\ Analysis.dueDate a = null
    /\ Analysis.expiryDate a = null
    /\ Analysis.issueDate a = null
    /\ Analysis.amount a = null
    /\ Analysis.idNumber a = null
    /\ Analysis.provider a = null
    /\ exists s, Analysis.summary a = val s /\ s <> [] /\ truthy s = true.
Proof.
  intros Hfail. unfold analyzeDocument. unfold_monad.
  destruct (truthy (GEMINI_API_KEY env)) eqn:K; simpl.
  - destruct Hfail as [H | m H | r H1 H2 | r j m H1 H2 H3].
    + congruence.
    + rewrite H. exists analysisFailedAnalysis.
      repeat (split; [reflexivity|]). eexists; repeat split. discriminate.
    + rewrite H1, H2. exists manualReviewAnalysis.
      repeat (split; [reflexivity|]). eexists; repeat split. discriminate.
    + rewrite H1, H2, H3. exists manualReviewAnalysis.
      repeat (split; [reflexivity|]). eexists; repeat split. discriminate.
  - exists analysisFailedAnalysis.
    repeat (split; [reflexivity|]). eexists; repeat split. discriminate.
Qed.

Lemma analyzeDocument_defaults_on_failure_witness :
  exists a,
    analyzeDocument Scenario.proseBackend Scenario.billText Scenario.world
    = (Normal a, Scenario.world)
    /\ Analysis.documentType a = val (lit "other")
    /\ Analysis.summary a = val (lit "Document uploaded - manual review needed").
Proof.
  destruct (analyzeDocument_defaults_on_failure
              Scenario.proseBackend Scenario.billText Scenario.world
              (NoJsonObject Scenario.proseBackend Scenario.billText
                            (lit "Sorry, I cannot read this.")
                            eq_refl eq_refl))
    as (a & R & T & _).
  exists a. split; [exact R|]. split; [exact T|].
  injection R as <-. reflexivity.
Defined.

(* ------------------------------------------------------------------ *)
(** ** The text extractor and the insufficient-text gate *)

(** C6 as stated fails: on an image whose cleaned text is the three
    characters "abc", [extractTextFromImage] returns that text normally. *)
Lemma extractor_returns_short_text :
  extractTextFromImage
    (Scenario.env (Normal (val (lit " abc  "))) Scenario.bill
                  (fun _ => Scenario.dec21) None)
    (path Scenario.upload) Scenario.world
  = (Normal (lit "abc"), Scenario.world)
  /\ (List.length (lit "abc") < 10)%nat.
Proof. split; [reflexivity | simpl; lia]. Qed.

(** C6, amended.  [extractTextFromImage] throws "Failed to extract text
    from image: ..." when the file does not exist and when the recognizer
    fails; when the recognizer answers, it returns the cleaned text normally,
    however short (the ten-character gate is [uploadDocument]'s).  It never
    changes the world. *)
Theorem extractor_failures (env : Env) (p : Path) (w : World) :
  (pathExists p w = false ->
   extractTextFromImage env p w
   = (Throw (lit "Failed to extract text from image: "
               ++ lit "Image file not found at path: " ++ p), w))
  /\ (forall m, pathExists p w = true -> recognize env p = Throw m ->
      extractTextFromImage env p w
      = (Throw (lit "Failed to extract text from image: " ++ m), w))
  /\ (forall raw, pathExists p w = true -> recognize env p = Normal raw ->
      extractTextFromImage env p w
      = (Normal (trim (replaceSpaces (orDefault raw (lit "")))), w)).
Proof.
  split; [|split]; intros.
  - now apply extractTextFromImage_missing.
  - now apply extractTextFromImage_recognizer_error.
  - now apply extractTextFromImage_recognized.
Qed.

(** A blank scan: the recognizer answers with white space only, and the
    extractor returns the empty string. *)
Lemma extractor_failures_witness :
  extractTextFromImage
    (Scenario.env (Normal (val (lit "   "))) Scenario.bill
                  (fun _ => Scenario.dec21) None)
    (path Scenario.upload) Scenario.world
  = (Normal [], Scenario.world).
Proof.
  exact (proj2 (proj2 (extractor_failures
                         (Scenario.env (Normal (val (lit "   "))) Scenario.bill
                                       (fun _ => Scenario.dec21) None)
                         (path Scenario.upload) Scenario.world))
               (val (lit "   ")) eq_refl eq_refl).
Defined.

(** C5.  When the file is there and the cleaned text of what the recognizer
    read has fewer than ten characters, [uploadDocument] answers 400 with the
    hint about image quality and the error "Insufficient text extracted from
    image"; no Document and no Reminder is written, and the uploaded file no
    longer exists. *)
Theorem insufficient_text_rejected (env : Env) (req : Request) (f : File)
    (w : World) (raw : Js jsstring) :
  file req = Some f ->
  pathExists (path f) w = true ->
  recognize env (path f) = Normal raw ->
  (List.length (trim (replaceSpaces (orDefault raw (lit "")))) < 10)%nat ->
  exists w',
    uploadDocument env req w
    = (Normal
         {| statusCode := 400;
            json := Failure
              (lit "Could not extract text from image. Please ensure the image is clear and contains readable text.")
              (Some (lit "Insufficient text extracted from image")) |},
       w')
    /\ journal w' = journal w
    /\ pathExists (path f) w' = false.
Proof.
  intros Hfile Hex Hocr Hshort.
  exists (cleaned (path f) w).
  split; [|split; [apply journal_cleaned | apply pathExists_cleaned]].
  unfold uploadDocument. rewrite Hfile.
  unfold tryCatch at 1. unfold bind at 1. unfold attempt. unfold bind at 1.
  rewrite (extractTextFromImage_recognized env _ _ _ Hex Hocr).
  apply Nat.ltb_lt in Hshort. rewrite Hshort, orb_true_r.
  unfold throw. unfold bind at 1. rewrite unlinkIfExists_run. reflexivity.
Qed.

Lemma insufficient_text_rejected_witness :
  exists w',
    uploadDocument
      (Scenario.env (Normal (val (lit " abc  "))) Scenario.bill
                    (fun _ => Scenario.dec21) None)
      Scenario.request Scenario.world
    = (Normal
         {| statusCode := 400;
            json := Failure
              (lit "Could not extract text from image. Please ensure the image is clear and contains readable text.")
              (Some (lit "Insufficient text extracted from image")) |},
       w')
    /\ journal w' = []
    /\ pathExists (path Scenario.upload) w' = false.
Proof.
  exact (insufficient_text_rejected
           (Scenario.env (Normal (val (lit " abc  "))) Scenario.bill
                         (fun _ => Scenario.dec21) None)
           Scenario.request Scenario.upload Scenario.world
           (val (lit " abc  ")) eq_refl eq_refl eq_refl
           ltac:(vm_compute; lia)).
Defined.

(* ------------------------------------------------------------------ *)
(** ** calculatePriority *)

Lemma leNum_ceilDays (target : JsDate) (now n : Z) :
  leNum (ceilDays target now) n = true <-> withinDays target now n.
Proof.
  unfold withinDays, ceilDays, leNum. destruct target as [t|].
  - rewrite Z.leb_le. unfold msPerDay.
    change (1000 * 60 * 60 * 24) with 86400000.
    split.
    + intros H. exists t. split; [reflexivity|].
      Z.div_mod_to_equations. lia.
    + intros (u & [= <-] & H). Z.div_mod_to_equations. lia.
  - split; [discriminate | intros (u & H & _); discriminate].
Qed.

Lemma gtNum_amountAbove (x : Js Q) (k : Z) :
  0 <= k ->
  truthy x && gtNum x k = true <-> amountAbove x k.
Proof.
  intros Hk. unfold amountAbove.
  destruct x as [| |q]; cbv [truthy Js_ToBoolean number_ToBoolean gtNum].
  - split; [discriminate | intros (q & H & _); discriminate].
  - split; [discriminate | intros (q & H & _); discriminate].
  - split.
    + intros H. apply andb_true_iff in H. destruct H as [_ H].
      exists q. split; [reflexivity|].
      apply Qnot_le_lt. intros L. apply Qle_bool_iff in L.
      rewrite L in H. discriminate.
    + intros (q' & [= <-] & H). apply andb_true_iff. split.
      * destruct (Qeq_bool q 0) eqn:E; [|reflexivity].
        apply Qeq_bool_iff in E. rewrite E in H.
        exfalso. apply (Qlt_not_le _ _ H).
        change (inject_Z 0 <= inject_Z k)%Q.
        rewrite <- (Zle_Qle 0 k). exact Hk.
      * destruct (Qle_bool q (inject_Z k)) eqn:E; [|reflexivity].
        apply Qle_bool_iff in E. exfalso. exact (Qlt_not_le _ _ H E).
Qed.

Lemma rule_condition (target : JsDate) (now days : Z) (x : Js Q) (k : Z) :
  0 <= k ->
  leNum (ceilDays target now) days || (truthy x && gtNum x k) = true
  <-> withinDays target now days \/ amountAbove x k.
Proof.
  intros Hk. rewrite orb_true_iff, leNum_ceilDays, (gtNum_amountAbove x k Hk).
  reflexivity.
Qed.

(** C7 as stated fails when both dates are present: the rule looks at one
    date only, [dueDate] if it is truthy.  A bill due on 2025-03-06 whose
    [expiryDate] is 2025-01-08, three days after the clock reading, with an
    amount of 500, is LOW. *)
Lemma calculatePriority_overlooks_a_nearer_expiry :
  fst (calculatePriority
         (Scenario.env (Normal (val Scenario.billText)) Scenario.lateBill
                       (fun _ => Scenario.jan05) None)
         Scenario.lateBill Scenario.world)
  = Normal LOW
  /\ withinDays
       (new_Date
          (Scenario.env (Normal (val Scenario.billText)) Scenario.lateBill
                        (fun _ => Scenario.jan05) None)
          (Analysis.expiryDate Scenario.lateBill))
       Scenario.jan05 7.
Proof.
  split; [vm_compute; reflexivity|].
  exists (Scenario.jan05 + 3 * msPerDay). split; [vm_compute; reflexivity|].
  vm_compute. intro; discriminate.
Qed.

(** C7, amended.  [calculatePriority] ends normally.  It returns LOW when
    neither [dueDate] nor [expiryDate] is truthy, whatever the amount.
    Otherwise the relevant date is [dueDate] when it is truthy, whatever
    [expiryDate] is, and [expiryDate] when [dueDate] is not: HIGH when that
    date is at most 7 days after now or the amount is above 10000; failing
    that, MEDIUM when the date is at most 30 days after now or the amount is
    in (1000, 10000]; LOW in the remaining case. *)
Theorem calculatePriority_rule (env : Env) (data : Analysis.t) (w : World) :
  let now := clock env (clockReads w) in
  let target :=
    new_Date env (if truthy (Analysis.dueDate data)
                  then Analysis.dueDate data
                  else Analysis.expiryDate data) in
  let high :=
    withinDays target now 7 \/ amountAbove (Analysis.amount data) 10000 in
  let medium :=
    withinDays target now 30
    \/ amountBetween (Analysis.amount data) 1000 10000 in
  exists p w',
    calculatePriority env data w = (Normal p, w')
    /\ (truthy (Analysis.dueDate data) = false ->
        truthy (Analysis.expiryDate data) = false -> p = LOW)
    /\ (truthy (Analysis.dueDate data) = true
        \/ truthy (Analysis.expiryDate data) = true ->
        (high -> p = HIGH)
        /\ (~ high -> medium -> p = MEDIUM)
        /\ (~ high -> ~ medium -> p = LOW)).
Proof.
  intros now target high medium.
  unfold calculatePriority. unfold_monad. cbn [clockReads]. fold now.
  unfold orElse. fold target.
  destruct (truthy (Analysis.dueDate data)) eqn:D;
    destruct (truthy (Analysis.expiryDate data)) eqn:E; cbn [negb andb].
  4:{ do 2 eexists. split; [reflexivity|]. split; [reflexivity|].
      intros [H|H]; discriminate. }
  all: pose proof (rule_condition target now 7 (Analysis.amount data) 10000
                     ltac:(lia)) as CH;
    pose proof (rule_condition target now 30 (Analysis.amount data) 1000
                  ltac:(lia)) as CM;
    fold high in CH;
    assert (MB : ~ high ->
                 (withinDays target now 30
                  \/ amountAbove (Analysis.amount data) 1000 <-> medium))
      by (intros NH; unfold medium, amountAbove, amountBetween; split;
          (intros [H|(q & Hq & H)]; [left; exact H|]);
          [ right; exists q; split; [exact Hq|]; split; [exact H|];
            apply Qnot_lt_le; intros L; apply NH; right; exists q; auto
          | right; exists q; split; [exact Hq | tauto] ]);
    destruct (leNum (ceilDays target now) 7
              || (truthy (Analysis.amount data)
                  && gtNum (Analysis.amount data) 10000)) eqn:BH;
    [ do 2 eexists; split; [reflexivity|]; split; [discriminate|];
      intros _; split; [reflexivity|];
      assert (high) by (apply CH; reflexivity); split; intros; contradiction
    | assert (NH : ~ high) by (intros H; apply CH in H; discriminate);
      destruct (leNum (ceilDays target now) 30
                || (truthy (Analysis.amount data)
                    && gtNum (Analysis.amount data) 1000)) eqn:BM;
      do 2 eexists; (split; [reflexivity|]); (split; [discriminate|]);
      intros _; (split; [intros; contradiction|]);
      [ split; [reflexivity|]; intros _ NM; exfalso; apply NM;
        apply (MB NH); apply CM; reflexivity
      | split; [|reflexivity]; intros _ Hm; apply (MB NH) in Hm;
        apply CM in Hm; discriminate ] ].
Qed.

(* ------------------------------------------------------------------ *)
(** ** The controller, step by step *)

(** Once the text is extracted and long enough, what [uploadDocument] does
    is decided by the write of the Document and by STEP 4. *)
Lemma uploadDocument_from_step3 (env : Env) (req : Request) (f : File)
    (w : World) (text : jsstring) (a : Analysis.t) :
  file req = Some f ->
  extractTextFromImage env (path f) w = (Normal text, w) ->
  (10 <= List.length text)%nat ->
  analyzeDocument env text w = (Normal a, w) ->
  let d := newDocument (nextId w) (user_id req) f a text in
  uploadDocument env req w
  = match documentSave env d with
    | Some m => (Normal (serverError m), cleaned (path f) (drawn w))
    | None =>
        match createReminders env (user_id req) f (nextId w) a
                (persist (DocumentInsert d) (drawn w)) with
        | (Normal rs, w') => (Normal (created d a rs text), w')
        | (Throw m, w') => (Normal (serverError m), cleaned (path f) w')
        end
    end.
Proof.
  intros Hfile Hocr Hlen Hai d.
  unfold uploadDocument. rewrite Hfile.
  unfold tryCatch at 1. unfold bind at 1. unfold attempt. unfold bind at 1.
  rewrite Hocr.
  assert (G : isEmpty text || (List.length text <? 10)%nat = false).
  { apply orb_false_iff. split.
    - destruct text; [simpl in Hlen; lia | reflexivity].
    - apply Nat.ltb_ge. exact Hlen. }
  rewrite G. unfold ret at 1. unfold bind at 1. unfold tryCatch at 1.
  rewrite Hai. unfold bind at 1. unfold newObjectId.
  fold (drawn w). cbn [Document._id newDocument]. fold d.
  unfold bind at 1. unfold document_save.
  destruct (documentSave env d) as [m|].
  - unfold bind at 1. rewrite unlinkIfExists_run. reflexivity.
  - unfold bind at 1.
    destruct (createReminders env (user_id req) f (nextId w) a
                (persist (DocumentInsert d) (drawn w))) as [[rs|m] w'].
    + reflexivity.
    + unfold bind at 1. rewrite unlinkIfExists_run. reflexivity.
Qed.

Lemma uploadDocument_no_file (env : Env) (req : Request) (w : World) :
  file req = None ->
  uploadDocument env req w
  = (Normal {| statusCode := 400;
               json := Failure (lit "No file uploaded") None |}, w).
Proof. intros H. unfold uploadDocument. rewrite H. reflexivity. Qed.

Lemma uploadDocument_extraction_failed (env : Env) (req : Request) (f : File)
    (w : World) :
  file req = Some f ->
  (exists m, extractTextFromImage env (path f) w = (Throw m, w))
  \/ (exists text, extractTextFromImage env (path f) w = (Normal text, w)
                   /\ (List.length text < 10)%nat) ->
  exists body,
    uploadDocument env req w
    = (Normal {| statusCode := 400; json := body |}, cleaned (path f) w).
Proof.
  intros Hfile Hocr.
  unfold uploadDocument. rewrite Hfile.
  unfold tryCatch at 1. unfold bind at 1. unfold attempt. unfold bind at 1.
  destruct Hocr as [(m & ->) | (text & -> & Hlen)].
  - unfold bind at 1. rewrite unlinkIfExists_run. eexists. reflexivity.
  - apply Nat.ltb_lt in Hlen. rewrite Hlen, orb_true_r.
    unfold throw. unfold bind at 1. rewrite unlinkIfExists_run.
    eexists. reflexivity.
Qed.

(** Whatever happens, [uploadDocument] answers, and what it has written is
    nothing, or one Document followed by reminders of that Document. *)
Lemma uploadDocument_writes (env : Env) (req : Request) (w : World) :
  exists resp w',
    uploadDocument env req w = (Normal resp, w')
    /\ (journal w' = journal w
        \/ exists f a text rs,
             file req = Some f
             /\ journal w'
                = journal w
                  ++ DocumentInsert
                       (newDocument (nextId w) (user_id req) f a text)
                  :: map ReminderInsert rs
             /\ Forall (tagged (user_id req) (nextId w)) rs).
Proof.
  destruct (file req) as [f|] eqn:Hfile.
  2:{ rewrite (uploadDocument_no_file env req w Hfile). eauto. }
  pose proof (extractTextFromImage_world env (path f) w) as Hw.
  destruct (extractTextFromImage env (path f) w) as [[text|m] w0] eqn:Hocr;
    simpl in Hw; subst w0.
  2:{ destruct (uploadDocument_extraction_failed env req f w Hfile) as [b ->];
        [left; eauto|].
      do 2 eexists. split; [reflexivity|]. left. apply journal_cleaned. }
  destruct (Nat.lt_ge_cases (List.length text) 10) as [Hlen|Hlen].
  { destruct (uploadDocument_extraction_failed env req f w Hfile) as [b ->];
      [right; eauto|].
    do 2 eexists. split; [reflexivity|]. left. apply journal_cleaned. }
  destruct (analyzeDocument_never_throws env text w) as [a Hai].
  rewrite (uploadDocument_from_step3 env req f w text a Hfile Hocr Hlen Hai).
  destruct (documentSave env _) as [m|].
  { do 2 eexists. split; [reflexivity|]. left.
    rewrite journal_cleaned. reflexivity. }
  pose proof (createReminders_outcome env (user_id req) f (nextId w) a
                (persist (DocumentInsert
                            (newDocument (nextId w) (user_id req) f a text))
                         (drawn w))) as (rs & J & _ & T & _).
  destruct (createReminders _ _ _ _ _ _) as [[rs'|m] w']; simpl in J;
    do 2 eexists; (split; [reflexivity|]); right; exists f, a, text, rs;
    (split; [reflexivity|]); (split; [|exact T]);
    rewrite ?journal_cleaned, J, <- app_assoc; reflexivity.
Qed.

(* ------------------------------------------------------------------ *)
(** ** Reminders and their Document *)

(** C9.  In every run of [uploadDocument], whatever the environment does,
    each Reminder the run writes comes after the write of a Document of the
    same run whose [_id] is the reminder's [document] and whose [user] is the
    reminder's [user]: no Reminder is written before its Document is. *)
Theorem reminders_follow_their_document (env : Env) (req : Request)
    (w : World) :
  exists resp w' new,
    uploadDocument env req w = (Normal resp, w')
    /\ journal w' = journal w ++ new
    /\ forall pre r post,
         new = pre ++ ReminderInsert r :: post ->
         exists d,
           In (DocumentInsert d) pre
           /\ Document._id d = Reminder.document r
           /\ Document.user d = Reminder.user r.
Proof.
  destruct (uploadDocument_writes env req w)
    as (resp & w' & R & [J | (f & a & text & rs & _ & J & T)]).
  - exists resp, w', []. split; [exact R|]. split; [now rewrite app_nil_r|].
    intros pre r post H. destruct pre; discriminate.
  - exists resp, w'. eexists. split; [exact R|]. split; [exact J|].
    intros pre r post H. destruct pre as [|x pre]; [discriminate|].
    simpl in H. injection H as <- H.
    eexists. split; [left; reflexivity|].
    assert (I : In (ReminderInsert r) (map ReminderInsert rs))
      by (rewrite H; apply in_elt).
    apply in_map_iff in I. destruct I as (r' & [= ->] & I).
    rewrite Forall_forall in T. destruct (T r I) as [Td Tu].
    simpl. rewrite Td, Tu. auto.
Qed.

(** The bill uploaded on 2024-12-21: its second reminder, written last,
    carries the [_id] and the [user] of the Document written first. *)
Lemma reminders_follow_their_document_witness :
  exists d r1 r2,
    journal
      (snd (uploadDocument
              (Scenario.env (Normal (val Scenario.billText)) Scenario.bill
                            (fun _ => Scenario.dec21) None)
              Scenario.request Scenario.world))
    = [DocumentInsert d; ReminderInsert r1; ReminderInsert r2]
    /\ Document._id d = Reminder.document r2
    /\ Document.user d = Reminder.user r2.
Proof.
  destruct (reminders_follow_their_document
              (Scenario.env (Normal (val Scenario.billText)) Scenario.bill
                            (fun _ => Scenario.dec21) None)
              Scenario.request Scenario.world)
    as (resp & w' & new & R & J & H).
  rewrite R. cbn [snd]. rewrite J. cbn [Scenario.world journal app].
  assert (K : journal w'
              = journal
                  (snd (uploadDocument
                          (Scenario.env (Normal (val Scenario.billText))
                                        Scenario.bill
                                        (fun _ => Scenario.dec21) None)
                          Scenario.request Scenario.world)))
    by (rewrite R; reflexivity).
  rewrite J in K. vm_compute in K.
  destruct new as [|[d|?] [|[?|r1] [|[?|r2] [|]]]]; try discriminate.
  exists d, r1, r2. split; [reflexivity|].
  destruct (H [DocumentInsert d; ReminderInsert r1] r2 [] eq_refl)
    as (d' & [D | [D | []]] & Hid & Hu); [|discriminate].
  injection D as <-. auto.
Defined.

(* ------------------------------------------------------------------ *)
(** ** A reminder write that fails *)

(** C4 as stated fails: with the bill uploaded on 2024-12-21 and a reminder
    store that rejects its writes, the Document is persisted, and
    [uploadDocument] answers 500, not 201, and deletes the stored file. *)
Lemma reminder_failure_fails_the_upload :
  (exists d,
     journal
       (snd (uploadDocument
               (Scenario.env (Normal (val Scenario.billText)) Scenario.bill
                             (fun _ => Scenario.dec21)
                             (Some (lit "reminder store unavailable")))
               Scenario.request Scenario.world))
     = [DocumentInsert d])
  /\ fst (uploadDocument
            (Scenario.env (Normal (val Scenario.billText)) Scenario.bill
                          (fun _ => Scenario.dec21)
                          (Some (lit "reminder store unavailable")))
            Scenario.request Scenario.world)
     = Normal (serverError (lit "reminder store unavailable"))
  /\ pathExists (path Scenario.upload) Scenario.world = true
  /\ pathExists (path Scenario.upload)
       (snd (uploadDocument
               (Scenario.env (Normal (val Scenario.billText)) Scenario.bill
                             (fun _ => Scenario.dec21)
                             (Some (lit "reminder store unavailable")))
               Scenario.request Scenario.world))
     = false.
Proof.
  split; [eexists; vm_compute; reflexivity|].
  split; [vm_compute; reflexivity|].
  split; vm_compute; reflexivity.
Qed.

(** C4, amended.  When the Document has been persisted and STEP 4 then
    throws, it is because the store rejected a reminder [r] of the plan:
    [uploadDocument] answers 500 "Error processing document" with the
    message of the rejected write, and reports no [remindersCreated];
    nothing is rolled back: the journal the answer leaves is the one of the
    moment of the rejection, with the Document and, after it, the reminders
    of the plan that come before [r]; the stored file is deleted. *)
Theorem reminder_write_failure (env : Env) (req : Request) (f : File)
    (w : World) (text : jsstring) (a : Analysis.t) (m : jsstring)
    (w2 : World) :
  file req = Some f ->
  extractTextFromImage env (path f) w = (Normal text, w) ->
  (10 <= List.length text)%nat ->
  analyzeDocument env text w = (Normal a, w) ->
  let d := newDocument (nextId w) (user_id req) f a text in
  let stored := persist (DocumentInsert d) (drawn w) in
  documentSave env d = None ->
  createReminders env (user_id req) f (nextId w) a stored = (Throw m, w2) ->
  exists w' written r rest,
    uploadDocument env req w = (Normal (serverError m), w')
    /\ plannedReminders env (user_id req) f (nextId w) a stored
       = written ++ r :: rest
    /\ reminderSave env r = Some m
    /\ journal w2
       = journal w ++ DocumentInsert d :: map ReminderInsert written
    /\ journal w' = journal w2
    /\ pathExists (path f) w' = false.
Proof.
  intros Hfile Hocr Hlen Hai d stored Hdoc Hrem.
  exists (cleaned (path f) w2).
  rewrite (uploadDocument_from_step3 env req f w text a Hfile Hocr Hlen Hai).
  cbv zeta. fold d. fold stored. rewrite Hdoc, Hrem.
  destruct (createReminders_progress env (user_id req) f (nextId w) a stored)
    as (written & rest & P & J & _ & X).
  rewrite Hrem in J, X. simpl in J, X.
  destruct X as (r & rest' & -> & S).
  exists written, r, rest'. split; [reflexivity|]. split; [exact P|].
  split; [exact S|]. split; [|split].
  - rewrite J. unfold stored. cbn [journal persist drawn].
    rewrite <- app_assoc. reflexivity.
  - apply journal_cleaned.
  - apply pathExists_cleaned.
Qed.

(** The bill uploaded on 2024-12-21 while the store rejects the second
    reminder: the Document and the first reminder stay. *)
Lemma reminder_write_failure_witness :
  exists w' d r1,
    uploadDocument
      (Scenario.rejecting (fun r => (Reminder._id r =? 2)%nat)
         (lit "reminder store unavailable")
         (Scenario.env (Normal (val Scenario.billText)) Scenario.bill
                       (fun _ => Scenario.dec21) None))
      Scenario.request Scenario.world
    = (Normal (serverError (lit "reminder store unavailable")), w')
    /\ journal w' = [DocumentInsert d; ReminderInsert r1]
    /\ pathExists (path Scenario.upload) w' = false.
Proof.
  destruct (createReminders
              (Scenario.rejecting (fun r => (Reminder._id r =? 2)%nat)
                 (lit "reminder store unavailable")
                 (Scenario.env (Normal (val Scenario.billText)) Scenario.bill
                               (fun _ => Scenario.dec21) None))
              Scenario.user Scenario.upload 0%nat Scenario.bill
              (persist
                 (DocumentInsert
                    (newDocument 0%nat Scenario.user Scenario.upload
                                 Scenario.bill Scenario.billText))
                 (drawn Scenario.world))) as [[rs|m] w2] eqn:C;
    [vm_compute in C; discriminate|].
  assert (M : m = lit "reminder store unavailable")
    by (vm_compute in C; injection C as <- _; reflexivity).
  subst m.
  destruct (reminder_write_failure
              (Scenario.rejecting (fun r => (Reminder._id r =? 2)%nat)
                 (lit "reminder store unavailable")
                 (Scenario.env (Normal (val Scenario.billText)) Scenario.bill
                               (fun _ => Scenario.dec21) None))
              Scenario.request Scenario.upload Scenario.world
              Scenario.billText Scenario.bill
              (lit "reminder store unavailable") w2
              eq_refl eq_refl ltac:(vm_compute; lia) eq_refl eq_refl C)
    as (w' & written & r & rest & R & _ & _ & J2 & J & P).
  assert (J3 : exists d r1, journal w2 = [DocumentInsert d; ReminderInsert r1])
    by (vm_compute in C; injection C as <-; do 2 eexists; reflexivity).
  destruct J3 as (d & r1 & J3).
  exists w', d, r1. split; [exact R|]. split; [|exact P].
  now rewrite J, J3.
Defined.

(* ------------------------------------------------------------------ *)
(** ** Falsy fields of the analysis *)

Lemma orNull_falsy {A} `{ToBoolean A} (v : Js A) :
  truthy v = false -> orNull v = None.
Proof.
  destruct v as [| |x]; [reflexivity | reflexivity |].
  intros E. change (truthy x = false) in E.
  unfold orNull. rewrite E. reflexivity.
Qed.

(** C10.  When the upload reaches STEP 3 and the Document is written, every
    one of [dueDate], [expiryDate], [issueDate], [amount], [idNumber] and
    [provider] that is falsy in the analysis is null in the persisted
    [extractedData]; in particular an amount of zero is stored as null, and
    the persisted Document is the one an analysis with a null amount gives. *)
Theorem falsy_fields_persisted_as_null (env : Env) (req : Request) (f : File)
    (w : World) (text : jsstring) (a : Analysis.t) :
  file req = Some f ->
  extractTextFromImage env (path f) w = (Normal text, w) ->
  (10 <= List.length text)%nat ->
  analyzeDocument env text w = (Normal a, w) ->
  documentSave env (newDocument (nextId w) (user_id req) f a text) = None ->
  exists d rest,
    journal (snd (uploadDocument env req w))
    = journal w ++ DocumentInsert d :: rest
    /\ (truthy (Analysis.dueDate a) = false ->
        ExtractedData.dueDate (Document.extractedData d) = None)
    /\ (truthy (Analysis.expiryDate a) = false ->
        ExtractedData.expiryDate (Document.extractedData d) = None)
    /\ (truthy (Analysis.issueDate a) = false ->
        ExtractedData.issueDate (Document.extractedData d) = None)
    /\ (truthy (Analysis.amount a) = false ->
        ExtractedData.amount (Document.extractedData d) = None)
    /\ (truthy (Analysis.idNumber a) = false ->
        ExtractedData.idNumber (Document.extractedData d) = None)
    /\ (truthy (Analysis.provider a) = false ->
        ExtractedData.provider (Document.extractedData d) = None)
    /\ (forall q, Analysis.amount a = val q -> (q == 0)%Q ->
        ExtractedData.amount (Document.extractedData d) = None
        /\ d = newDocument (nextId w) (user_id req) f (withAmount a null) text).
Proof.
  intros Hfile Hocr Hlen Hai Hdoc.
  rewrite (uploadDocument_from_step3 env req f w text a Hfile Hocr Hlen Hai).
  rewrite Hdoc.
  pose proof (createReminders_outcome env (user_id req) f (nextId w) a
                (persist (DocumentInsert
                            (newDocument (nextId w) (user_id req) f a text))
                         (drawn w))) as (rs & J & _).
  exists (newDocument (nextId w) (user_id req) f a text),
         (map ReminderInsert rs).
  split.
  { destruct (createReminders _ _ _ _ _ _) as [[rs'|m] w']; simpl in J |- *;
      rewrite ?journal_cleaned, J, <- app_assoc; reflexivity. }
  cbn [newDocument Document.extractedData ExtractedData.dueDate
       ExtractedData.expiryDate ExtractedData.issueDate ExtractedData.amount
       ExtractedData.idNumber ExtractedData.provider].
  do 6 (split; [apply orNull_falsy|]).
  intros q Hq Hz.
  assert (Z0 : orNull (Analysis.amount a) = None).
  { rewrite Hq. cbv [orNull truthy number_ToBoolean].
    apply Qeq_bool_iff in Hz. rewrite Hz. reflexivity. }
  split; [exact Z0|].
  unfold newDocument, withAmount. cbn [Analysis.amount Analysis.dueDate
    Analysis.expiryDate Analysis.issueDate Analysis.idNumber Analysis.provider
    Analysis.documentType Analysis.category Analysis.priority Analysis.summary].
  rewrite Z0. reflexivity.
Qed.

(** The statement with a zero balance and an empty reference number. *)
Lemma falsy_fields_persisted_as_null_witness :
  exists d rest,
    journal
      (snd (uploadDocument
              (Scenario.env (Normal (val Scenario.billText)) Scenario.freeBill
                            (fun _ => Scenario.dec21) None)
              Scenario.request Scenario.world))
    = DocumentInsert d :: rest
    /\ ExtractedData.amount (Document.extractedData d) = None
    /\ ExtractedData.idNumber (Document.extractedData d) = None.
Proof.
  destruct (falsy_fields_persisted_as_null
              (Scenario.env (Normal (val Scenario.billText)) Scenario.freeBill
                            (fun _ => Scenario.dec21) None)
              Scenario.request Scenario.upload Scenario.world
              Scenario.billText Scenario.freeBill
              eq_refl eq_refl ltac:(vm_compute; lia) eq_refl eq_refl)
    as (d & rest & J & _ & _ & _ & Ham & Hid & _).
  exists d, rest. split; [exact J|].
  split; [apply Ham | apply Hid]; reflexivity.
Defined.

(* ------------------------------------------------------------------ *)
(** ** calculatePriority and the clock *)

(** The bill of 2500 due on 2025-01-10 is HIGH five days before it is due;
    an amount of 50000 with no date at all is LOW. *)
Lemma calculatePriority_rule_witness :
  fst (calculatePriority
         (Scenario.env (Normal (val Scenario.billText)) Scenario.bill
                       (fun _ => Scenario.jan05) None)
         Scenario.bill Scenario.world)
  = Normal HIGH
  /\ fst (calculatePriority
            (Scenario.env (Normal (val Scenario.billText)) Scenario.bill
                          (fun _ => Scenario.jan05) None)
            (withAmount manualReviewAnalysis (val (50000 # 1)))
            Scenario.world)
     = Normal LOW.
Proof.
  split.
  - destruct (calculatePriority_rule
                (Scenario.env (Normal (val Scenario.billText)) Scenario.bill
                              (fun _ => Scenario.jan05) None)
                Scenario.bill Scenario.world)
      as (p & w' & R & _ & Hd).
    rewrite R. cbn [fst]. f_equal.
    apply (proj1 (Hd (or_introl eq_refl))).
    left. exists Scenario.jan10. split; [reflexivity|].
    vm_compute. intro; discriminate.
  - destruct (calculatePriority_rule
                (Scenario.env (Normal (val Scenario.billText)) Scenario.bill
                              (fun _ => Scenario.jan05) None)
                (withAmount manualReviewAnalysis (val (50000 # 1)))
                Scenario.world)
      as (p & w' & R & Hn & _).
    rewrite R. cbn [fst]. f_equal. apply Hn; reflexivity.
Defined.





(* ------------------------------------------------------------------ *)
(** ** The cleaning of the recognized text *)

Lemma replaceSpaces_head (c : N) (s : jsstring) :
  isSpace c = false -> replaceSpaces (c :: s) = c :: replaceSpaces s.
Proof. intros H. simpl. rewrite H. reflexivity. Qed.

Lemma replaceSpaces_cons2 (c d : N) (s : jsstring) :
  replaceSpaces (c :: d :: s)
  = if isSpace c then
      if isSpace d then replaceSpaces (d :: s)
      else 32%N :: replaceSpaces (d :: s)
    else c :: replaceSpaces (d :: s).
Proof. reflexivity. Qed.

Lemma replaceSpaces_head_space (c : N) (s : jsstring) :
  isSpace c = true ->
  exists t, replaceSpaces (c :: s) = 32%N :: t
            /\ match t with [] => True | d :: _ => isSpace d = false end
            /\ singleSpaced t = singleSpaced (replaceSpaces s)
            /\ (List.length t <= List.length (replaceSpaces s))%nat.
Proof.
  revert c. induction s as [|d s IH]; intros c H.
  - exists []. simpl. rewrite H. auto.
  - rewrite replaceSpaces_cons2, H.
    destruct (isSpace d) eqn:D.
    + destruct (IH d D) as (t & E & Ht & Hs & Hl).
      exists t. rewrite E. repeat split; auto.
      * cbn [singleSpaced]. change (isSpace 32) with true. cbn.
        destruct t as [|e t]; [reflexivity|]. rewrite Ht. reflexivity.
      * simpl. lia.
    + exists (replaceSpaces (d :: s)). split; [reflexivity|].
      rewrite (replaceSpaces_head d s D). rewrite D. auto.
Qed.

Lemma singleSpaced_replaceSpaces (s : jsstring) :
  singleSpaced (replaceSpaces s) = true.
Proof.
  induction s as [|c s IH]; [reflexivity|].
  destruct (isSpace c) eqn:C.
  - destruct (replaceSpaces_head_space c s C) as (t & E & Ht & Hs & _).
    rewrite E. cbn [singleSpaced]. change (isSpace 32) with true. cbn.
    rewrite Hs, IH.
    destruct t as [|d t]; [reflexivity|]. rewrite Ht. reflexivity.
  - rewrite (replaceSpaces_head c s C). cbn [singleSpaced]. rewrite C.
    exact IH.
Qed.

Lemma length_replaceSpaces (s : jsstring) :
  (List.length (replaceSpaces s) <= List.length s)%nat.
Proof.
  induction s as [|c s IH]; [simpl; lia|].
  destruct (isSpace c) eqn:C.
  - destruct (replaceSpaces_head_space c s C) as (t & E & _ & _ & Hl).
    rewrite E. simpl. lia.
  - rewrite (replaceSpaces_head c s C). simpl. lia.
Qed.

Lemma singleSpaced_tail (c : N) (s : jsstring) :
  singleSpaced (c :: s) = true -> singleSpaced s = true.
Proof.
  cbn [singleSpaced]. destruct (isSpace c); [|auto].
  intros H. apply andb_true_iff in H. tauto.
Qed.

Lemma singleSpaced_init (s : jsstring) (c : N) :
  singleSpaced (s ++ [c]) = true -> singleSpaced s = true.
Proof.
  induction s as [|d s IH]; [reflexivity|].
  cbn [app singleSpaced]. destruct (isSpace d); [|exact IH].
  intros H. apply andb_true_iff in H. destruct H as [H Hs].
  apply andb_true_iff in H. destruct H as [Hd Hn].
  rewrite Hd, (IH Hs). destruct s as [|e s]; [reflexivity|].
  simpl in Hn. rewrite Hn. reflexivity.
Qed.

Lemma trimStart_suffix (s : jsstring) :
  exists pre, s = pre ++ trimStart s.
Proof.
  induction s as [|c s [pre IH]]; [exists []; reflexivity|].
  simpl. destruct (isSpace c).
  - exists (c :: pre). simpl. now rewrite <- IH.
  - exists []. reflexivity.
Qed.

Lemma trimStart_head (s : jsstring) (c : N) (rest : jsstring) :
  trimStart s = c :: rest -> isSpace c = false.
Proof.
  induction s as [|d s IH]; [discriminate|].
  simpl. destruct (isSpace d) eqn:D; [exact IH|].
  intros [= <- _]. exact D.
Qed.

Lemma singleSpaced_trimStart (s : jsstring) :
  singleSpaced s = true -> singleSpaced (trimStart s) = true.
Proof.
  induction s as [|c s IH]; [reflexivity|].
  intros H. simpl. destruct (isSpace c); [|exact H].
  apply IH. exact (singleSpaced_tail c s H).
Qed.

Lemma length_trimStart (s : jsstring) :
  (List.length (trimStart s) <= List.length s)%nat.
Proof.
  induction s as [|c s IH]; simpl; [lia|].
  destruct (isSpace c); simpl; lia.
Qed.

Lemma trimEnd_snoc (s : jsstring) (c : N) :
  trimEnd (s ++ [c]) = if isSpace c then trimEnd s else s ++ [c].
Proof.
  unfold trimEnd. rewrite rev_app_distr. simpl.
  destruct (isSpace c); [reflexivity|].
  simpl. rewrite rev_involutive. reflexivity.
Qed.

Lemma trimEnd_prefix (s : jsstring) :
  exists post, s = trimEnd s ++ post.
Proof.
  induction s as [|c s [post IH]] using rev_ind; [exists []; reflexivity|].
  rewrite trimEnd_snoc. destruct (isSpace c).
  - exists (post ++ [c]). rewrite app_assoc, <- IH. reflexivity.
  - exists []. now rewrite app_nil_r.
Qed.

Lemma trimEnd_last (s front : jsstring) (c : N) :
  trimEnd s = front ++ [c] -> isSpace c = false.
Proof.
  induction s as [|d s IH] using rev_ind; [destruct front; discriminate|].
  rewrite trimEnd_snoc. destruct (isSpace d) eqn:D; [exact IH|].
  intros H. apply app_inj_tail in H. destruct H as [_ <-]. exact D.
Qed.

Lemma singleSpaced_trimEnd (s : jsstring) :
  singleSpaced s = true -> singleSpaced (trimEnd s) = true.
Proof.
  induction s as [|c s IH] using rev_ind; [reflexivity|].
  intros H. rewrite trimEnd_snoc. destruct (isSpace c); [|exact H].
  apply IH. exact (singleSpaced_init s c H).
Qed.

Lemma length_trimEnd (s : jsstring) :
  (List.length (trimEnd s) <= List.length s)%nat.
Proof.
  unfold trimEnd. rewrite length_rev.
  etransitivity; [apply length_trimStart|]. rewrite length_rev. lia.
Qed.

Lemma unpadded_trim (s : jsstring) : unpadded (trim s).
Proof.
  unfold trim. split.
  - intros c rest E.
    destruct (trimEnd_prefix (trimStart s)) as [post P].
    rewrite E in P. simpl in P. exact (trimStart_head s c _ P).
  - intros front c E. exact (trimEnd_last _ _ _ E).
Qed.

Lemma replaceSpaces_fixed (s : jsstring) :
  singleSpaced s = true -> replaceSpaces s = s.
Proof.
  induction s as [|c s IH]; [reflexivity|].
  intros H. pose proof (singleSpaced_tail c s H) as Hs.
  destruct (isSpace c) eqn:C.
  - cbn [singleSpaced] in H. rewrite C in H.
    apply andb_true_iff in H. destruct H as [H _].
    apply andb_true_iff in H. destruct H as [Hc Hn].
    apply N.eqb_eq in Hc. subst c.
    destruct s as [|d s]; [reflexivity|].
    apply negb_true_iff in Hn.
    rewrite replaceSpaces_cons2, C, Hn, (IH Hs). reflexivity.
  - rewrite (replaceSpaces_head c s C), (IH Hs). reflexivity.
Qed.

Lemma trim_fixed (s : jsstring) : unpadded s -> trim s = s.
Proof.
  intros [Hh Hl]. unfold trim.
  assert (E : trimStart s = s).
  { destruct s as [|c s]; [reflexivity|].
    simpl. rewrite (Hh c s eq_refl). reflexivity. }
  rewrite E.
  destruct s as [|c s] using rev_ind; [reflexivity|].
  rewrite trimEnd_snoc, (Hl s c eq_refl). reflexivity.
Qed.

(** What [extractTextFromImage] returns was read by the recognizer from a
    file that exists, and is its cleaned text. *)
Lemma extractTextFromImage_returns (env : Env) (p : Path) (w w' : World)
    (text : jsstring) :
  extractTextFromImage env p w = (Normal text, w') ->
  exists raw,
    pathExists p w = true /\ recognize env p = Normal raw
    /\ text = cleanedText raw /\ w' = w.
Proof.
  unfold extractTextFromImage. unfold_monad.
  destruct (pathExists p w) eqn:E; simpl; [|discriminate].
  destruct (recognize env p) as [raw|m]; [|discriminate].
  intros [= <- <-]. exists raw. auto.
Qed.

Lemma extracted_text_shape_aux (env : Env) (p : Path) (w w' : World)
    (text : jsstring) :
  extractTextFromImage env p w = (Normal text, w') ->
  singleSpaced text = true /\ unpadded text.
Proof.
  intros H. apply extractTextFromImage_returns in H.
  destruct H as (raw & _ & R & -> & _). unfold cleanedText, trim.
  split; [|apply unpadded_trim].
  apply singleSpaced_trimEnd, singleSpaced_trimStart,
    singleSpaced_replaceSpaces.
Qed.

(** X1.  Whatever text [extractTextFromImage] returns, its white space is
    single U+0020 characters between other characters: none at either end,
    never two in a row, no tab or line break; and it is no longer than what
    the recognizer read. *)
Theorem extracted_text_is_tidy (env : Env) (p : Path) (w w' : World)
    (text : jsstring) :
  extractTextFromImage env p w = (Normal text, w') ->
  singleSpaced text = true
  /\ unpadded text
  /\ exists raw,
       recognize env p = Normal raw
       /\ (List.length text <= List.length (orDefault raw (lit "")))%nat.
Proof.
  intros H. apply extractTextFromImage_returns in H.
  destruct H as (raw & _ & R & -> & _). unfold cleanedText, trim.
  split; [|split].
  - apply singleSpaced_trimEnd, singleSpaced_trimStart,
      singleSpaced_replaceSpaces.
  - apply unpadded_trim.
  - exists raw. split; [exact R|].
    etransitivity; [apply length_trimEnd|].
    etransitivity; [apply length_trimStart|]. apply length_replaceSpaces.
Qed.

(** A scan read with a line break, a tab and padding. *)
Lemma extracted_text_is_tidy_witness :
  singleSpaced (lit "Electricity Bill Due 2025-01-10") = true
  /\ unpadded (lit "Electricity Bill Due 2025-01-10").
Proof.
  destruct (extracted_text_is_tidy
              (Scenario.env
                 (Normal (val [32; 69; 108; 101; 99; 116; 114; 105; 99; 105;
                               116; 121; 9; 66; 105; 108; 108; 10; 10; 68;
                               117; 101; 32; 32; 50; 48; 50; 53; 45; 48; 49;
                               45; 49; 48; 13; 10]%N))
                 Scenario.bill (fun _ => Scenario.dec21) None)
              (path Scenario.upload) Scenario.world Scenario.world
              (lit "Electricity Bill Due 2025-01-10") eq_refl)
    as (S & U & _).
  split; assumption.
Defined.

(** X2.  The texts that cleaning leaves as they are are exactly the tidy
    ones; so cleaning a cleaned text changes nothing. *)
Theorem cleaning_fixed_points (s : jsstring) (raw : Js jsstring) :
  (cleanedText (val s) = s <-> singleSpaced s = true /\ unpadded s)
  /\ cleanedText (val (cleanedText raw)) = cleanedText raw.
Proof.
  assert (Tidy : forall t, singleSpaced (trim (replaceSpaces t)) = true
                           /\ unpadded (trim (replaceSpaces t))).
  { intros t. split; [|apply unpadded_trim]. unfold trim.
    apply singleSpaced_trimEnd, singleSpaced_trimStart,
      singleSpaced_replaceSpaces. }
  assert (Val : forall t, cleanedText (val t) = trim (replaceSpaces t)).
  { intros t. unfold cleanedText, orDefault.
    destruct t; reflexivity. }
  assert (Fix : forall t, singleSpaced t = true /\ unpadded t ->
                          cleanedText (val t) = t).
  { intros t [S U]. rewrite Val, (replaceSpaces_fixed t S).
    exact (trim_fixed t U). }
  split.
  - split; [|apply Fix]. intros E. rewrite <- E, Val. apply Tidy.
  - apply Fix. unfold cleanedText. apply Tidy.
Qed.

(* ------------------------------------------------------------------ *)
(** ** The search for a JSON object in the backend's answer *)

Lemma fromFirstOpen_Some (s rest : jsstring) :
  fromFirstOpen s = Some rest <->
  exists pre, s = pre ++ 123%N :: rest /\ ~ In 123%N pre.
Proof.
  revert rest. induction s as [|c s IH]; intros rest; simpl.
  - split; [discriminate|]. intros ([|? ?] & E & _); discriminate.
  - destruct (c =? 123)%N eqn:C.
    + apply N.eqb_eq in C. subst c. split.
      * intros [= <-]. exists []. auto.
      * intros ([|d pre] & E & N).
        -- now injection E as <-.
        -- injection E as <- _. exfalso. apply N. now left.
    + apply N.eqb_neq in C. rewrite IH. split.
      * intros (pre & -> & N). exists (c :: pre). split; [reflexivity|].
        intros [E|I]; [congruence | contradiction].
      * intros ([|d pre] & E & N).
        -- injection E as -> _. congruence.
        -- injection E as <- ->. exists pre. split; [reflexivity|].
           intros I. apply N. now right.
Qed.

Lemma fromFirstOpen_None (s : jsstring) :
  fromFirstOpen s = None <-> ~ In 123%N s.
Proof.
  induction s as [|c s IH]; simpl; [tauto|].
  destruct (c =? 123)%N eqn:C.
  - apply N.eqb_eq in C. split; [discriminate | intros N; exfalso; auto].
  - apply N.eqb_neq in C. rewrite IH. split; [intros N [E|I] | intros N I];
      auto.
Qed.

Lemma upToLastClose_Some (s p : jsstring) :
  upToLastClose s = Some p <->
  exists body post, p = body ++ [125%N] /\ s = p ++ post /\ ~ In 125%N post.
Proof.
  revert p. induction s as [|c s IH]; intros p; simpl.
  - split; [discriminate|].
    intros (body & post & -> & E & _). destruct body; discriminate.
  - destruct (upToLastClose s) as [q|] eqn:U.
    + destruct (proj1 (IH q) eq_refl) as (body & post & -> & -> & N).
      split.
      * intros [= <-]. exists (c :: body), post. auto.
      * intros (body' & post' & -> & E & N').
        f_equal.
        destruct body' as [|d body'].
        -- injection E as -> E. exfalso. apply N'. rewrite <- E.
           apply in_or_app. left. apply in_or_app. right. now left.
        -- injection E as <- E. f_equal.
           assert (K : Some (body ++ [125%N]) = Some (body' ++ [125%N])).
           { apply IH. exists body', post'. auto. }
           injection K as K. simpl. now rewrite K.
    + assert (NoClose : ~ In 125%N s).
      { intros I. apply in_split in I. destruct I as (l1 & l2 & ->).
        clear IH. revert U. induction l1 as [|d l1 IH1]; simpl.
        - destruct (upToLastClose l2); discriminate.
        - destruct (upToLastClose (l1 ++ 125%N :: l2)); [discriminate|].
          intros _. now apply IH1. }
      destruct (c =? 125)%N eqn:C.
      * apply N.eqb_eq in C. subst c. split.
        -- intros [= <-]. exists [], s. auto.
        -- intros (body & post & -> & E & N). f_equal.
           destruct body as [|d body]; [reflexivity|].
           injection E as <- E. exfalso. apply NoClose. rewrite E.
           apply in_or_app. left. apply in_or_app. right. now left.
      * apply N.eqb_neq in C. split; [discriminate|].
        intros (body & post & -> & E & N). exfalso.
        destruct body as [|d body].
        -- injection E as -> _. congruence.
        -- injection E as _ E. apply NoClose. rewrite E.
           apply in_or_app. left. apply in_or_app. right. now left.
Qed.

Lemma upToLastClose_None (s : jsstring) :
  upToLastClose s = None <-> ~ In 125%N s.
Proof.
  induction s as [|c s IH]; simpl; [tauto|].
  destruct (upToLastClose s) as [q|].
  - split; [discriminate|]. intros N.
    assert (X : ~ In 125%N s) by (intros I; apply N; now right).
    apply (proj2 IH) in X. discriminate.
  - destruct (c =? 125)%N eqn:C.
    + apply N.eqb_eq in C. split; [discriminate | intros N; exfalso; auto].
    + apply N.eqb_neq in C. split; [|reflexivity].
      intros _ [E|I]; [congruence|]. now apply (proj1 IH).
Qed.

(** X3.  [responseText.match(/\{[\s\S]*\}/)] finds exactly the part of the
    answer from its first opening brace to its last closing brace: the match
    begins with an opening brace no other precedes, ends with a closing brace
    no other follows, and there is a match exactly when a closing brace comes
    somewhere after the first opening one. *)
Theorem jsonMatch_first_to_last (responseText : jsstring) :
  (forall m,
     jsonMatch responseText = Some m <->
     exists pre body post,
       responseText = pre ++ m ++ post
       /\ m = 123%N :: body ++ [125%N]
       /\ ~ In 123%N pre /\ ~ In 125%N post)
  /\ (jsonMatch responseText = None <->
      forall pre rest,
        responseText = pre ++ 123%N :: rest -> ~ In 123%N pre ->
        ~ In 125%N rest).
Proof.
  unfold jsonMatch. split.
  - intros m. split.
    + destruct (fromFirstOpen responseText) as [rest|] eqn:F; [|discriminate].
      apply fromFirstOpen_Some in F. destruct F as (pre & -> & N).
      destruct (upToLastClose rest) as [p|] eqn:U; [|discriminate].
      apply upToLastClose_Some in U.
      destruct U as (body & post & -> & -> & N').
      intros [= <-]. exists pre, body, post. simpl.
      rewrite <- !app_assoc. auto.
    + intros (pre & body & post & -> & -> & N & N').
      assert (F : fromFirstOpen (pre ++ (123%N :: body ++ [125%N]) ++ post)
                  = Some ((body ++ [125%N]) ++ post)).
      { apply fromFirstOpen_Some. exists pre. simpl. auto. }
      rewrite F.
      assert (U : upToLastClose ((body ++ [125%N]) ++ post)
                  = Some (body ++ [125%N])).
      { apply upToLastClose_Some. exists body, post. auto. }
      rewrite U. reflexivity.
  - split.
    + intros H pre rest -> N.
      assert (F : fromFirstOpen (pre ++ 123%N :: rest) = Some rest).
      { apply fromFirstOpen_Some. exists pre. auto. }
      rewrite F in H.
      destruct (upToLastClose rest) eqn:U; [discriminate|].
      now apply upToLastClose_None.
    + intros H.
      destruct (fromFirstOpen responseText) as [rest|] eqn:F; [|reflexivity].
      apply fromFirstOpen_Some in F. destruct F as (pre & -> & N).
      assert (U : upToLastClose rest = None).
      { apply upToLastClose_None. exact (H pre rest eq_refl N). }
      rewrite U. reflexivity.
Qed.

(* ------------------------------------------------------------------ *)
(** ** The ways a run of uploadDocument ends *)

Lemma uploadDocument_Ingested (env : Env) (req : Request) (w : World) :
  exists resp w',
    uploadDocument env req w = (Normal resp, w')
    /\ Ingested env req w resp w'.
Proof.
  destruct (file req) as [f|] eqn:Hfile.
  2:{ rewrite (uploadDocument_no_file env req w Hfile).
      do 2 eexists. split; [reflexivity|]. now constructor. }
  pose proof (extractTextFromImage_world env (path f) w) as Hw.
  destruct (extractTextFromImage env (path f) w) as [[text|m] w0] eqn:Hocr;
    simpl in Hw; subst w0.
  2:{ unfold uploadDocument. rewrite Hfile.
      unfold tryCatch at 1. unfold bind at 1. unfold attempt.
      unfold bind at 1. rewrite Hocr.
      unfold bind at 1. rewrite unlinkIfExists_run.
      do 2 eexists. split; [reflexivity|].
      now apply ingested_extraction_failed. }
  destruct (Nat.lt_ge_cases (List.length text) 10) as [Hlen|Hlen].
  { unfold uploadDocument. rewrite Hfile.
    unfold tryCatch at 1. unfold bind at 1. unfold attempt.
    unfold bind at 1. rewrite Hocr.
    pose proof Hlen as Hb. apply Nat.ltb_lt in Hb. rewrite Hb, orb_true_r.
    unfold throw. unfold bind at 1. rewrite unlinkIfExists_run.
    do 2 eexists. split; [reflexivity|].
    now apply (ingested_insufficient_text env req w f text). }
  destruct (analyzeDocument_never_throws env text w) as [a Hai].
  rewrite (uploadDocument_from_step3 env req f w text a Hfile Hocr Hlen Hai).
  destruct (documentSave env _) as [m|] eqn:Hdoc.
  { do 2 eexists. split; [reflexivity|].
    now apply (ingested_document_rejected env req w f text a m). }
  destruct (createReminders _ _ _ _ _ _) as [[rs|m] w'] eqn:Hrem;
    do 2 eexists; (split; [reflexivity|]).
  - now apply (ingested_created env req w f text a rs w').
  - now apply (ingested_reminder_rejected env req w f text a m w').
Qed.

(* ------------------------------------------------------------------ *)
(** ** Files and answers *)

Lemma pathExists_unlinked_other (p q : Path) (w : World) :
  q <> p -> pathExists q (unlinked p w) = pathExists q w.
Proof.
  intros N. unfold pathExists, unlinked; simpl.
  induction (files w) as [|x l IH]; simpl; [reflexivity|].
  destruct (jsstring_eqb p x) eqn:E; simpl.
  - apply jsstring_eqb_eq in E. subst x.
    destruct (jsstring_eqb q p) eqn:Q; [|exact IH].
    apply jsstring_eqb_eq in Q. contradiction.
  - rewrite IH. reflexivity.
Qed.

Lemma pathExists_cleaned_other (p q : Path) (w : World) :
  q <> p -> pathExists q (cleaned p w) = pathExists q w.
Proof.
  intros N. unfold cleaned. destruct (pathExists p w); [|reflexivity].
  now apply pathExists_unlinked_other.
Qed.

Lemma createReminders_files (env : Env) (user : UserId) (f : File)
    (document_id : ObjectId) (a : Analysis.t) (w : World) :
  files (snd (createReminders env user f document_id a w)) = files w.
Proof.
  destruct (createReminders_progress env user f document_id a w)
    as (_ & _ & _ & _ & F & _). exact F.
Qed.

Lemma createReminders_journal (env : Env) (user : UserId) (f : File)
    (document_id : ObjectId) (a : Analysis.t) (w : World) :
  exists news,
    journal (snd (createReminders env user f document_id a w))
    = journal w ++ map ReminderInsert news.
Proof.
  destruct (createReminders_progress env user f document_id a w)
    as (news & _ & _ & J & _). eauto.
Qed.

(** X4.  [uploadDocument] always answers, with 201, 400 or 500, and never
    lets an exception escape.  After 201 the file store is as before and holds
    the upload; after any other answer the uploaded file does not exist.  No
    other file is ever touched, nothing already stored is removed, and an
    answer of 400 means that nothing was written. *)
Theorem upload_answers_and_cleans_up (env : Env) (req : Request) (w : World) :
  exists resp w',
    uploadDocument env req w = (Normal resp, w')
    /\ (statusCode resp = 201 \/ statusCode resp = 400
        \/ statusCode resp = 500)
    /\ (statusCode resp = 201 ->
        files w' = files w
        /\ exists f, file req = Some f /\ pathExists (path f) w' = true)
    /\ (statusCode resp <> 201 ->
        forall f, file req = Some f -> pathExists (path f) w' = false)
    /\ (forall q, (forall f, file req = Some f -> q <> path f) ->
        pathExists q w' = pathExists q w)
    /\ (exists new, journal w' = journal w ++ new)
    /\ (statusCode resp = 400 -> journal w' = journal w).
Proof.
  destruct (uploadDocument_Ingested env req w) as (resp & w' & R & I).
  exists resp, w'. split; [exact R|].
  destruct I as [Hf | f m Hf Ho | f text Hf Ho Hl | f text a m Hf Ho Hl Ha Hd
                | f text a m w2 Hf Ho Hl Ha Hd Hr
                | f text a rs w2 Hf Ho Hl Ha Hd Hr]; cbn [statusCode serverError created].
  - repeat split; auto; try discriminate.
    + intros _ f E. congruence.
    + exists []. now rewrite app_nil_r.
  - repeat split; auto; try discriminate.
    + intros _ f' E. assert (f' = f) by congruence. subst f'.
      apply pathExists_cleaned.
    + intros q N. apply pathExists_cleaned_other. exact (N f Hf).
    + exists []. now rewrite app_nil_r, journal_cleaned.
    + intros _. apply journal_cleaned.
  - repeat split; auto; try discriminate.
    + intros _ f' E. assert (f' = f) by congruence. subst f'.
      apply pathExists_cleaned.
    + intros q N. apply pathExists_cleaned_other. exact (N f Hf).
    + exists []. now rewrite app_nil_r, journal_cleaned.
    + intros _. apply journal_cleaned.
  - repeat split; auto; try discriminate.
    + intros _ f' E. assert (f' = f) by congruence. subst f'.
      apply pathExists_cleaned.
    + intros q N. rewrite pathExists_cleaned_other by exact (N f Hf).
      reflexivity.
    + exists []. now rewrite app_nil_r, journal_cleaned.
  - pose proof (createReminders_files env (user_id req) f (nextId w) a
                  (persist (DocumentInsert
                              (newDocument (nextId w) (user_id req) f a text))
                           (drawn w))) as F.
    destruct (createReminders_journal env (user_id req) f (nextId w) a
                (persist (DocumentInsert
                            (newDocument (nextId w) (user_id req) f a text))
                         (drawn w))) as [news J].
    rewrite Hr in F, J. simpl in F, J.
    repeat split; auto; try discriminate.
    + intros _ f' E. assert (f' = f) by congruence. subst f'.
      apply pathExists_cleaned.
    + intros q N. rewrite pathExists_cleaned_other by exact (N f Hf).
      unfold pathExists. rewrite F. reflexivity.
    + eexists. rewrite journal_cleaned, J, <- app_assoc. reflexivity.
  - pose proof (createReminders_files env (user_id req) f (nextId w) a
                  (persist (DocumentInsert
                              (newDocument (nextId w) (user_id req) f a text))
                           (drawn w))) as F.
    destruct (createReminders_journal env (user_id req) f (nextId w) a
                (persist (DocumentInsert
                            (newDocument (nextId w) (user_id req) f a text))
                         (drawn w))) as [news J].
    rewrite Hr in F, J. simpl in F, J.
    destruct (extractTextFromImage_returns env _ _ _ _ Ho)
      as (raw & Ex & _).
    repeat split; auto; try discriminate.
    + exists f. split; [exact Hf|]. unfold pathExists in *. now rewrite F.
    + intros N. exfalso. now apply N.
    + intros q N. unfold pathExists. rewrite F. reflexivity.
    + eexists. rewrite J, <- app_assoc. reflexivity.
Qed.

(* ------------------------------------------------------------------ *)
(** ** What a run writes *)

Lemma inStepOrder_prefix (l l' : list ReminderType) :
  inStepOrder (l ++ l') = true -> inStepOrder l = true.
Proof.
  destruct l as [|a [|b [|c [|d [|e l]]]]]; try reflexivity;
    destruct a; try discriminate;
    try destruct b; try discriminate;
    try destruct c; try discriminate;
    try destruct d; try discriminate;
    try reflexivity;
    simpl; try discriminate;
    destruct l' as [|x [|y [|z [|u l']]]]; simpl;
    try discriminate; try reflexivity;
    try destruct x; try discriminate; try reflexivity;
    try destruct y; try discriminate; try reflexivity;
    try destruct z; try discriminate; try reflexivity.
Qed.

Lemma plannedReminders_order (env : Env) (user : UserId) (f : File)
    (document_id : ObjectId) (a : Analysis.t) (w : World) :
  inStepOrder
    (map Reminder.reminderType
         (plannedReminders env user f document_id a w)) = true.
Proof.
  unfold plannedReminders, dueNews, expiryNews.
  destruct (truthy (Analysis.dueDate a));
    destruct (truthy (Analysis.expiryDate a)); simpl;
    repeat match goal with |- context [if ?b then _ else _] => destruct b end;
    reflexivity.
Qed.

Lemma reminderWrites_map (rs : list Reminder.t) :
  reminderWrites (map ReminderInsert rs) = rs.
Proof. induction rs as [|r rs IH]; simpl; [|rewrite IH]; reflexivity. Qed.

(** X5.  When [uploadDocument] answers 201, it has extracted a text of at
    least ten characters, analyzed it, written one Document made from the
    two, and then every reminder STEP 4 sets out to write from there, at most
    four, in the order due, upcoming, expiry, renewal; [remindersCreated] is
    their number, [extractedTextLength] is the length of the stored
    [rawText], and the answer carries the stored Document and the analysis. *)
Theorem created_reports_what_was_written (env : Env) (req : Request)
    (w w' : World) (resp : Response) :
  uploadDocument env req w = (Normal resp, w') ->
  statusCode resp = 201 ->
  exists message d a rs f text,
    json resp
    = Uploaded message d a (List.length rs)
               (List.length (ExtractedData.rawText (Document.extractedData d)))
    /\ journal w' = journal w ++ DocumentInsert d :: map ReminderInsert rs
    /\ (List.length rs <= 4)%nat
    /\ inStepOrder (map Reminder.reminderType rs) = true
    /\ (10 <= List.length (ExtractedData.rawText (Document.extractedData d)))%nat
    /\ files w' = files w
    /\ file req = Some f
    /\ extractTextFromImage env (path f) w = (Normal text, w)
    /\ analyzeDocument env text w = (Normal a, w)
    /\ d = newDocument (nextId w) (user_id req) f a text
    /\ rs = plannedReminders env (user_id req) f (nextId w) a
              (persist (DocumentInsert d) (drawn w)).
Proof.
  intros R S.
  destruct (uploadDocument_Ingested env req w) as (resp0 & w0 & R0 & I).
  rewrite R in R0. injection R0 as <- <-.
  destruct I as [Hf | f m Hf Ho | f text Hf Ho Hl | f text a m Hf Ho Hl Ha Hd
                | f text a m w2 Hf Ho Hl Ha Hd Hr
                | f text a rs w2 Hf Ho Hl Ha Hd Hr];
    cbn [statusCode serverError created] in S; try discriminate.
  pose proof (createReminders_progress env (user_id req) f (nextId w) a
                (persist (DocumentInsert
                            (newDocument (nextId w) (user_id req) f a text))
                         (drawn w))) as (news & rest & P & J & F & X).
  rewrite Hr in J, F, X. simpl in J, F, X. destruct X as [-> ->].
  rewrite app_nil_r in P. simpl in P.
  eexists _, (newDocument (nextId w) (user_id req) f a text), a, news, f, text.
  split; [reflexivity|].
  split; [rewrite J, <- app_assoc; reflexivity|].
  rewrite <- P.
  split; [apply plannedReminders_length|].
  split; [apply plannedReminders_order|].
  split; [exact Hl|]. split; [exact F|]. auto 6.
Qed.

(** The policy uploaded on 2025-01-15. *)
Lemma created_reports_what_was_written_witness :
  exists resp w',
    uploadDocument
      (Scenario.env (Normal (val Scenario.billText)) Scenario.policy
                    (fun _ => Scenario.jan15) None)
      Scenario.request Scenario.world
    = (Normal resp, w')
    /\ exists message d a rs,
         json resp
         = Uploaded message d a (List.length rs)
             (List.length (ExtractedData.rawText (Document.extractedData d)))
         /\ journal w' = DocumentInsert d :: map ReminderInsert rs
         /\ List.length rs = 2%nat.
Proof.
  destruct (uploadDocument
              (Scenario.env (Normal (val Scenario.billText)) Scenario.policy
                            (fun _ => Scenario.jan15) None)
              Scenario.request Scenario.world) as [[resp|m] w'] eqn:R.
  2:{ vm_compute in R. discriminate. }
  assert (S : statusCode resp = 201)
    by (vm_compute in R; injection R as <- _; reflexivity).
  destruct (created_reports_what_was_written _ _ _ _ _ R S)
    as (message & d & a & rs & f & text & E & J & _).
  exists resp, w'. split; [reflexivity|].
  exists message, d, a, rs. split; [exact E|]. split; [exact J|].
  assert (L : List.length (journal w') = 3%nat)
    by (vm_compute in R; injection R as _ <-; reflexivity).
  rewrite J in L. simpl in L. rewrite length_map in L. lia.
Defined.

Lemma map_ReminderInsert_inj (a b : list Reminder.t) :
  map ReminderInsert a = map ReminderInsert b -> a = b.
Proof.
  revert b. induction a as [|x a IH]; intros [|y b]; simpl; try discriminate;
    [reflexivity|].
  intros [= -> E]. f_equal. now apply IH.
Qed.

(** What a run has written: nothing, or the Document and the first of the
    reminders STEP 4 set out to write. *)
Lemma uploadDocument_segment (env : Env) (req : Request) (w w' : World)
    (resp : Response) (new : list Write) :
  uploadDocument env req w = (Normal resp, w') ->
  journal w' = journal w ++ new ->
  new = []
  \/ exists f text a news rest,
       file req = Some f
       /\ extractTextFromImage env (path f) w = (Normal text, w)
       /\ (10 <= List.length text)%nat
       /\ analyzeDocument env text w = (Normal a, w)
       /\ new = DocumentInsert (newDocument (nextId w) (user_id req) f a text)
                :: map ReminderInsert news
       /\ plannedReminders env (user_id req) f (nextId w) a
            (persist (DocumentInsert
                        (newDocument (nextId w) (user_id req) f a text))
                     (drawn w))
          = news ++ rest.
Proof.
  intros R J.
  destruct (uploadDocument_Ingested env req w) as (resp0 & w0 & R0 & I).
  rewrite R in R0. injection R0 as <- <-.
  assert (Nil : journal w' = journal w -> new = []).
  { intros E. rewrite E in J. rewrite <- (app_nil_r (journal w)) in J at 1.
    apply app_inv_head in J. now symmetry. }
  destruct I as [Hf | f m Hf Ho | f text Hf Ho Hl | f text a m Hf Ho Hl Ha Hd
                | f text a m w2 Hf Ho Hl Ha Hd Hr
                | f text a rs w2 Hf Ho Hl Ha Hd Hr].
  - left. now apply Nil.
  - left. apply Nil, journal_cleaned.
  - left. apply Nil, journal_cleaned.
  - left. apply Nil. now rewrite journal_cleaned.
  - right.
    pose proof (createReminders_progress env (user_id req) f (nextId w) a
                  (persist (DocumentInsert
                              (newDocument (nextId w) (user_id req) f a text))
                           (drawn w))) as (news & rest & P & Jn & _).
    rewrite Hr in Jn. simpl in Jn.
    rewrite journal_cleaned, Jn, <- app_assoc in J.
    apply app_inv_head in J. simpl in J.
    exists f, text, a, news, rest. auto 10.
  - right.
    pose proof (createReminders_progress env (user_id req) f (nextId w) a
                  (persist (DocumentInsert
                              (newDocument (nextId w) (user_id req) f a text))
                           (drawn w))) as (news & rest & P & Jn & _).
    rewrite Hr in Jn. simpl in Jn.
    rewrite Jn, <- app_assoc in J.
    apply app_inv_head in J. simpl in J.
    exists f, text, a, news, rest. auto 10.
Qed.

Lemma orDefault_nonempty (v : Js jsstring) (d : jsstring) :
  d <> [] -> orDefault v d <> [].
Proof.
  intros N. destruct v as [| |s]; simpl; auto.
  destruct s; simpl; [exact N | discriminate].
Qed.

Lemma app_nonempty_r (a b : jsstring) : b <> [] -> a ++ b <> [].
Proof. intros N E. apply app_eq_nil in E. tauto. Qed.

Lemma orNull_string_nonempty (v : Js jsstring) (s : jsstring) :
  orNull v = Some s -> s <> [].
Proof.
  destruct v as [| |t]; simpl; try discriminate.
  destruct t; simpl; [discriminate|]. intros [= <-]. discriminate.
Qed.

Lemma orNull_number_nonzero (v : Js Q) (q : Q) :
  orNull v = Some q -> ~ (q == 0)%Q.
Proof.
  destruct v as [| |x]; simpl; try discriminate.
  cbv [truthy number_ToBoolean].
  destruct (Qeq_bool x 0) eqn:E; simpl; [discriminate|].
  intros [= <-] Z. apply Qeq_bool_iff in Z. congruence.
Qed.

(** X6.  Every Document a run of [uploadDocument] writes belongs to the
    requesting user, points to the uploaded file, is ACTIVE, has a
    documentType, a category, a priority and a summary that are not empty, a
    [rawText] of at least ten characters that is tidy, and optional fields
    that are null or hold something: no empty string, no zero amount.  A run
    writes at most one Document, before anything else. *)
Theorem persisted_document_is_complete (env : Env) (req : Request)
    (w w' : World) (resp : Response) (new : list Write) (d : Document.t) :
  uploadDocument env req w = (Normal resp, w') ->
  journal w' = journal w ++ new ->
  In (DocumentInsert d) new ->
  (exists rs, new = DocumentInsert d :: map ReminderInsert rs)
  /\ Document.user d = user_id req
  /\ (exists f, file req = Some f /\ Document.fileUrl d = path f
                /\ Document.fileName d = originalname f)
  /\ Document.status d = ACTIVE
  /\ Document.documentType d <> []
  /\ Document.category d <> []
  /\ Document.priority d <> []
  /\ ExtractedData.summary (Document.extractedData d) <> []
  /\ (10 <= List.length (ExtractedData.rawText (Document.extractedData d)))%nat
  /\ singleSpaced (ExtractedData.rawText (Document.extractedData d)) = true
  /\ (forall s,
        In (Some s)
           [ExtractedData.dueDate (Document.extractedData d);
            ExtractedData.expiryDate (Document.extractedData d);
            ExtractedData.issueDate (Document.extractedData d);
            ExtractedData.idNumber (Document.extractedData d);
            ExtractedData.provider (Document.extractedData d)] ->
        s <> [])
  /\ (forall q, ExtractedData.amount (Document.extractedData d) = Some q ->
                ~ (q == 0)%Q).
Proof.
  intros R J I.
  destruct (uploadDocument_segment env req w w' resp new R J)
    as [-> | (f & text & a & news & rest & Hf & Ho & Hl & Ha & -> & P)];
    [contradiction|].
  destruct I as [E | I].
  2:{ apply in_map_iff in I. destruct I as (r & E & _). discriminate. }
  injection E as <-.
  split; [eauto|]. split; [reflexivity|].
  split; [exists f; auto|]. split; [reflexivity|].
  cbn [newDocument Document.documentType Document.category Document.priority
       Document.extractedData ExtractedData.summary ExtractedData.rawText
       ExtractedData.dueDate ExtractedData.expiryDate ExtractedData.issueDate
       ExtractedData.idNumber ExtractedData.provider ExtractedData.amount].
  do 4 (split; [apply orDefault_nonempty; discriminate|]).
  split; [exact Hl|].
  split.
  { destruct (extracted_text_shape_aux env (path f) w w text Ho) as [S _].
    exact S. }
  split.
  - intros s [E | [E | [E | [E | [E | []]]]]];
      exact (orNull_string_nonempty _ _ E).
  - intros q E. exact (orNull_number_nonzero _ _ E).
Qed.

Lemma persisted_document_is_complete_witness :
  exists resp w',
    uploadDocument
      (Scenario.env (Normal (val Scenario.billText)) Scenario.bill
                    (fun _ => Scenario.dec21) None)
      Scenario.request Scenario.world
    = (Normal resp, w')
    /\ Document.documentType
         (newDocument 0%nat Scenario.user Scenario.upload Scenario.bill
                      Scenario.billText) <> [].
Proof.
  destruct (uploadDocument
              (Scenario.env (Normal (val Scenario.billText)) Scenario.bill
                            (fun _ => Scenario.dec21) None)
              Scenario.request Scenario.world) as [[resp|m] w'] eqn:R.
  2:{ vm_compute in R. discriminate. }
  assert (I : In (DocumentInsert
                    (newDocument 0%nat Scenario.user Scenario.upload
                                 Scenario.bill Scenario.billText))
                 (journal w'))
    by (vm_compute in R; injection R as _ <-; left; reflexivity).
  destruct (persisted_document_is_complete _ _ _ _ _ (journal w') _ R
              eq_refl I) as (_ & _ & _ & _ & T & _).
  exists resp, w'. split; [reflexivity | exact T].
Defined.

Lemma planned_reminder_made (env : Env) (user : UserId) (f : File)
    (document_id : ObjectId) (a : Analysis.t) (w : World) (r : Reminder.t) :
  In r (plannedReminders env user f document_id a w) ->
  Reminder.status r = PENDING
  /\ Reminder.user r = user
  /\ Reminder.document r = document_id
  /\ (Reminder.reminderType r = DUE_DATE \/ Reminder.reminderType r = EXPIRY
      \/ Reminder.reminderType r = RENEWAL)
  /\ Reminder.title r <> []
  /\ Reminder.description r <> [].
Proof.
  unfold plannedReminders, dueNews, expiryNews. intros I.
  apply in_app_or in I.
  destruct I as [I|I];
    [destruct (truthy (Analysis.dueDate a))
    | destruct (truthy (Analysis.expiryDate a))];
    try contradiction;
    (destruct I as [<- | I];
     [| destruct (dateGt _ _); [destruct I as [<- | []] | contradiction]]);
    cbn; repeat split; auto;
    try (apply orDefault_nonempty);
    repeat (apply app_nonempty_r); try discriminate.
Qed.

(** X7.  Every Reminder a run of [uploadDocument] writes is PENDING, of type
    DUE_DATE, EXPIRY or RENEWAL, belongs to the requesting user, and has a
    title and a description that are not empty; the reminders of a run are
    written in the order due, upcoming, expiry, renewal, also when the run is
    cut short by a rejected write. *)
Theorem persisted_reminders_are_well_formed (env : Env) (req : Request)
    (w w' : World) (resp : Response) (new : list Write) :
  uploadDocument env req w = (Normal resp, w') ->
  journal w' = journal w ++ new ->
  inStepOrder (map Reminder.reminderType (reminderWrites new)) = true
  /\ forall r,
       In (ReminderInsert r) new ->
       Reminder.status r = PENDING
       /\ Reminder.user r = user_id req
       /\ (Reminder.reminderType r = DUE_DATE
           \/ Reminder.reminderType r = EXPIRY
           \/ Reminder.reminderType r = RENEWAL)
       /\ Reminder.title r <> []
       /\ Reminder.description r <> [].
Proof.
  intros R J.
  destruct (uploadDocument_segment env req w w' resp new R J)
    as [-> | (f & text & a & news & rest & Hf & Ho & Hl & Ha & -> & P)].
  { split; [reflexivity | intros r []]. }
  split.
  - cbn [reminderWrites]. rewrite reminderWrites_map.
    apply (inStepOrder_prefix _ (map Reminder.reminderType rest)).
    rewrite <- map_app, <- P. apply plannedReminders_order.
  - intros r [E | I]; [discriminate|].
    apply in_map_iff in I. destruct I as (r' & [= ->] & I).
    assert (Ip : In r (news ++ rest)) by (apply in_or_app; now left).
    rewrite <- P in Ip. apply planned_reminder_made in Ip.
    tauto.
Qed.

(** The bill uploaded on 2024-12-21 with a reminder store that rejects the
    second write: the due reminder alone was written. *)
Lemma persisted_reminders_are_well_formed_witness :
  exists resp w',
    uploadDocument
      (Scenario.rejecting (fun r => negb (Reminder._id r =? 1)%nat)
         (lit "write conflict")
         (Scenario.env (Normal (val Scenario.billText)) Scenario.bill
                       (fun _ => Scenario.dec21) None))
      Scenario.request Scenario.world
    = (Normal resp, w')
    /\ statusCode resp = 500
    /\ inStepOrder (map Reminder.reminderType (reminderWrites (journal w')))
       = true
    /\ List.length (reminderWrites (journal w')) = 1%nat.
Proof.
  destruct (uploadDocument
              (Scenario.rejecting (fun r => negb (Reminder._id r =? 1)%nat)
                 (lit "write conflict")
                 (Scenario.env (Normal (val Scenario.billText)) Scenario.bill
                               (fun _ => Scenario.dec21) None))
              Scenario.request Scenario.world) as [[resp|m] w'] eqn:R.
  2:{ vm_compute in R. discriminate. }
  destruct (persisted_reminders_are_well_formed _ _ _ _ _ (journal w') R
              eq_refl) as [O _].
  exists resp, w'. split; [reflexivity|].
  split; [vm_compute in R; injection R as <- _; reflexivity|].
  split; [exact O|].
  vm_compute in R. injection R as _ <-. reflexivity.
Defined.

(* ------------------------------------------------------------------ *)
(** ** An upload whose analysis fails *)

Lemma analyzeDocument_failure_cases (env : Env) (text : jsstring) (w : World) :
  AnalyzerFailure env text ->
  analyzeDocument env text w = (Normal manualReviewAnalysis, w)
  \/ analyzeDocument env text w = (Normal analysisFailedAnalysis, w).
Proof.
  intros Hfail. unfold analyzeDocument. unfold_monad.
  destruct (truthy (GEMINI_API_KEY env)) eqn:K; simpl; [|now right].
  destruct Hfail as [H | m H | r H1 H2 | r j m H1 H2 H3].
  - congruence.
  - rewrite H. now right.
  - rewrite H1, H2. now left.
  - rewrite H1, H2, H3. now left.
Qed.

(** X8.  A failure of the analyzer's backend does not stop an upload: when
    the text is extracted and long enough and the store accepts the Document
    made from the analysis that [analyzeDocument] returns,
    [uploadDocument] answers 201, stores the Document as "other" / "Personal"
    / "MEDIUM" with the extracted text and one of the two default summaries,
    all its optional fields null, and makes no reminder; the file stays. *)
Theorem failed_analysis_still_stores_the_document (env : Env) (req : Request)
    (f : File) (w : World) (raw : Js jsstring) :
  file req = Some f ->
  pathExists (path f) w = true ->
  recognize env (path f) = Normal raw ->
  (10 <= List.length (cleanedText raw))%nat ->
  AnalyzerFailure env (cleanedText raw) ->
  (forall a,
     fst (analyzeDocument env (cleanedText raw) w) = Normal a ->
     documentSave env
       (newDocument (nextId w) (user_id req) f a (cleanedText raw)) = None) ->
  exists message d a,
    uploadDocument env req w
    = (Normal {| statusCode := 201;
                 json := Uploaded message d a 0
                                  (List.length (cleanedText raw)) |},
       persist (DocumentInsert d) (drawn w))
    /\ Document.documentType d = lit "other"
    /\ Document.category d = lit "Personal"
    /\ Document.priority d = lit "MEDIUM"
    /\ Document.extractedData d
       = {| ExtractedData.dueDate := None;
            ExtractedData.expiryDate := None;
            ExtractedData.issueDate := None;
            ExtractedData.amount := None;
            ExtractedData.idNumber := None;
            ExtractedData.provider := None;
            ExtractedData.rawText := cleanedText raw;
            ExtractedData.summary := ExtractedData.summary
                                       (Document.extractedData d) |}
    /\ (ExtractedData.summary (Document.extractedData d)
        = lit "Document uploaded - manual review needed"
        \/ ExtractedData.summary (Document.extractedData d)
           = lit "Document uploaded - AI analysis failed").
Proof.
  intros Hfile Hex Hocr Hlen Hfail Hsave.
  pose proof (extractTextFromImage_recognized env _ _ _ Hex Hocr) as Ho.
  fold (cleanedText raw) in Ho.
  destruct (analyzeDocument_failure_cases env (cleanedText raw) w Hfail)
    as [Ha | Ha];
    rewrite (uploadDocument_from_step3 env req f w _ _ Hfile Ho Hlen Ha);
    cbv zeta; rewrite (Hsave _ (f_equal fst Ha));
    do 3 eexists; (split; [reflexivity|]);
    repeat split; auto.
Qed.

Lemma failed_analysis_still_stores_the_document_witness :
  exists message d a,
    uploadDocument Scenario.proseBackend Scenario.request Scenario.world
    = (Normal {| statusCode := 201;
                 json := Uploaded message d a 0 47 |},
       persist (DocumentInsert d) (drawn Scenario.world))
    /\ Document.documentType d = lit "other".
Proof.
  destruct (failed_analysis_still_stores_the_document
              Scenario.proseBackend Scenario.request Scenario.upload
              Scenario.world (val Scenario.billText)
              eq_refl eq_refl eq_refl ltac:(vm_compute; lia)
              (NoJsonObject Scenario.proseBackend
                            (cleanedText (val Scenario.billText))
                            (lit "Sorry, I cannot read this.")
                            eq_refl eq_refl)
              ltac:(intros a E; vm_compute in E; injection E as <-;
                    reflexivity))
    as (message & d & a & R & T & _).
  exists message, d, a. split; [exact R | exact T].
Defined.

(* ------------------------------------------------------------------ *)
(** ** The dates of the reminders *)

Lemma dateGt_shifted (tza : Z -> bool -> Z) (d : JsDate) (n now : Z) :
  dateGt (setDate_getDate_plus tza d n) now = true ->
  exists t u,
    d = Some t
    /\ setDate_getDate_plus tza d n = Some u
    /\ now < u
    /\ (sameOffset tza t n -> u = t + n * msPerDay).
Proof.
  destruct d as [t|]; [|discriminate].
  destruct (setDate_getDate_plus tza (Some t) n) as [u|] eqn:E;
    [|discriminate].
  simpl. intros H. apply Z.ltb_lt in H. exists t, u.
  repeat split; auto.
  intros Hs. rewrite (setDate_sameOffset tza t n Hs) in E.
  apply TimeClip_Some in E. tauto.
Qed.

(** X9.  Whether STEP 4 ends normally or is cut short, each reminder it has
    written is dated as follows.  A DUE_DATE reminder is dated at the parsed
    [dueDate], or seven days of the local calendar before it, and then later
    than the clock reading of the check; an EXPIRY reminder is dated at the
    parsed [expiryDate]; a RENEWAL reminder is dated thirty days of the local
    calendar before the [expiryDate] and later than the clock reading of its
    check.  Where the zone has one offset at both dates, the days are of 24
    hours.  So an advance reminder is never written for a moment that has
    passed, while the reminder of the date itself is written even for a date
    in the past. *)
Theorem written_reminders_dates (env : Env) (user : UserId) (f : File)
    (document_id : ObjectId) (a : Analysis.t) (w : World)
    (news : list Reminder.t) (r : Reminder.t) :
  journal (snd (createReminders env user f document_id a w))
  = journal w ++ map ReminderInsert news ->
  In r news ->
  match Reminder.reminderType r with
  | DUE_DATE =>
      Reminder.reminderDate r = new_Date env (Analysis.dueDate a)
      \/ exists t u,
           new_Date env (Analysis.dueDate a) = Some t
           /\ setDate_getDate_plus (LocalTZA env) (Some t) (-7) = Some u
           /\ Reminder.reminderDate r = Some u
           /\ clock env (clockReads w) < u
           /\ (sameOffset (LocalTZA env) t (-7) -> u = t - 7 * msPerDay)
  | EXPIRY => Reminder.reminderDate r = new_Date env (Analysis.expiryDate a)
  | RENEWAL =>
      exists t u,
        new_Date env (Analysis.expiryDate a) = Some t
        /\ setDate_getDate_plus (LocalTZA env) (Some t) (-30) = Some u
        /\ Reminder.reminderDate r = Some u
        /\ clock env
             (clockReads w
              + if truthy (Analysis.dueDate a) then 1 else 0)%nat
           < u
        /\ (sameOffset (LocalTZA env) t (-30) -> u = t - 30 * msPerDay)
  | _ => False
  end.
Proof.
  intros J I.
  destruct (createReminders_progress env user f document_id a w)
    as (news' & rest & P & J' & _).
  rewrite J' in J. apply app_inv_head, map_ReminderInsert_inj in J.
  subst news'.
  assert (Ip : In r (plannedReminders env user f document_id a w))
    by (rewrite P; apply in_or_app; now left).
  clear P J' I.
  unfold plannedReminders, dueNews, expiryNews in Ip.
  apply in_app_or in Ip. destruct Ip as [I|I].
  - destruct (truthy (Analysis.dueDate a)); [|contradiction].
    destruct I as [<- | I]; [now left|].
    destruct (dateGt _ _) eqn:G; [|contradiction].
    destruct I as [<- | []].
    cbn [Reminder.reminderType Reminder.reminderDate advanceReminder].
    apply dateGt_shifted in G. destruct G as (t & u & D & S & L & X).
    rewrite D in S |- *. right. exists t, u.
    repeat split; auto; intros Hs; rewrite (X Hs); lia.
  - destruct (truthy (Analysis.expiryDate a)); [|contradiction].
    destruct I as [<- | I]; [reflexivity|].
    destruct (dateGt _ _) eqn:G; [|contradiction].
    destruct I as [<- | []].
    cbn [Reminder.reminderType Reminder.reminderDate advanceExpiryReminder].
    apply dateGt_shifted in G. destruct G as (t & u & D & S & L & X).
    rewrite D in S |- *. exists t, u.
    repeat split; auto; intros Hs; rewrite (X Hs); lia.
Qed.

(** The bill due on 2025-03-15, uploaded twenty days before in New York: its
    second reminder is dated 2025-03-08T01:00Z. *)
Lemma written_reminders_dates_witness :
  exists r,
    Reminder.reminderType r = DUE_DATE
    /\ (Reminder.reminderDate r = Some Scenario.mar15
        \/ exists t u,
             Some Scenario.mar15 = Some t
             /\ setDate_getDate_plus Scenario.newYork2025 (Some t) (-7)
                = Some u
             /\ Reminder.reminderDate r = Some u
             /\ Scenario.mar15 - 20 * msPerDay < u
             /\ (sameOffset Scenario.newYork2025 t (-7) ->
                 u = t - 7 * msPerDay))
    /\ Reminder.reminderDate r
       = Some (Scenario.mar15 - 7 * msPerDay + Scenario.hour).
Proof.
  eexists. split; [|split].
  2:{ exact (written_reminders_dates
               (Scenario.inZone Scenario.newYork2025
                  (Scenario.env (Normal (val Scenario.billText))
                                Scenario.marchBill
                                (fun _ => Scenario.mar15 - 20 * msPerDay)
                                None))
               Scenario.user Scenario.upload 0%nat Scenario.marchBill
               Scenario.world
               (plannedReminders
                  (Scenario.inZone Scenario.newYork2025
                     (Scenario.env (Normal (val Scenario.billText))
                                   Scenario.marchBill
                                   (fun _ => Scenario.mar15 - 20 * msPerDay)
                                   None))
                  Scenario.user Scenario.upload 0%nat Scenario.marchBill
                  Scenario.world)
               _ eq_refl (or_intror (or_introl eq_refl))). }
  - reflexivity.
  - reflexivity.
Defined.

(* ------------------------------------------------------------------ *)
(** ** A document whose type the analyzer left out *)

(** X10.  When the analysis has no [documentType] property and a truthy
    [dueDate], and the store accepts the Document and the first reminder made
    for it, the stored Document is of type
    "other" while the first reminder written for it is titled "undefined
    Payment Due": the default is applied to the Document only. *)
Theorem untyped_document_and_its_reminder (env : Env) (req : Request)
    (f : File) (w : World) (text : jsstring) (a : Analysis.t) :
  file req = Some f ->
  extractTextFromImage env (path f) w = (Normal text, w) ->
  (10 <= List.length text)%nat ->
  analyzeDocument env text w = (Normal a, w) ->
  Analysis.documentType a = undefined ->
  truthy (Analysis.dueDate a) = true ->
  documentSave env (newDocument (nextId w) (user_id req) f a text) = None ->
  reminderSave env
    (dueReminder env (S (nextId w)) (user_id req) f (nextId w) a) = None ->
  exists d r rest,
    journal (snd (uploadDocument env req w))
    = journal w ++ DocumentInsert d :: ReminderInsert r :: rest
    /\ Document.documentType d = lit "other"
    /\ Reminder.title r = lit "undefined Payment Due"
    /\ Reminder.document r = Document._id d.
Proof.
  intros Hfile Ho Hlen Ha Hty Hdue Hd Hr.
  rewrite (uploadDocument_from_step3 env req f w text a Hfile Ho Hlen Ha).
  cbv zeta. rewrite Hd.
  set (d := newDocument (nextId w) (user_id req) f a text) in *.
  destruct (createReminders_progress env (user_id req) f (nextId w) a
              (persist (DocumentInsert d) (drawn w)))
    as (news & rest & P & J & _ & X).
  assert (First : exists news',
            news = dueReminder env (S (nextId w)) (user_id req) f (nextId w) a
                   :: news').
  { unfold plannedReminders, dueNews in P. rewrite Hdue in P.
    cbn [persist drawn nextId app] in P.
    destruct news as [|r news'].
    - exfalso. simpl in P.
      destruct (fst (createReminders env (user_id req) f (nextId w) a
                       (persist (DocumentInsert d) (drawn w)))) as [rs|m].
      + destruct X as [_ ->]. discriminate P.
      + destruct X as (r & rest' & -> & S). injection P as <- _.
        rewrite Hr in S. discriminate S.
    - injection P as <- _. eauto. }
  destruct First as (news' & ->).
  assert (Jr : journal
                 (snd (match createReminders env (user_id req) f (nextId w) a
                               (persist (DocumentInsert d) (drawn w)) with
                       | (Normal rs, w') => (Normal (created d a rs text), w')
                       | (Throw m, w') =>
                           (Normal (serverError m), cleaned (path f) w')
                       end))
               = journal
                   (snd (createReminders env (user_id req) f (nextId w) a
                           (persist (DocumentInsert d) (drawn w))))).
  { destruct (createReminders env (user_id req) f (nextId w) a
                (persist (DocumentInsert d) (drawn w))) as [[rs|m] w'];
      [reflexivity | apply journal_cleaned]. }
  rewrite Jr, J. cbn [persist drawn journal map].
  rewrite <- app_assoc. cbn [app].
  do 3 eexists. split; [reflexivity|].
  cbn. rewrite Hty. auto.
Qed.

Lemma untyped_document_and_its_reminder_witness :
  exists d r rest,
    journal
      (snd (uploadDocument
              (Scenario.env (Normal (val Scenario.billText)) untypedBill
                            (fun _ => Scenario.dec21) None)
              Scenario.request Scenario.world))
    = [] ++ DocumentInsert d :: ReminderInsert r :: rest
    /\ Document.documentType d = lit "other"
    /\ Reminder.title r = lit "undefined Payment Due"
    /\ Reminder.document r = Document._id d.
Proof.
  exact (untyped_document_and_its_reminder
           (Scenario.env (Normal (val Scenario.billText)) untypedBill
                         (fun _ => Scenario.dec21) None)
           Scenario.request Scenario.upload Scenario.world
           Scenario.billText untypedBill
           eq_refl eq_refl ltac:(vm_compute; lia) eq_refl eq_refl eq_refl
           eq_refl eq_refl).
Defined.

(* ------------------------------------------------------------------ *)
(** ** calculatePriority: time and the two dates *)

Lemma withinDays_later (target : JsDate) (now1 now2 n : Z) :
  now1 <= now2 -> withinDays target now1 n -> withinDays target now2 n.
Proof. intros L (t & E & H). exists t. split; [exact E | lia]. Qed.

Lemma leNum_ceilDays_later (target : JsDate) (now1 now2 n : Z) :
  now1 <= now2 ->
  leNum (ceilDays target now1) n = true ->
  leNum (ceilDays target now2) n = true.
Proof.
  intros L H. apply leNum_ceilDays. apply leNum_ceilDays in H.
  exact (withinDays_later target now1 now2 n L H).
Qed.

(** X11.  For the same input, the priority [calculatePriority] returns never
    becomes less urgent as time passes: a call at a later clock reading
    returns the same priority or a more urgent one. *)
Theorem priority_rises_with_time (env : Env) (data : Analysis.t)
    (w1 w2 : World) (p1 p2 : Priority) :
  clock env (clockReads w1) <= clock env (clockReads w2) ->
  fst (calculatePriority env data w1) = Normal p1 ->
  fst (calculatePriority env data w2) = Normal p2 ->
  (urgency p1 <= urgency p2)%nat.
Proof.
  intros L. unfold calculatePriority. unfold_monad. cbn [clockReads].
  set (target := new_Date env (orElse (Analysis.dueDate data)
                                      (Analysis.expiryDate data))).
  pose proof (leNum_ceilDays_later target _ _ 7 L) as M7.
  pose proof (leNum_ceilDays_later target _ _ 30 L) as M30.
  destruct (negb (truthy (Analysis.dueDate data))
            && negb (truthy (Analysis.expiryDate data))).
  { simpl. intros [= <-] [= <-]. auto. }
  destruct (leNum (ceilDays target (clock env (clockReads w1))) 7) eqn:A7;
    [rewrite (M7 eq_refl); simpl; intros [= <-] [= <-]; auto|].
  destruct (leNum (ceilDays target (clock env (clockReads w1))) 30) eqn:A30;
    [rewrite (M30 eq_refl)|];
    destruct (leNum (ceilDays target (clock env (clockReads w2))) 7);
    destruct (leNum (ceilDays target (clock env (clockReads w2))) 30);
    destruct (truthy (Analysis.amount data)
              && gtNum (Analysis.amount data) 10000);
    destruct (truthy (Analysis.amount data)
              && gtNum (Analysis.amount data) 1000);
    simpl; intros [= <-] [= <-]; simpl; lia.
Qed.

(** The bill of 2500 due on 2025-01-10: MEDIUM on 2025-01-01, HIGH four days
    later. *)
Lemma priority_rises_with_time_witness :
  (urgency MEDIUM <= urgency HIGH)%nat.
Proof.
  exact (priority_rises_with_time
           (Scenario.env (Normal (val Scenario.billText)) Scenario.bill
                         (fun n => match n with
                                   | O => Scenario.jan01
                                   | S _ => Scenario.jan05
                                   end) None)
           Scenario.bill Scenario.world
           (snd (new_Date_now Scenario.proseBackend Scenario.world))
           MEDIUM HIGH ltac:(vm_compute; discriminate) eq_refl eq_refl).
Defined.

(** X12.  When [dueDate] is truthy, [calculatePriority] does not look at
    [expiryDate]: whatever the expiry date is replaced by, the result is the
    same, even when the due date cannot be parsed or lies far ahead and the
    expiry date is tomorrow. *)
Theorem dueDate_hides_expiryDate (env : Env) (data : Analysis.t)
    (x : Js jsstring) (w : World) :
  truthy (Analysis.dueDate data) = true ->
  calculatePriority env (withExpiryDate data x) w
  = calculatePriority env data w.
Proof.
  intros H. unfold calculatePriority, orElse, withExpiryDate.
  cbn [Analysis.dueDate Analysis.expiryDate Analysis.amount].
  rewrite H. reflexivity.
Qed.

(** A bill due in sixty days whose warranty expires the day after now: LOW,
    with and without the expiry date. *)
Lemma dueDate_hides_expiryDate_witness :
  fst (calculatePriority
         (Scenario.env (Normal (val Scenario.billText)) Scenario.bill
                       (fun _ => Scenario.jan10 - 60 * msPerDay) None)
         (withExpiryDate (withAmount Scenario.bill (val (120 # 1)))
                         (val (lit "2024-11-12")))
         Scenario.world)
  = Normal LOW.
Proof.
  rewrite (dueDate_hides_expiryDate
             (Scenario.env (Normal (val Scenario.billText)) Scenario.bill
                           (fun _ => Scenario.jan10 - 60 * msPerDay) None)
             (withAmount Scenario.bill (val (120 # 1)))
             (val (lit "2024-11-12")) Scenario.world eq_refl).
  reflexivity.
Defined.

(* ------------------------------------------------------------------ *)
(** ** The test routes of server.js *)



(** X14.  [POST /api/test/ocr] never changes anything: whatever it answers,
    the uploaded file is still there and nothing is written.  It answers 200
    with the cleaned text whenever the recognizer answers, however short the
    text, even empty; 500 with the extractor's message when the extraction
    fails; 400 when no file came with the request. *)
Theorem test_ocr_route (env : Env) (req : Request) (w : World) :
  exists resp,
    testOcr env req w = (Normal resp, w)
    /\ (file req = None -> testStatus resp = 400)
    /\ (forall f raw,
          file req = Some f -> pathExists (path f) w = true ->
          recognize env (path f) = Normal raw ->
          resp = {| testStatus := 200;
                    testJson := OcrResult (cleanedText raw) |})
    /\ (forall f,
          file req = Some f ->
          (pathExists (path f) w = false
           \/ exists m, recognize env (path f) = Throw m) ->
          exists m,
            resp = {| testStatus := 500;
                      testJson := TestFailure
                        (lit "Failed to extract text from image: " ++ m) |}).
Proof.
  unfold testOcr. destruct (file req) as [f|] eqn:Hfile.
  2:{ eexists. split; [reflexivity|]. split; [reflexivity|].
      split; intros; discriminate. }
  unfold tryCatch. unfold bind at 1.
  destruct (pathExists (path f) w) eqn:Ex.
  - destruct (recognize env (path f)) as [raw|m] eqn:Rc.
    + rewrite (extractTextFromImage_recognized env _ _ _ Ex Rc).
      eexists. split; [reflexivity|]. split; [discriminate|]. split.
      * intros f' raw' Hf _ Hr. injection Hf as <-.
        rewrite Rc in Hr. injection Hr as <-. reflexivity.
      * intros f' Hf [E | [m E]]; injection Hf as <-; congruence.
    + rewrite (extractTextFromImage_recognizer_error env _ _ _ Ex Rc).
      eexists. split; [reflexivity|]. split; [discriminate|]. split.
      * intros f' raw' Hf _ E. injection Hf as <-. congruence.
      * intros f' Hf _. eauto.
  - rewrite (extractTextFromImage_missing env _ _ Ex).
    eexists. split; [reflexivity|]. split; [discriminate|]. split.
    + intros f' raw' Hf E. injection Hf as <-. congruence.
    + intros f' Hf _. eauto.
Qed.

(* ------------------------------------------------------------------ *)
(** ** Entries of the journal under updates and deletes *)

Lemma documentWrites_updateReminder (r : Reminder.t) (l : list Write) :
  documentWrites (updateReminder r l) = documentWrites l.
Proof.
  induction l as [|[d|x] l IH]; simpl; [reflexivity | now rewrite IH |].
  destruct (Reminder._id x =? Reminder._id r)%nat; simpl; auto.
Qed.

Lemma documentWrites_removeReminder (id : ObjectId) (l : list Write) :
  documentWrites (removeReminder id l) = documentWrites l.
Proof.
  induction l as [|[d|x] l IH]; simpl; [reflexivity | now rewrite IH |].
  destruct (Reminder._id x =? id)%nat; simpl; auto.
Qed.

Lemma documentWrites_withoutReminders (q : Reminder.t -> bool) (l : list Write) :
  documentWrites (withoutReminders q l) = documentWrites l.
Proof.
  induction l as [|[d|x] l IH]; simpl; [reflexivity | now rewrite IH |].
  destruct (q x); simpl; auto.
Qed.

Lemma documentWrites_completeSelected (q : Reminder.t -> bool) (l : list Write) :
  documentWrites (completeSelected q l) = documentWrites l.
Proof.
  induction l as [|[d|x] l IH]; simpl; [reflexivity | now rewrite IH |].
  destruct (q x); simpl; auto.
Qed.

Lemma reminderWrites_removeDocument (id : ObjectId) (l : list Write) :
  reminderWrites (removeDocument id l) = reminderWrites l.
Proof.
  induction l as [|[d|x] l IH]; simpl; [reflexivity | | now rewrite IH].
  destruct (Document._id d =? id)%nat; simpl; auto.
Qed.

Lemma reminderWrites_withoutReminders (q : Reminder.t -> bool) (l : list Write) :
  reminderWrites (withoutReminders q l)
  = filter (fun r => negb (q r)) (reminderWrites l).
Proof.
  induction l as [|[d|x] l IH]; simpl; [reflexivity | exact IH |].
  destruct (q x); simpl; [exact IH | now rewrite IH].
Qed.

Lemma reminderWrites_completeSelected (q : Reminder.t -> bool) (l : list Write) :
  reminderWrites (completeSelected q l)
  = map (fun r => if q r then withStatus r REMINDER_COMPLETED else r)
        (reminderWrites l).
Proof.
  induction l as [|[d|x] l IH]; simpl; [reflexivity | exact IH |].
  destruct (q x); simpl; now rewrite IH.
Qed.

(** The first reminder with the [_id] of [r'] is rewritten, and it is the
    one [findById] finds; every other entry stays. *)
Lemma updateReminder_found (r r' : Reminder.t) (l : list Write) :
  find (byId (Reminder._id r')) (reminderWrites l) = Some r ->
  exists before after,
    reminderWrites l = before ++ r :: after
    /\ reminderWrites (updateReminder r' l) = before ++ r' :: after
    /\ Forall (fun x => Reminder._id x <> Reminder._id r') before.
Proof.
  induction l as [|[d|x] l IH]; simpl; [discriminate | exact IH |].
  unfold byId at 1. destruct (Reminder._id x =? Reminder._id r')%nat eqn:E.
  - intros [= ->]. exists [], (reminderWrites l). simpl. auto.
  - intros F. destruct (IH F) as (b & a & E1 & E2 & N).
    exists (x :: b), a. simpl. rewrite E1, E2. repeat split.
    constructor; [now apply Nat.eqb_neq | exact N].
Qed.

Lemma removeReminder_found (r : Reminder.t) (id : ObjectId) (l : list Write) :
  find (byId id) (reminderWrites l) = Some r ->
  exists before after,
    reminderWrites l = before ++ r :: after
    /\ reminderWrites (removeReminder id l) = before ++ after
    /\ Forall (fun x => Reminder._id x <> id) before.
Proof.
  induction l as [|[d|x] l IH]; simpl; [discriminate | exact IH |].
  unfold byId at 1. destruct (Reminder._id x =? id)%nat eqn:E.
  - intros [= ->]. exists [], (reminderWrites l). simpl. auto.
  - intros F. destruct (IH F) as (b & a & E1 & E2 & N).
    exists (x :: b), a. simpl. rewrite E1, E2. repeat split.
    constructor; [now apply Nat.eqb_neq | exact N].
Qed.

Lemma find_byId (id : ObjectId) (l : list Reminder.t) (r : Reminder.t) :
  find (byId id) l = Some r -> In r l /\ Reminder._id r = id.
Proof.
  intros F. apply find_some in F. destruct F as [I E].
  split; [exact I | now apply Nat.eqb_eq].
Qed.

(* ------------------------------------------------------------------ *)
(** ** The handlers of one reminder *)

Lemma jsstring_eqb_neq (p q : jsstring) : jsstring_eqb p q = false <-> p <> q.
Proof.
  unfold jsstring_eqb. destruct (list_eq_dec N.eq_dec p q); split; congruence.
Qed.

Lemma others_stay (r r' x : Reminder.t) (before after : list Reminder.t) :
  In x (before ++ r :: after) -> x <> r -> In x (before ++ r' :: after).
Proof.
  intros I N. apply in_app_or in I. apply in_or_app.
  destruct I as [I | [E | I]]; [now left | congruence | right; now right].
Qed.

Lemma others_stay_removed (r x : Reminder.t) (before after : list Reminder.t) :
  In x (before ++ r :: after) -> x <> r -> In x (before ++ after).
Proof.
  intros I N. apply in_app_or in I. apply in_or_app.
  destruct I as [I | [E | I]]; [now left | congruence | now right].
Qed.

(** X15.  Each of the five handlers of one reminder (get, complete,
    dismiss, snooze, delete) always answers, with 200, 400, 403, 404 or 500.
    It changes something only when it answers 200, and it answers 200 only
    when the reminder exists and belongs to the requesting user; the
    documents, the files and every other reminder are then as before.  A
    malformed id is answered 400, an unknown one 404, another user's
    reminder 403. *)
Theorem reminder_handlers_guard (env : Env) (faults : Faults)
    (days : option DaysValue) (h : ItemRequest -> K Reply)
    (req : ItemRequest) (w : World) :
  In h (reminderHandlers env faults days) ->
  exists reply w',
    h req w = (Fulfilled reply, w')
    /\ In (code reply) [200; 400; 403; 404; 500]
    /\ (code reply <> 200 -> w' = w)
    /\ (code reply = 200 ->
        exists id r,
          params_id req = ObjectIdString id
          /\ find (byId id) (remindersOf w) = Some r
          /\ Reminder.user r = requester req
          /\ documentsOf w' = documentsOf w
          /\ files w' = files w
          /\ forall x, In x (remindersOf w) -> x <> r ->
                       In x (remindersOf w'))
    /\ ((exists s, params_id req = NotAnObjectId s) -> code reply = 400)
    /\ (forall id,
          params_id req = ObjectIdString id ->
          findById_fault faults = None ->
          (find (byId id) (remindersOf w) = None -> code reply = 404)
          /\ (forall r, find (byId id) (remindersOf w) = Some r ->
                        Reminder.user r <> requester req ->
                        code reply = 403)).
Proof.
  intros Hin.
  assert (Hcases :
    h = getReminder faults \/ h = completeReminder env faults
    \/ h = dismissReminder env faults
    \/ h = (fun req => snoozeReminder env faults req days)
    \/ h = deleteReminder faults).
  { simpl in Hin. intuition (subst; auto). }
  clear Hin.
  destruct (params_id req) as [id | s] eqn:Hid.
  2:{ destruct Hcases as [-> | [-> | [-> | [-> | ->]]]];
        unfold getReminder, completeReminder, dismissReminder, snoozeReminder,
               deleteReminder; unfold_crud; rewrite Hid; cbn;
        (do 2 eexists; split; [reflexivity|]; cbn;
         split; [tauto|]; split; [reflexivity|];
         split; [discriminate|]; split; [reflexivity|];
         intros id' E; discriminate E). }
  destruct (findById_fault faults) as [m|] eqn:Hfault.
  { destruct Hcases as [-> | [-> | [-> | [-> | ->]]]];
      unfold getReminder, completeReminder, dismissReminder, snoozeReminder,
             deleteReminder; unfold_crud; rewrite Hid, Hfault; cbn;
      (do 2 eexists; split; [reflexivity|]; cbn;
       split; [tauto|]; split; [reflexivity|];
       split; [discriminate|]; split; [intros [s E]; discriminate|];
       intros id' _ E; discriminate E). }
  destruct (find (byId id) (remindersOf w)) as [r|] eqn:Hfind.
  2:{ destruct Hcases as [-> | [-> | [-> | [-> | ->]]]];
        unfold getReminder, completeReminder, dismissReminder, snoozeReminder,
               deleteReminder; unfold_crud; rewrite Hid, Hfault; cbn;
        fold (byId id); rewrite Hfind; cbn;
        (do 2 eexists; split; [reflexivity|]; cbn;
         split; [tauto|]; split; [reflexivity|];
         split; [discriminate|]; split; [intros [s E]; discriminate|];
         intros id' [= <-] _; split;
         [reflexivity | intros r0 E; congruence]). }
  destruct (jsstring_eqb (Reminder.user r) (requester req)) eqn:Hown.
  2:{ destruct Hcases as [-> | [-> | [-> | [-> | ->]]]];
        unfold getReminder, completeReminder, dismissReminder, snoozeReminder,
               deleteReminder; unfold_crud; rewrite Hid, Hfault; cbn;
        fold (byId id); rewrite Hfind; cbn; rewrite Hown; cbn;
        (do 2 eexists; split; [reflexivity|]; cbn;
         split; [tauto|]; split; [reflexivity|];
         split; [discriminate|]; split; [intros [s E]; discriminate|];
         intros id' [= <-] _; split;
         [intros E; congruence | reflexivity]). }
  pose proof (proj1 (jsstring_eqb_eq _ _) Hown) as Howner.
  assert (Hidr : Reminder._id r = id) by (apply (find_byId id _ r Hfind)).
  assert (Final :
    forall reply w',
      (code reply = 200 \/ code reply = 500) ->
      (code reply <> 200 -> w' = w) ->
      (code reply = 200 ->
       documentsOf w' = documentsOf w /\ files w' = files w
       /\ forall x, In x (remindersOf w) -> x <> r -> In x (remindersOf w')) ->
      In (code reply) [200; 400; 403; 404; 500]
      /\ (code reply <> 200 -> w' = w)
      /\ (code reply = 200 ->
          exists id0 r0,
            ObjectIdString id = ObjectIdString id0
            /\ find (byId id0) (remindersOf w) = Some r0
            /\ Reminder.user r0 = requester req
            /\ documentsOf w' = documentsOf w
            /\ files w' = files w
            /\ forall x, In x (remindersOf w) -> x <> r0 ->
                         In x (remindersOf w'))
      /\ ((exists s, ObjectIdString id = NotAnObjectId s) -> code reply = 400)
      /\ (forall id0,
            ObjectIdString id = ObjectIdString id0 ->
            @None jsstring = None ->
            (find (byId id0) (remindersOf w) = None -> code reply = 404)
            /\ (forall r0, find (byId id0) (remindersOf w) = Some r0 ->
                           Reminder.user r0 <> requester req ->
                           code reply = 403))).
  { intros reply w' Hc Hn H2.
    split; [simpl; destruct Hc as [-> | ->]; tauto|].
    split; [exact Hn|].
    split; [intros C; exists id, r; destruct (H2 C) as (A & B & D); auto 10|].
    split; [intros [s E]; discriminate|].
    intros id0 [= <-] _. rewrite Hfind.
    split; [discriminate | intros r0 [= <-] N; contradiction]. }
  destruct Hcases as [-> | [-> | [-> | [-> | ->]]]];
    unfold getReminder, completeReminder, dismissReminder, snoozeReminder,
           deleteReminder; unfold_crud; rewrite Hid, Hfault; cbn;
    fold (byId id); rewrite Hfind; cbn; rewrite Hown; cbn.
  - do 2 eexists. split; [reflexivity|].
    apply Final; cbn; auto; try (intros N; now contradiction N).
  - destruct (reminderSave env _) as [m|];
      do 2 eexists; (split; [reflexivity|]); apply Final; cbn; auto;
      try discriminate; try (intros N; now contradiction N).
    intros _. unfold documentsOf, remindersOf; cbn.
    rewrite documentWrites_updateReminder. repeat split.
    intros x I N.
    destruct (updateReminder_found r (withStatus r REMINDER_COMPLETED)
                (journal w)) as (b & a & E1 & E2 & _);
      [cbn; rewrite Hidr; exact Hfind|].
    rewrite E2. rewrite E1 in I. exact (others_stay r _ x b a I N).
  - destruct (reminderSave env _) as [m|];
      do 2 eexists; (split; [reflexivity|]); apply Final; cbn; auto;
      try discriminate; try (intros N; now contradiction N).
    intros _. unfold documentsOf, remindersOf; cbn.
    rewrite documentWrites_updateReminder. repeat split.
    intros x I N.
    destruct (updateReminder_found r (withStatus r DISMISSED)
                (journal w)) as (b & a & E1 & E2 & _);
      [cbn; rewrite Hidr; exact Hfind|].
    rewrite E2. rewrite E1 in I. exact (others_stay r _ x b a I N).
  - destruct (reminderSave env _) as [m|] eqn:Hs;
      do 2 eexists; (split; [reflexivity|]); apply Final; cbn; auto;
      try discriminate; try (intros N; now contradiction N).
    intros _. unfold documentsOf, remindersOf; cbn.
    rewrite documentWrites_updateReminder. repeat split.
    intros x I N.
    match goal with |- context [updateReminder ?r' _] =>
      destruct (updateReminder_found r r' (journal w))
        as (b & a & E1 & E2 & _);
        [cbn; rewrite Hidr; exact Hfind|];
      rewrite E2; rewrite E1 in I; exact (others_stay r _ x b a I N)
    end.
  - destruct (deleteOne_fault faults) as [m|];
      do 2 eexists; (split; [reflexivity|]); apply Final; cbn; auto;
      try discriminate; try (intros N; now contradiction N).
    intros _. unfold documentsOf, remindersOf; cbn.
    rewrite documentWrites_removeReminder. repeat split.
    intros x I N.
    destruct (removeReminder_found r (Reminder._id r) (journal w))
      as (b & a & E1 & E2 & _); [rewrite Hidr; exact Hfind|].
    rewrite E2. rewrite E1 in I. exact (others_stay_removed r x b a I N).
Qed.

(** Another user asks to dismiss the first reminder of the bill. *)
Lemma reminder_handlers_guard_witness :
  exists reply,
    dismissReminder Stored.env Stored.noFaults
      {| params_id := ObjectIdString 1%nat; requester := Stored.stranger |}
      Stored.world
    = (Fulfilled reply, Stored.world)
    /\ code reply = 403.
Proof.
  destruct (reminder_handlers_guard Stored.env Stored.noFaults None
              (dismissReminder Stored.env Stored.noFaults)
              {| params_id := ObjectIdString 1%nat;
                 requester := Stored.stranger |}
              Stored.world
              (or_intror (or_intror (or_introl eq_refl))))
    as (reply & w' & R & _ & U & _ & _ & H).
  assert (C : code reply = 403).
  { refine (proj2 (H 1%nat eq_refl eq_refl) _ eq_refl _).
    vm_compute. discriminate. }
  exists reply. split; [|exact C].
  rewrite R. f_equal. apply U. rewrite C. discriminate.
Defined.

Lemma find_app_skip (id : ObjectId) (before l : list Reminder.t) :
  Forall (fun x => Reminder._id x <> id) before ->
  find (byId id) (before ++ l) = find (byId id) l.
Proof.
  induction 1 as [|x b N _ IH]; simpl; [reflexivity|].
  unfold byId at 1. apply Nat.eqb_neq in N. rewrite N. exact IH.
Qed.

Lemma updateReminder_again (r : Reminder.t) (l : list Write) :
  updateReminder r (updateReminder r l) = updateReminder r l.
Proof.
  induction l as [|[d|x] l IH]; simpl; [reflexivity | now rewrite IH |].
  destruct (Reminder._id x =? Reminder._id r)%nat eqn:E; simpl.
  - now rewrite Nat.eqb_refl.
  - now rewrite E, IH.
Qed.

Lemma find_after_update (r r' : Reminder.t) (l : list Write) :
  find (byId (Reminder._id r')) (reminderWrites l) = Some r ->
  find (byId (Reminder._id r')) (reminderWrites (updateReminder r' l))
  = Some r'
  /\ List.length (reminderWrites (updateReminder r' l))
     = List.length (reminderWrites l).
Proof.
  intros F. destruct (updateReminder_found r r' l F) as (b & a & E1 & E2 & N).
  rewrite E2, E1, (find_app_skip _ b _ N), !length_app. simpl.
  unfold byId. rewrite Nat.eqb_refl. auto.
Qed.

(** X16.  [completeReminder] and [dismissReminder] set the status of the
    owner's reminder to COMPLETED and DISMISSED whatever its status was, and
    change nothing else of it or of the store; the answer carries the
    reminder as stored.  Doing it a second time answers the same and changes
    nothing. *)
Theorem status_handlers_effect (env : Env) (faults : Faults)
    (h : ItemRequest -> K Reply) (s : ReminderStatus) (req : ItemRequest)
    (w : World) (id : ObjectId) (r : Reminder.t) :
  In (h, s) (statusHandlers env faults) ->
  params_id req = ObjectIdString id ->
  findById_fault faults = None ->
  find (byId id) (remindersOf w) = Some r ->
  Reminder.user r = requester req ->
  reminderSave env (withStatus r s) = None ->
  exists message w',
    h req w
    = (Fulfilled {| code := 200;
                    payload := ReminderData (Some message) (withStatus r s) |},
       w')
    /\ find (byId id) (remindersOf w') = Some (withStatus r s)
    /\ List.length (remindersOf w') = List.length (remindersOf w)
    /\ documentsOf w' = documentsOf w
    /\ files w' = files w
    /\ h req w'
       = (Fulfilled {| code := 200;
                       payload := ReminderData (Some message)
                                               (withStatus r s) |},
          w').
Proof.
  intros Hin Hid Hfault Hfind Hown Hsave.
  assert (Hidr : Reminder._id r = id) by (apply (find_byId id _ r Hfind)).
  assert (Hown' : jsstring_eqb (Reminder.user r) (requester req) = true)
    by (now apply jsstring_eqb_eq).
  destruct (find_after_update r (withStatus r s) (journal w)) as [F L];
    [cbn; rewrite Hidr; exact Hfind|].
  cbn [withStatus Reminder._id] in F. rewrite Hidr in F.
  destruct Hin as [[= <- <-] | [[= <- <-] | []]];
    unfold completeReminder, dismissReminder; unfold_crud;
    rewrite Hid, Hfault; cbn; fold (byId id); rewrite Hfind; cbn;
    rewrite Hown'; cbn; rewrite Hsave;
    (do 2 eexists; split; [reflexivity|]);
    unfold remindersOf, documentsOf; cbn [journal withJournal files];
    (split; [exact F|]); (split; [exact L|]);
    (split; [apply documentWrites_updateReminder|]);
    (split; [reflexivity|]);
    fold (byId id); rewrite F; cbn; rewrite Hown'; cbn;
    change (withStatus (withStatus r ?x) ?x) with (withStatus r x);
    rewrite Hsave; unfold withJournal; cbn;
    rewrite updateReminder_again; reflexivity.
Qed.

(** The owner completes the first reminder of the bill. *)
Lemma status_handlers_effect_witness :
  exists message w' r,
    completeReminder Stored.env Stored.noFaults
      {| params_id := ObjectIdString 1%nat; requester := Stored.owner |}
      Stored.world
    = (Fulfilled {| code := 200;
                    payload := ReminderData (Some message) r |}, w')
    /\ Reminder.status r = REMINDER_COMPLETED
    /\ find (byId 1%nat) (remindersOf w') = Some r.
Proof.
  destruct (find (byId 1%nat) (remindersOf Stored.world)) as [r|] eqn:F;
    [|vm_compute in F; discriminate].
  destruct (status_handlers_effect Stored.env Stored.noFaults
              (completeReminder Stored.env Stored.noFaults)
              REMINDER_COMPLETED
              {| params_id := ObjectIdString 1%nat; requester := Stored.owner |}
              Stored.world 1%nat r
              (or_introl eq_refl) eq_refl eq_refl F
              ltac:(vm_compute in F; injection F as <-; reflexivity)
              ltac:(vm_compute in F; injection F as <-; reflexivity))
    as (message & w' & R & F' & _).
  exists message, w', (withStatus r REMINDER_COMPLETED).
  split; [exact R|]. split; [reflexivity | exact F'].
Defined.

(* ------------------------------------------------------------------ *)
(** ** Snoozing *)

Lemma snoozeReminder_run (env : Env) (faults : Faults) (req : ItemRequest)
    (body_days : option DaysValue) (w : World) (id : ObjectId)
    (r : Reminder.t) (n : Z) :
  params_id req = ObjectIdString id ->
  findById_fault faults = None ->
  find (byId id) (remindersOf w) = Some r ->
  Reminder.user r = requester req ->
  parseInt (daysOf body_days) = Some n ->
  reminderSave env
    (snoozed r (setDate_getDate_plus (LocalTZA env)
                                     (Reminder.reminderDate r) n)) = None ->
  snoozeReminder env faults req body_days w
  = (Fulfilled
       {| code := 200;
          payload := ReminderData
            (Some (lit "Reminder snoozed by " ++ shown (daysOf body_days)
                       ++ lit " day(s)"))
            (snoozed r (setDate_getDate_plus (LocalTZA env)
                                             (Reminder.reminderDate r) n)) |},
     withJournal w
       (updateReminder
          (snoozed r (setDate_getDate_plus (LocalTZA env)
                                           (Reminder.reminderDate r) n))
          (journal w))).
Proof.
  intros Hid Hfault Hfind Hown Hn Hsave.
  assert (Hown' : jsstring_eqb (Reminder.user r) (requester req) = true)
    by (now apply jsstring_eqb_eq).
  unfold snoozeReminder. fold (daysOf body_days). fold defaultDays.
  unfold_crud. rewrite Hid, Hfault. cbn. fold (byId id). rewrite Hfind. cbn.
  rewrite Hown'. cbn.
  replace (match body_days with Some v => v | None => defaultDays end)
    with (daysOf body_days) by reflexivity.
  rewrite Hn.
  fold (snoozed r (setDate_getDate_plus (LocalTZA env)
                                        (Reminder.reminderDate r) n)).
  rewrite Hsave. reflexivity.
Qed.

Lemma snoozeReminder_shifted (env : Env) (faults : Faults)
    (req : ItemRequest) (body_days : option DaysValue) (w : World)
    (id : ObjectId) (r : Reminder.t) (t n u : Z) :
  params_id req = ObjectIdString id ->
  findById_fault faults = None ->
  find (byId id) (remindersOf w) = Some r ->
  Reminder.user r = requester req ->
  parseInt (daysOf body_days) = Some n ->
  Reminder.reminderDate r = Some t ->
  setDate_getDate_plus (LocalTZA env) (Some t) n = Some u ->
  reminderSave env (snoozed r (Some u)) = None ->
  exists w',
    snoozeReminder env faults req body_days w
    = (Fulfilled
         {| code := 200;
            payload := ReminderData
              (Some (lit "Reminder snoozed by " ++ shown (daysOf body_days)
                         ++ lit " day(s)"))
              (snoozed r (Some u)) |}, w')
    /\ find (byId id) (remindersOf w') = Some (snoozed r (Some u))
    /\ List.length (remindersOf w') = List.length (remindersOf w)
    /\ documentsOf w' = documentsOf w
    /\ files w' = files w.
Proof.
  intros Hid Hfault Hfind Hown Hn Hdate Hshift Hsave.
  assert (Hidr : Reminder._id r = id) by (apply (find_byId id _ r Hfind)).
  pose proof (snoozeReminder_run env faults req body_days w id r n
                Hid Hfault Hfind Hown Hn) as R.
  rewrite Hdate, Hshift in R. specialize (R Hsave). rewrite R.
  eexists. split; [reflexivity|].
  destruct (find_after_update r (snoozed r (Some u)) (journal w))
    as [F L]; [cbn; rewrite Hidr; exact Hfind|].
  cbn [snoozed withStatus withReminderDate Reminder._id] in F.
  rewrite Hidr in F.
  unfold remindersOf, documentsOf. cbn [journal withJournal files].
  split; [exact F|]. split; [exact L|].
  split; [apply documentWrites_updateReminder | reflexivity].
Qed.

(** X17.  [snoozeReminder] on the owner's reminder, with [days] that
    [parseInt] reads as [n] (one when the body has no [days]), moves its date
    by [n] days of the local calendar, which are days of 24 hours where the
    zone keeps one offset, sets it PENDING whatever its status was, and
    changes nothing else; the answer names the days as the body gave them. *)
Theorem snooze_effect (env : Env) (faults : Faults) (req : ItemRequest)
    (body_days : option DaysValue) (w : World) (id : ObjectId)
    (r : Reminder.t) (t n u : Z) :
  params_id req = ObjectIdString id ->
  findById_fault faults = None ->
  find (byId id) (remindersOf w) = Some r ->
  Reminder.user r = requester req ->
  match body_days with
  | Some v => parseInt v = Some n
  | None => n = 1
  end ->
  Reminder.reminderDate r = Some t ->
  setDate_getDate_plus (LocalTZA env) (Some t) n = Some u ->
  reminderSave env (snoozed r (Some u)) = None ->
  exists w',
    snoozeReminder env faults req body_days w
    = (Fulfilled
         {| code := 200;
            payload := ReminderData
              (Some (lit "Reminder snoozed by "
                         ++ match body_days with
                            | Some v => shown v
                            | None => lit "1"
                            end
                         ++ lit " day(s)"))
              (snoozed r (Some u)) |},
       w')
    /\ find (byId id) (remindersOf w') = Some (snoozed r (Some u))
    /\ Reminder.status (snoozed r (Some u)) = PENDING
    /\ List.length (remindersOf w') = List.length (remindersOf w)
    /\ documentsOf w' = documentsOf w
    /\ files w' = files w
    /\ (sameOffset (LocalTZA env) t n -> u = t + n * msPerDay).
Proof.
  intros Hid Hfault Hfind Hown Hn Hdate Hshift Hsave.
  assert (Hp : parseInt (daysOf body_days) = Some n)
    by (destruct body_days; [exact Hn | subst n; reflexivity]).
  destruct (snoozeReminder_shifted env faults req body_days w id r t n u
              Hid Hfault Hfind Hown Hp Hdate Hshift Hsave)
    as (w' & R & F & L & D & Fi).
  exists w'. split.
  { rewrite R. destruct body_days; reflexivity. }
  split; [exact F|]. split; [reflexivity|]. split; [exact L|].
  split; [exact D|]. split; [exact Fi|].
  intros Hs. rewrite (setDate_sameOffset _ _ _ Hs) in Hshift.
  apply TimeClip_Some in Hshift. tauto.
Qed.

(** The owner snoozes the first reminder of the bill without naming days:
    from 2025-01-10 to 2025-01-11. *)
Lemma snooze_effect_witness :
  exists w' r,
    snoozeReminder Stored.env Stored.noFaults
      {| params_id := ObjectIdString 1%nat; requester := Stored.owner |}
      None Stored.world
    = (Fulfilled
         {| code := 200;
            payload := ReminderData
              (Some (lit "Reminder snoozed by 1 day(s)")) r |}, w')
    /\ Reminder.reminderDate r = Some (Scenario.jan10 + msPerDay).
Proof.
  destruct (find (byId 1%nat) (remindersOf Stored.world)) as [r|] eqn:F;
    [|vm_compute in F; discriminate].
  assert (E : Reminder.reminderDate r = Some Scenario.jan10
              /\ Reminder.user r = Stored.owner)
    by (vm_compute in F; injection F as <-; split; reflexivity).
  destruct (snooze_effect Stored.env Stored.noFaults
              {| params_id := ObjectIdString 1%nat;
                 requester := Stored.owner |}
              None Stored.world 1%nat r Scenario.jan10 1
              (Scenario.jan10 + msPerDay)
              eq_refl eq_refl F (proj2 E) eq_refl (proj1 E) eq_refl
              ltac:(vm_compute in F; injection F as <-; reflexivity))
    as (w' & R & _).
  exists w', (snoozed r (Some (Scenario.jan10 + msPerDay))).
  split; [exact R | reflexivity].
Defined.

(** In New York a reminder of 2025-03-08 at half past two, put off by a day
    and then taken back by a day, ends an hour later than it was: on
    2025-03-09 there is no half past two. *)
Example snooze_round_trip_in_New_York :
  let t := Scenario.mar09 - msPerDay + 7 * Scenario.hour + 1800000 in
  exists u,
    setDate_getDate_plus Scenario.newYork2025 (Some t) 1 = Some u
    /\ setDate_getDate_plus Scenario.newYork2025 (Some u) (-1)
       = Some (t + Scenario.hour).
Proof. cbv zeta. eexists. split; reflexivity. Qed.

(** X18.  Where the zone keeps one offset over the dates involved, as on
    UTC, snoozing a reminder by [n] days and then by [-n] days, the store
    accepting both, leaves it at its original date, PENDING. *)
Theorem snooze_there_and_back (env : Env) (faults : Faults)
    (req : ItemRequest) (there back : DaysValue) (w : World) (id : ObjectId)
    (r : Reminder.t) (t n : Z) :
  params_id req = ObjectIdString id ->
  findById_fault faults = None ->
  find (byId id) (remindersOf w) = Some r ->
  Reminder.user r = requester req ->
  parseInt there = Some n ->
  parseInt back = Some (- n) ->
  Reminder.reminderDate r = Some t ->
  Z.abs t <= maxTime ->
  Z.abs (t + n * msPerDay) <= maxTime ->
  sameOffset (LocalTZA env) t n ->
  sameOffset (LocalTZA env) (t + n * msPerDay) (- n) ->
  reminderSave env (snoozed r (Some (t + n * msPerDay))) = None ->
  reminderSave env (snoozed (snoozed r (Some (t + n * msPerDay))) (Some t))
  = None ->
  exists reply w',
    bindK (snoozeReminder env faults req (Some there))
          (fun _ => snoozeReminder env faults req (Some back)) w
    = (Fulfilled reply, w')
    /\ code reply = 200
    /\ find (byId id) (remindersOf w') = Some (withStatus r PENDING)
    /\ List.length (remindersOf w') = List.length (remindersOf w).
Proof.
  intros Hid Hfault Hfind Hown Hn Hb Hdate Hv Hv' Hs Hs' Hsave Hsave'.
  assert (There : setDate_getDate_plus (LocalTZA env) (Some t) n
                  = Some (t + n * msPerDay)).
  { rewrite (setDate_sameOffset _ _ _ Hs). unfold TimeClip.
    apply Z.leb_le in Hv'. now rewrite Hv'. }
  assert (Back : setDate_getDate_plus (LocalTZA env)
                   (Some (t + n * msPerDay)) (- n) = Some t).
  { rewrite (setDate_sameOffset _ _ _ Hs'). unfold TimeClip.
    replace (t + n * msPerDay + - n * msPerDay) with t by lia.
    apply Z.leb_le in Hv. now rewrite Hv. }
  destruct (snoozeReminder_shifted env faults req (Some there) w id r t n
              (t + n * msPerDay) Hid Hfault Hfind Hown Hn Hdate There Hsave)
    as (w1 & R1 & F1 & L1 & _).
  destruct (snoozeReminder_shifted env faults req (Some back) w1 id
              (snoozed r (Some (t + n * msPerDay))) (t + n * msPerDay) (- n)
              t Hid Hfault F1 Hown Hb eq_refl Back Hsave')
    as (w2 & R2 & F2 & L2 & _).
  unfold bindK. rewrite R1, R2. do 2 eexists.
  split; [reflexivity|]. split; [reflexivity|].
  split; [|congruence].
  rewrite F2. f_equal. unfold snoozed, withStatus, withReminderDate.
  cbn [Reminder._id Reminder.user Reminder.document Reminder.title
       Reminder.description Reminder.reminderDate Reminder.reminderType
       Reminder.status].
  rewrite <- Hdate. reflexivity.
Qed.

Lemma snooze_there_and_back_witness :
  exists reply w' r,
    bindK (snoozeReminder Stored.env Stored.noFaults
             {| params_id := ObjectIdString 1%nat; requester := Stored.owner |}
             (Some {| parseInt := Some 3; shown := lit "3" |}))
          (fun _ =>
             snoozeReminder Stored.env Stored.noFaults
               {| params_id := ObjectIdString 1%nat;
                  requester := Stored.owner |}
               (Some {| parseInt := Some (-3); shown := lit "-3" |}))
          Stored.world
    = (Fulfilled reply, w')
    /\ find (byId 1%nat) (remindersOf w') = Some r
    /\ Reminder.reminderDate r = Some Scenario.jan10.
Proof.
  destruct (find (byId 1%nat) (remindersOf Stored.world)) as [r|] eqn:F;
    [|vm_compute in F; discriminate].
  assert (E : Reminder.reminderDate r = Some Scenario.jan10
              /\ Reminder.user r = Stored.owner)
    by (vm_compute in F; injection F as <-; split; reflexivity).
  destruct (snooze_there_and_back Stored.env Stored.noFaults
              {| params_id := ObjectIdString 1%nat;
                 requester := Stored.owner |}
              {| parseInt := Some 3; shown := lit "3" |}
              {| parseInt := Some (-3); shown := lit "-3" |}
              Stored.world 1%nat r Scenario.jan10 3
              eq_refl eq_refl F (proj2 E) eq_refl eq_refl (proj1 E)
              ltac:(vm_compute; discriminate) ltac:(vm_compute; discriminate)
              eq_refl eq_refl
              ltac:(vm_compute in F; injection F as <-; reflexivity)
              ltac:(vm_compute in F; injection F as <-; reflexivity))
    as (reply & w' & R & _ & F' & _).
  exists reply, w', (withStatus r PENDING).
  split; [exact R|]. split; [exact F' | exact (proj1 E)].
Defined.

(* ------------------------------------------------------------------ *)
(** ** Deleting reminders *)

Lemma find_none_all (A : Type) (q : A -> bool) (l : list A) :
  (forall x, In x l -> q x = false) -> find q l = None.
Proof.
  induction l as [|a l IH]; simpl; [reflexivity|]. intros H.
  rewrite (H a (or_introl eq_refl)). apply IH. intros x I. apply H. now right.
Qed.

(** X19.  [deleteReminder] on the owner's reminder answers 200 and takes
    exactly that reminder out of the store: one reminder fewer, every other
    reminder, every document (also the one it belonged to) and every file as
    before; ids being unique, the id is then unknown, and a second delete is
    answered 404. *)
Theorem delete_reminder_effect (faults : Faults) (req : ItemRequest)
    (w : World) (id : ObjectId) (r : Reminder.t) :
  params_id req = ObjectIdString id ->
  findById_fault faults = None ->
  deleteOne_fault faults = None ->
  find (byId id) (remindersOf w) = Some r ->
  Reminder.user r = requester req ->
  NoDup (map Reminder._id (remindersOf w)) ->
  exists w',
    deleteReminder faults req w
    = (Fulfilled {| code := 200;
                    payload := Notice true
                      (lit "Reminder deleted successfully") None |}, w')
    /\ S (List.length (remindersOf w')) = List.length (remindersOf w)
    /\ (forall x, In x (remindersOf w') <-> In x (remindersOf w) /\ x <> r)
    /\ documentsOf w' = documentsOf w
    /\ files w' = files w
    /\ find (byId id) (remindersOf w') = None
    /\ deleteReminder faults req w'
       = (Fulfilled (notice 404 (lit "Reminder not found")), w').
Proof.
  intros Hid Hfault Hdel Hfind Hown Hnodup.
  assert (Hidr : Reminder._id r = id) by (apply (find_byId id _ r Hfind)).
  assert (Hown' : jsstring_eqb (Reminder.user r) (requester req) = true)
    by (now apply jsstring_eqb_eq).
  destruct (removeReminder_found r id (journal w) Hfind)
    as (b & a & E1 & E2 & N).
  unfold remindersOf in Hnodup. rewrite E1 in Hnodup.
  rewrite map_app in Hnodup. simpl in Hnodup.
  pose proof (NoDup_remove_2 _ _ _ Hnodup) as Hnot.
  assert (Gone : find (byId id) (b ++ a) = None).
  { apply find_none_all. intros x I. apply Nat.eqb_neq. intros E.
    apply Hnot. rewrite <- map_app. rewrite Hidr, <- E. now apply in_map. }
  assert (NotIn : ~ In r (b ++ a)).
  { intros I. apply Hnot. rewrite <- map_app. now apply in_map. }
  unfold deleteReminder. unfold_crud. rewrite Hid, Hfault. cbn.
  fold (byId id). rewrite Hfind. cbn. rewrite Hown'. cbn. rewrite Hdel.
  eexists. split; [reflexivity|].
  unfold remindersOf, documentsOf. cbn [journal withJournal files].
  rewrite Hidr, E2, E1.
  split; [rewrite !length_app; simpl; lia|].
  split.
  { intros x. split.
    - intros I. split; [|intros ->; contradiction].
      apply in_app_or in I. apply in_or_app.
      destruct I; [now left | right; now right].
    - intros [I Nx]. exact (others_stay_removed r x b a I Nx). }
  split; [apply documentWrites_removeReminder|].
  split; [reflexivity|]. split; [exact Gone|].
  fold (byId id). rewrite Gone. reflexivity.
Qed.

Lemma delete_reminder_effect_witness :
  exists w',
    deleteReminder Stored.noFaults
      {| params_id := ObjectIdString 2%nat; requester := Stored.owner |}
      Stored.world
    = (Fulfilled {| code := 200;
                    payload := Notice true
                      (lit "Reminder deleted successfully") None |}, w')
    /\ List.length (remindersOf w') = 1%nat
    /\ List.length (documentsOf w') = 1%nat.
Proof.
  destruct (find (byId 2%nat) (remindersOf Stored.world)) as [r|] eqn:F;
    [|vm_compute in F; discriminate].
  destruct (delete_reminder_effect Stored.noFaults
              {| params_id := ObjectIdString 2%nat;
                 requester := Stored.owner |}
              Stored.world 2%nat r eq_refl eq_refl eq_refl F
              ltac:(vm_compute in F; injection F as <-; reflexivity)
              ltac:(vm_compute; repeat constructor; simpl; intuition lia))
    as (w' & R & L & _ & D & _).
  exists w'. split; [exact R|]. split.
  - apply eq_add_S. rewrite L. reflexivity.
  - rewrite D. reflexivity.
Defined.

(* ------------------------------------------------------------------ *)
(** ** Batches of reminders *)

Lemma castIds_inr (ids : list IdParam) (l : list ObjectId) :
  castIds ids = inr l -> ids = map ObjectIdString l.
Proof.
  revert l. induction ids as [|[id|s] ids IH]; intros l; simpl.
  - intros [= <-]. reflexivity.
  - destruct (castIds ids) as [s|l']; [discriminate|].
    intros [= <-]. simpl. f_equal. now apply IH.
  - discriminate.
Qed.

Lemma castIds_inl (ids : list IdParam) (s : jsstring) :
  castIds ids = inl s -> In (NotAnObjectId s) ids.
Proof.
  induction ids as [|[id|s'] ids IH]; simpl; [discriminate | |].
  - destruct (castIds ids) as [s''|l']; [|discriminate].
    intros [= <-]. right. now apply IH.
  - intros [= <-]. now left.
Qed.

Lemma ownAmong_spec (l : list ObjectId) (user : UserId) (r : Reminder.t) :
  ownAmong l user r = true <-> In (Reminder._id r) l /\ Reminder.user r = user.
Proof.
  unfold ownAmong, idIn. rewrite andb_true_iff, existsb_exists, jsstring_eqb_eq.
  split.
  - intros [(x & I & E) U]. apply Nat.eqb_eq in E. subst x. auto.
  - intros [I U]. split; [|exact U]. exists (Reminder._id r).
    split; [exact I | apply Nat.eqb_refl].
Qed.

Lemma filter_split_length (A : Type) (q : A -> bool) (l : list A) :
  (List.length (filter q l) + List.length (filter (fun x => negb (q x)) l)
   = List.length l)%nat.
Proof.
  induction l as [|a l IH]; simpl; [reflexivity|].
  destruct (q a); simpl; lia.
Qed.

(** X20.  [bulkDeleteReminders] answers 400 and does nothing when
    [reminderIds] is missing, not an array or empty, and 500, again doing
    nothing, when one of the ids is malformed.  Otherwise it deletes exactly
    the reminders that are named in the array and belong to the requesting
    user: [deletedCount] is their number, which may be zero; reminders of
    other users survive even when named; documents are untouched. *)
Theorem bulk_delete_effect (faults : Faults) (req : BulkRequest) (w : World) :
  (match reminderIds req with
   | NoIds | NotAnArray | IdArray [] => True
   | IdArray (_ :: _) => False
   end ->
   bulkDeleteReminders faults req w
   = (Fulfilled (notice 400 (lit "Please provide an array of reminder IDs")),
      w))
  /\ (forall ids s,
        reminderIds req = IdArray ids -> In (NotAnObjectId s) ids ->
        exists reply,
          bulkDeleteReminders faults req w = (Fulfilled reply, w)
          /\ code reply = 500)
  /\ (forall l,
        l <> [] ->
        reminderIds req = IdArray (map ObjectIdString l) ->
        deleteMany_fault faults = None ->
        exists n w',
          bulkDeleteReminders faults req w
          = (Fulfilled
               {| code := 200;
                  payload := Counted
                    (decimal n ++ lit " reminder(s) deleted successfully")
                    n |}, w')
          /\ (n + List.length (remindersOf w')
              = List.length (remindersOf w))%nat
          /\ (forall x,
                In x (remindersOf w') <->
                In x (remindersOf w)
                /\ ~ (In (Reminder._id x) l
                      /\ Reminder.user x = bulk_requester req))
          /\ documentsOf w' = documentsOf w
          /\ files w' = files w).
Proof.
  split; [|split].
  - unfold bulkDeleteReminders. unfold_crud.
    destruct (reminderIds req) as [| |[|i ids]]; intros H;
      [reflexivity | reflexivity | reflexivity | contradiction].
  - intros ids s Hids Hin. unfold bulkDeleteReminders. unfold_crud.
    rewrite Hids. destruct ids as [|i ids]; [contradiction|].
    destruct (castIds (i :: ids)) as [s'|l] eqn:C.
    + eexists. split; [reflexivity|]. reflexivity.
    + exfalso. apply castIds_inr in C. rewrite C in Hin.
      apply in_map_iff in Hin. destruct Hin as (x & E & _). discriminate.
  - intros l Hne Hids Hfault. unfold bulkDeleteReminders. unfold_crud.
    rewrite Hids.
    assert (C : castIds (map ObjectIdString l) = inr l).
    { clear. induction l as [|x l IH]; simpl; [reflexivity|].
      now rewrite IH. }
    destruct l as [|x l]; [contradiction|].
    cbn [map] in *. rewrite C, Hfault.
    do 2 eexists. split; [reflexivity|].
    unfold remindersOf, documentsOf, selected. cbn [journal withJournal files].
    rewrite reminderWrites_withoutReminders, documentWrites_withoutReminders.
    split; [apply filter_split_length|].
    split; [|auto].
    intros y. rewrite filter_In, negb_true_iff.
    rewrite <- (ownAmong_spec (x :: l) (bulk_requester req) y).
    destruct (ownAmong (x :: l) (bulk_requester req) y);
      intuition congruence.
Qed.

(** X21.  [bulkCompleteReminders], given well-formed ids, sets COMPLETED
    exactly the reminders that are named in the array and belong to the
    requesting user, and leaves every other reminder, and every other field,
    as it was.  [modifiedCount] counts those of them that were not COMPLETED
    before, so that repeating the request answers with a count of zero and
    changes nothing. *)
Theorem bulk_complete_effect (faults : Faults) (req : BulkRequest) (w : World)
    (l : list ObjectId) :
  l <> [] ->
  reminderIds req = IdArray (map ObjectIdString l) ->
  updateMany_fault faults = None ->
  exists n w',
    bulkCompleteReminders faults req w
    = (Fulfilled
         {| code := 200;
            payload := Counted
              (decimal n ++ lit " reminder(s) marked as completed") n |}, w')
    /\ remindersOf w'
       = map (fun r => if ownAmong l (bulk_requester req) r
                       then withStatus r REMINDER_COMPLETED else r)
             (remindersOf w)
    /\ n = List.length
             (filter (fun r => ownAmong l (bulk_requester req) r
                               && negb (ReminderStatus_eqb (Reminder.status r)
                                                           REMINDER_COMPLETED))
                     (remindersOf w))
    /\ documentsOf w' = documentsOf w
    /\ bulkCompleteReminders faults req w'
       = (Fulfilled
            {| code := 200;
               payload := Counted
                 (decimal 0 ++ lit " reminder(s) marked as completed") 0 |},
          w').
Proof.
  intros Hne Hids Hfault. unfold bulkCompleteReminders. unfold_crud.
  rewrite Hids.
  assert (C : castIds (map ObjectIdString l) = inr l).
  { clear. induction l as [|x l IH]; simpl; [reflexivity|].
    now rewrite IH. }
  destruct l as [|x l]; [contradiction|].
  cbn [map] in *. rewrite C, Hfault.
  set (q := ownAmong (x :: l) (bulk_requester req)).
  do 2 eexists. split; [reflexivity|].
  unfold remindersOf, documentsOf, selected. cbn [journal withJournal files].
  rewrite reminderWrites_completeSelected, documentWrites_completeSelected.
  split; [reflexivity|]. split; [reflexivity|]. split; [reflexivity|].
  assert (Q : forall r, q (withStatus r REMINDER_COMPLETED) = q r)
    by reflexivity.
  assert (Same : completeSelected q (completeSelected q (journal w))
                 = completeSelected q (journal w)).
  { induction (journal w) as [|[d|r] j IH]; simpl; [reflexivity | | ].
    - now rewrite IH.
    - destruct (q r) eqn:E; simpl.
      + rewrite Q, E, IH. reflexivity.
      + rewrite E, IH. reflexivity. }
  assert (Zero : filter (fun r => q r
                                  && negb (ReminderStatus_eqb
                                             (Reminder.status r)
                                             REMINDER_COMPLETED))
                        (reminderWrites (completeSelected q (journal w)))
                 = []).
  { rewrite reminderWrites_completeSelected.
    induction (reminderWrites (journal w)) as [|r j IH]; simpl;
      [reflexivity|].
    destruct (q r) eqn:E; simpl.
    - rewrite Q, E. simpl. exact IH.
    - rewrite E. simpl. exact IH. }
  rewrite reminderWrites_completeSelected in Zero.
  rewrite Zero, Same. reflexivity.
Qed.

(** The owner completes both reminders of the bill in one request, naming
    an id that does not exist as well. *)
Lemma bulk_complete_effect_witness :
  exists w',
    bulkCompleteReminders Stored.noFaults
      {| reminderIds := IdArray [ObjectIdString 1%nat; ObjectIdString 2%nat;
                                 ObjectIdString 9%nat];
         bulk_requester := Stored.owner |}
      Stored.world
    = (Fulfilled
         {| code := 200;
            payload := Counted (lit "2 reminder(s) marked as completed") 2 |},
       w').
Proof.
  destruct (bulk_complete_effect Stored.noFaults
              {| reminderIds := IdArray [ObjectIdString 1%nat;
                                         ObjectIdString 2%nat;
                                         ObjectIdString 9%nat];
                 bulk_requester := Stored.owner |}
              Stored.world [1; 2; 9]%nat ltac:(discriminate) eq_refl eq_refl)
    as (n & w' & R & _ & N & _).
  vm_compute in N. subst n. exists w'. exact R.
Defined.

(* ------------------------------------------------------------------ *)
(** ** Documents: reading and deleting *)

Lemma removeDocument_found (d : Document.t) (id : ObjectId) (l : list Write) :
  find (byDocumentId id) (documentWrites l) = Some d ->
  exists before after,
    documentWrites l = before ++ d :: after
    /\ documentWrites (removeDocument id l) = before ++ after
    /\ Forall (fun x => Document._id x <> id) before.
Proof.
  induction l as [|[x|r] l IH]; simpl; [discriminate | | exact IH].
  unfold byDocumentId at 1. destruct (Document._id x =? id)%nat eqn:E.
  - intros [= ->]. exists [], (documentWrites l). simpl. auto.
  - intros F. destruct (IH F) as (b & a & E1 & E2 & N).
    exists (x :: b), a. simpl. rewrite E1, E2. repeat split.
    constructor; [now apply Nat.eqb_neq | exact N].
Qed.

Lemma deleteDocument_run (faults : Faults) (req : ItemRequest) (w : World)
    (id : ObjectId) (d : Document.t) :
  params_id req = ObjectIdString id ->
  findById_fault faults = None ->
  find (byDocumentId id) (documentsOf w) = Some d ->
  Document.user d = requester req ->
  deleteDocument faults req w
  = match deleteMany_fault faults with
    | Some m =>
        (Fulfilled {| code := 500;
                      payload := Notice false (lit "Error deleting document")
                                        (Some m) |},
         cleaned (Document.fileUrl d) w)
    | None =>
        match deleteOne_fault faults with
        | Some m =>
            (Fulfilled {| code := 500;
                          payload := Notice false
                            (lit "Error deleting document") (Some m) |},
             withJournal (cleaned (Document.fileUrl d) w)
               (withoutReminders (ofDocument (Document._id d)) (journal w)))
        | None =>
            (Fulfilled {| code := 200;
                          payload := Notice true
                            (lit "Document deleted successfully") None |},
             withJournal (cleaned (Document.fileUrl d) w)
               (removeDocument (Document._id d)
                  (withoutReminders (ofDocument (Document._id d))
                                    (journal w))))
        end
    end.
Proof.
  intros Hid Hfault Hfind Hown.
  assert (Hown' : jsstring_eqb (Document.user d) (requester req) = true)
    by (now apply jsstring_eqb_eq).
  unfold deleteDocument. unfold_crud. rewrite Hid, Hfault. cbn.
  fold (byDocumentId id). rewrite Hfind. cbn. rewrite Hown'. cbn.
  unfold liftM. rewrite unlinkIfExists_run.
  destruct (deleteMany_fault faults) as [m|]; [reflexivity|].
  rewrite journal_cleaned.
  destruct (deleteOne_fault faults) as [m|]; reflexivity.
Qed.

(** X22.  [deleteDocument] by the owner, with a database that rejects
    nothing, answers 200 and takes with the Document every reminder that
    refers to it, whoever owns the reminder, and the stored file; every other
    document, every reminder of another document and every other file stay.
    Ids being unique, the id is then unknown. *)
Theorem delete_document_cascade (faults : Faults) (req : ItemRequest)
    (w : World) (id : ObjectId) (d : Document.t) :
  params_id req = ObjectIdString id ->
  findById_fault faults = None ->
  deleteMany_fault faults = None ->
  deleteOne_fault faults = None ->
  find (byDocumentId id) (documentsOf w) = Some d ->
  Document.user d = requester req ->
  NoDup (map Document._id (documentsOf w)) ->
  exists w',
    deleteDocument faults req w
    = (Fulfilled {| code := 200;
                    payload := Notice true
                      (lit "Document deleted successfully") None |}, w')
    /\ pathExists (Document.fileUrl d) w' = false
    /\ (forall q, q <> Document.fileUrl d -> pathExists q w' = pathExists q w)
    /\ (forall x, In x (documentsOf w') <-> In x (documentsOf w) /\ x <> d)
    /\ (forall r, In r (remindersOf w') <->
                  In r (remindersOf w) /\ Reminder.document r <> id)
    /\ find (byDocumentId id) (documentsOf w') = None.
Proof.
  intros Hid Hfault Hmany Hone Hfind Hown Hnodup.
  rewrite (deleteDocument_run faults req w id d Hid Hfault Hfind Hown).
  rewrite Hmany, Hone. eexists. split; [reflexivity|].
  assert (Hidd : Document._id d = id).
  { apply find_some in Hfind. now apply Nat.eqb_eq. }
  split; [apply pathExists_cleaned|].
  split; [intros q N; now apply pathExists_cleaned_other|].
  unfold documentsOf, remindersOf in *. cbn [journal withJournal].
  rewrite Hidd.
  assert (Hfind' : find (byDocumentId id)
                     (documentWrites
                        (withoutReminders (ofDocument id) (journal w)))
                   = Some d)
    by (now rewrite documentWrites_withoutReminders).
  destruct (removeDocument_found d id _ Hfind') as (b & a & E1 & E2 & N).
  rewrite documentWrites_withoutReminders in E1.
  rewrite E1, map_app in Hnodup. simpl in Hnodup.
  pose proof (NoDup_remove_2 _ _ _ Hnodup) as Hnot.
  assert (NotIn : ~ In d (b ++ a)).
  { intros I. apply Hnot. rewrite <- map_app. now apply in_map. }
  rewrite E2, E1, reminderWrites_removeDocument,
    reminderWrites_withoutReminders.
  split; [|split].
  - intros x. split.
    + intros I. split; [|intros ->; contradiction].
      apply in_app_or in I. apply in_or_app.
      destruct I; [now left | right; now right].
    + intros [I Nx]. apply in_app_or in I. apply in_or_app.
      destruct I as [I | [E | I]]; [now left | congruence | now right].
  - intros r. rewrite filter_In, negb_true_iff. unfold ofDocument.
    rewrite Nat.eqb_neq. reflexivity.
  - apply find_none_all. intros x I. apply Nat.eqb_neq. intros E.
    apply Hnot. rewrite <- map_app, Hidd, <- E. now apply in_map.
Qed.

(** The owner deletes the bill: nothing is left of it. *)
Lemma delete_document_cascade_witness :
  exists w',
    deleteDocument Stored.noFaults
      {| params_id := ObjectIdString 0%nat; requester := Stored.owner |}
      Stored.world
    = (Fulfilled {| code := 200;
                    payload := Notice true
                      (lit "Document deleted successfully") None |}, w')
    /\ pathExists (path Scenario.upload) w' = false
    /\ journal w' = [].
Proof.
  destruct (find (byDocumentId 0%nat) (documentsOf Stored.world))
    as [d|] eqn:F; [|vm_compute in F; discriminate].
  assert (E : Document.user d = Stored.owner
              /\ Document.fileUrl d = path Scenario.upload)
    by (vm_compute in F; injection F as <-; split; reflexivity).
  destruct (delete_document_cascade Stored.noFaults
              {| params_id := ObjectIdString 0%nat;
                 requester := Stored.owner |}
              Stored.world 0%nat d eq_refl eq_refl eq_refl eq_refl F
              (proj1 E)
              ltac:(vm_compute; repeat constructor; simpl; intuition lia))
    as (w' & R & P & _).
  exists w'. split; [exact R|]. split; [rewrite <- (proj2 E); exact P|].
  assert (K : snd (deleteDocument Stored.noFaults
                     {| params_id := ObjectIdString 0%nat;
                        requester := Stored.owner |} Stored.world) = w')
    by (rewrite R; reflexivity).
  rewrite <- K. reflexivity.
Defined.

(** X23.  [deleteDocument] is not atomic.  The file goes first: when the
    database then rejects the deletion of the reminders, the answer is 500,
    the file is gone, and the Document and its reminders are still stored;
    when it rejects the deletion of the Document only, the reminders are gone
    as well and the Document is still stored. *)
Theorem delete_document_is_not_atomic (faults : Faults) (req : ItemRequest)
    (w : World) (id : ObjectId) (d : Document.t) (m : jsstring) :
  params_id req = ObjectIdString id ->
  findById_fault faults = None ->
  find (byDocumentId id) (documentsOf w) = Some d ->
  Document.user d = requester req ->
  (deleteMany_fault faults = Some m
   \/ deleteMany_fault faults = None /\ deleteOne_fault faults = Some m) ->
  exists w',
    deleteDocument faults req w
    = (Fulfilled {| code := 500;
                    payload := Notice false (lit "Error deleting document")
                                      (Some m) |}, w')
    /\ pathExists (Document.fileUrl d) w' = false
    /\ documentsOf w' = documentsOf w
    /\ (deleteMany_fault faults = Some m -> remindersOf w' = remindersOf w)
    /\ (deleteMany_fault faults = None ->
        forall r, In r (remindersOf w') <->
                  In r (remindersOf w) /\ Reminder.document r <> id).
Proof.
  intros Hid Hfault Hfind Hown Hcase.
  rewrite (deleteDocument_run faults req w id d Hid Hfault Hfind Hown).
  assert (Hidd : Document._id d = id).
  { apply find_some in Hfind. now apply Nat.eqb_eq. }
  destruct Hcase as [Hm | [Hm Ho]]; rewrite Hm; [|rewrite Ho];
    eexists; (split; [reflexivity|]);
    unfold documentsOf, remindersOf; cbn [journal withJournal].
  - split; [apply pathExists_cleaned|]. rewrite journal_cleaned.
    split; [reflexivity|]. split; [reflexivity | discriminate].
  - split; [apply pathExists_cleaned|].
    split; [apply documentWrites_withoutReminders|].
    split; [discriminate|]. intros _ r.
    rewrite reminderWrites_withoutReminders, filter_In, negb_true_iff.
    unfold ofDocument. rewrite Hidd, Nat.eqb_neq. reflexivity.
Qed.

Lemma delete_document_is_not_atomic_witness :
  exists w',
    deleteDocument
      {| findById_fault := None;
         deleteOne_fault := None;
         deleteMany_fault := Some (lit "connection lost");
         updateMany_fault := None;
         castErrorMessage := fun s => s |}
      {| params_id := ObjectIdString 0%nat; requester := Stored.owner |}
      Stored.world
    = (Fulfilled {| code := 500;
                    payload := Notice false (lit "Error deleting document")
                                      (Some (lit "connection lost")) |}, w')
    /\ List.length (documentsOf w') = 1%nat.
Proof.
  destruct (find (byDocumentId 0%nat) (documentsOf Stored.world))
    as [d|] eqn:F; [|vm_compute in F; discriminate].
  destruct (delete_document_is_not_atomic
              {| findById_fault := None;
                 deleteOne_fault := None;
                 deleteMany_fault := Some (lit "connection lost");
                 updateMany_fault := None;
                 castErrorMessage := fun s => s |}
              {| params_id := ObjectIdString 0%nat;
                 requester := Stored.owner |}
              Stored.world 0%nat d (lit "connection lost")
              eq_refl eq_refl F
              ltac:(vm_compute in F; injection F as <-; reflexivity)
              (or_introl eq_refl))
    as (w' & R & _ & D & _).
  exists w'. split; [exact R|]. rewrite D. reflexivity.
Defined.

(** X24.  [getDocument] and [deleteDocument] always answer, with 200, 403,
    404 or 500.  An id that is no ObjectId gives 500 in both, not 400 as in
    the reminder handlers; an unknown id gives 404 and a document of another
    user 403; in these cases and in every run of [getDocument] nothing
    changes.  To its owner [getDocument] answers 200 with the document. *)
Theorem document_handlers_guard (faults : Faults) (req : ItemRequest)
    (w : World) :
  exists got deleted w',
    getDocument faults req w = (Fulfilled got, w)
    /\ deleteDocument faults req w = (Fulfilled deleted, w')
    /\ In (code got) [200; 403; 404; 500]
    /\ In (code deleted) [200; 403; 404; 500]
    /\ (forall s, params_id req = NotAnObjectId s ->
          got = {| code := 500;
                   payload := Notice false (lit "Error fetching document")
                                (Some (castErrorMessage faults s)) |}
          /\ deleted = {| code := 500;
                          payload := Notice false
                            (lit "Error deleting document")
                            (Some (castErrorMessage faults s)) |}
          /\ w' = w)
    /\ (forall id,
          params_id req = ObjectIdString id ->
          findById_fault faults = None ->
          (find (byDocumentId id) (documentsOf w) = None ->
           code got = 404 /\ code deleted = 404 /\ w' = w)
          /\ (forall d,
                find (byDocumentId id) (documentsOf w) = Some d ->
                (Document.user d <> requester req ->
                 code got = 403 /\ code deleted = 403 /\ w' = w)
                /\ (Document.user d = requester req ->
                    got = {| code := 200; payload := DocumentData d |}))).
Proof.
  destruct (params_id req) as [id | s] eqn:Hid.
  2:{ unfold getDocument, deleteDocument. unfold_crud. rewrite Hid. cbn.
      do 3 eexists. do 2 (split; [reflexivity|]). cbn.
      split; [tauto|]. split; [tauto|].
      split; [intros s' [= <-]; auto | intros id' E; discriminate E]. }
  destruct (findById_fault faults) as [m|] eqn:Hfault.
  { unfold getDocument, deleteDocument. unfold_crud. rewrite Hid, Hfault. cbn.
    do 3 eexists. do 2 (split; [reflexivity|]). cbn.
    split; [tauto|]. split; [tauto|].
    split; [intros s E; discriminate E | intros id' _ E; discriminate E]. }
  destruct (find (byDocumentId id) (documentsOf w)) as [d|] eqn:Hfind.
  2:{ unfold getDocument, deleteDocument. unfold_crud. rewrite Hid, Hfault.
      cbn. fold (byDocumentId id). rewrite Hfind. cbn.
      do 3 eexists. do 2 (split; [reflexivity|]). cbn.
      split; [tauto|]. split; [tauto|].
      split; [intros s E; discriminate E|].
      intros id' [= <-] _. rewrite Hfind.
      split; [auto | intros d E; discriminate E]. }
  destruct (jsstring_eqb (Document.user d) (requester req)) eqn:Hown.
  2:{ unfold getDocument, deleteDocument. unfold_crud. rewrite Hid, Hfault.
      cbn. fold (byDocumentId id). rewrite Hfind. cbn. rewrite Hown. cbn.
      do 3 eexists. do 2 (split; [reflexivity|]). cbn.
      split; [tauto|]. split; [tauto|].
      split; [intros s E; discriminate E|].
      intros id' [= <-] _. rewrite Hfind.
      split; [intros E; discriminate E|].
      intros d' [= <-]. split; [auto|].
      intros E. apply jsstring_eqb_neq in Hown. contradiction. }
  pose proof Hown as Hown'. apply jsstring_eqb_eq in Hown'.
  rewrite (deleteDocument_run faults req w id d Hid Hfault Hfind Hown').
  unfold getDocument. unfold_crud. rewrite Hid, Hfault.
  cbn. fold (byDocumentId id). rewrite Hfind. cbn. rewrite Hown. cbn.
  assert (Rest :
    (forall s, ObjectIdString id = NotAnObjectId s ->
       {| code := 200; payload := DocumentData d |}
       = {| code := 500;
            payload := Notice false (lit "Error fetching document")
                         (Some (castErrorMessage faults s)) |}
       /\ False)
    /\ (forall id',
          ObjectIdString id = ObjectIdString id' ->
          @None jsstring = None ->
          (find (byDocumentId id') (documentsOf w) = None -> False)
          /\ (forall d',
                find (byDocumentId id') (documentsOf w) = Some d' ->
                (Document.user d' <> requester req -> False)
                /\ (Document.user d' = requester req ->
                    {| code := 200; payload := DocumentData d |}
                    = {| code := 200; payload := DocumentData d' |})))).
  { split; [intros s E; discriminate E|].
    intros id' [= <-] _. rewrite Hfind.
    split; [intros E; discriminate E|].
    intros d' [= <-]. split; [intros N; now apply N | reflexivity]. }
  destruct Rest as [R1 R2].
  destruct (deleteMany_fault faults) as [m|];
    [|destruct (deleteOne_fault faults) as [m|]];
    (do 3 eexists; do 2 (split; [reflexivity|]); cbn;
     split; [tauto|]; split; [tauto|];
     split;
     [ intros s E; destruct (R1 s E) as [_ []]
     | intros id' E1 E2; destruct (R2 id' E1 E2) as [A B];
       split; [intros E; destruct (A E)|];
       intros d' E; destruct (B d' E) as [C D];
       split; [intros N; destruct (C N) | exact D] ]).
Qed.

(** A stranger asks for the stored bill and then tries to delete it. *)
Lemma document_handlers_guard_witness :
  exists got deleted,
    getDocument Stored.noFaults
      {| params_id := ObjectIdString 0%nat; requester := Stored.stranger |}
      Stored.world
    = (Fulfilled got, Stored.world)
    /\ deleteDocument Stored.noFaults
         {| params_id := ObjectIdString 0%nat;
            requester := Stored.stranger |}
         Stored.world
       = (Fulfilled deleted, Stored.world)
    /\ code got = 403 /\ code deleted = 403.
Proof.
  destruct (document_handlers_guard Stored.noFaults
              {| params_id := ObjectIdString 0%nat;
                 requester := Stored.stranger |}
              Stored.world)
    as (got & deleted & w' & G & D & _ & _ & _ & H).
  destruct (find (byDocumentId 0%nat) (documentsOf Stored.world))
    as [d|] eqn:F; [|vm_compute in F; discriminate].
  assert (N : Document.user d <> Stored.stranger)
    by (vm_compute in F; injection F as <-; vm_compute; discriminate).
  destruct (proj1 (proj2 (H 0%nat eq_refl eq_refl) d F) N) as (C1 & C2 & ->).
  exists got, deleted. auto.
Defined.

Lemma withoutReminders_app (q : Reminder.t -> bool) (a b : list Write) :
  withoutReminders q (a ++ b) = withoutReminders q a ++ withoutReminders q b.
Proof. apply filter_app. Qed.

Lemma withoutReminders_none (q : Reminder.t -> bool) (l : list Write) :
  Forall (fun r => q r = false) (reminderWrites l) ->
  withoutReminders q l = l.
Proof.
  induction l as [|[d|r] l IH]; simpl; intros F; [reflexivity | |].
  - f_equal. now apply IH.
  - inversion F as [|? ? E F']; subst. rewrite E. simpl. f_equal.
    now apply IH.
Qed.

Lemma withoutReminders_all (q : Reminder.t -> bool) (rs : list Reminder.t) :
  Forall (fun r => q r = true) rs ->
  withoutReminders q (map ReminderInsert rs) = [].
Proof.
  induction 1 as [|r rs E _ IH]; simpl; [reflexivity|].
  rewrite E. simpl. exact IH.
Qed.

Lemma removeDocument_last (d : Document.t) (l : list Write) :
  Forall (fun x => Document._id x <> Document._id d) (documentWrites l) ->
  removeDocument (Document._id d) (l ++ [DocumentInsert d]) = l.
Proof.
  induction l as [|[x|r] l IH]; simpl; intros F.
  - now rewrite Nat.eqb_refl.
  - inversion F as [|? ? N F']; subst. apply Nat.eqb_neq in N. rewrite N.
    f_equal. now apply IH.
  - f_equal. now apply IH.
Qed.

Lemma documentWrites_app (a b : list Write) :
  documentWrites (a ++ b) = documentWrites a ++ documentWrites b.
Proof.
  induction a as [|[d|r] a IH]; simpl; [reflexivity | now rewrite IH | exact IH].
Qed.

Lemma find_document_skip (id : ObjectId) (before l : list Document.t) :
  Forall (fun x => Document._id x <> id) before ->
  find (byDocumentId id) (before ++ l) = find (byDocumentId id) l.
Proof.
  induction 1 as [|x b N _ IH]; simpl; [reflexivity|].
  unfold byDocumentId at 1. apply Nat.eqb_neq in N. rewrite N. exact IH.
Qed.

(** X25.  What a run of [uploadDocument] has written, [deleteDocument] takes
    back: when the run stored its Document, be it that it answered 201 or
    that a reminder write was rejected and it answered 500, the Document has
    the id the run drew; the uploader deleting it, with a database that
    rejects nothing, leaves the stored records as they were before the
    upload, and the uploaded file is gone.  The id drawn must be fresh: no
    stored document has it and no stored reminder refers to it. *)
Theorem upload_then_delete (env : Env) (faults : Faults) (req : Request)
    (w w1 : World) (resp : Response) :
  uploadDocument env req w = (Normal resp, w1) ->
  journal w1 <> journal w ->
  Forall (fun d => Document._id d <> nextId w) (documentsOf w) ->
  Forall (fun r => Reminder.document r <> nextId w) (remindersOf w) ->
  findById_fault faults = None ->
  deleteMany_fault faults = None ->
  deleteOne_fault faults = None ->
  exists f w2,
    file req = Some f
    /\ deleteDocument faults
         {| params_id := ObjectIdString (nextId w);
            requester := user_id req |} w1
       = (Fulfilled {| code := 200;
                       payload := Notice true
                         (lit "Document deleted successfully") None |}, w2)
    /\ journal w2 = journal w
    /\ pathExists (path f) w2 = false.
Proof.
  intros R Hnew Hdocs Hrems Hfault Hmany Hone.
  destruct (uploadDocument_writes env req w) as (resp0 & w0 & R0 & J).
  rewrite R in R0. injection R0 as <- <-.
  destruct J as [J | (f & a & text & rs & Hf & J & T)]; [contradiction|].
  set (d := newDocument (nextId w) (user_id req) f a text) in *.
  assert (Hfind : find (byDocumentId (nextId w)) (documentsOf w1) = Some d).
  { unfold documentsOf. rewrite J, documentWrites_app.
    rewrite (find_document_skip _ _ _ Hdocs). simpl.
    unfold byDocumentId. simpl. now rewrite Nat.eqb_refl. }
  rewrite (deleteDocument_run faults
             {| params_id := ObjectIdString (nextId w);
                requester := user_id req |}
             w1 (nextId w) d eq_refl Hfault Hfind eq_refl).
  rewrite Hmany, Hone. exists f. eexists. split; [exact Hf|].
  split; [reflexivity|]. cbn [journal withJournal].
  split; [|apply pathExists_cleaned].
  rewrite J.
  change (journal w ++ DocumentInsert d :: map ReminderInsert rs)
    with (journal w ++ [DocumentInsert d] ++ map ReminderInsert rs).
  rewrite !withoutReminders_app.
  rewrite (withoutReminders_none _ (journal w)).
  2:{ eapply Forall_impl; [|exact Hrems]. intros r N. now apply Nat.eqb_neq. }
  rewrite (withoutReminders_all _ rs).
  2:{ eapply Forall_impl; [|exact T]. intros r [E _]. unfold ofDocument.
      rewrite E. apply Nat.eqb_refl. }
  simpl. apply (removeDocument_last d). exact Hdocs.
Qed.

(** The bill uploaded while the reminder store rejects its writes: the
    answer is 500 and the Document stays behind; deleting it empties the store
    again. *)
Lemma upload_then_delete_witness :
  exists resp w1 w2,
    uploadDocument
      (Scenario.env (Normal (val Scenario.billText)) Scenario.bill
                    (fun _ => Scenario.dec21)
                    (Some (lit "reminder store unavailable")))
      Scenario.request Scenario.world
    = (Normal resp, w1)
    /\ statusCode resp = 500
    /\ deleteDocument Stored.noFaults
         {| params_id := ObjectIdString 0%nat;
            requester := user_id Scenario.request |} w1
       = (Fulfilled {| code := 200;
                       payload := Notice true
                         (lit "Document deleted successfully") None |}, w2)
    /\ journal w2 = [].
Proof.
  destruct (uploadDocument
              (Scenario.env (Normal (val Scenario.billText)) Scenario.bill
                            (fun _ => Scenario.dec21)
                            (Some (lit "reminder store unavailable")))
              Scenario.request Scenario.world) as [[resp|m] w1] eqn:R.
  2:{ vm_compute in R. discriminate. }
  assert (S : statusCode resp = 500)
    by (vm_compute in R; injection R as <- _; reflexivity).
  assert (N : journal w1 <> journal Scenario.world)
    by (vm_compute in R; injection R as _ <-; discriminate).
  destruct (upload_then_delete _ Stored.noFaults _ _ _ _ R N
              (Forall_nil _) (Forall_nil _) eq_refl eq_refl eq_refl)
    as (f & w2 & _ & D & J & _).
  exists resp, w1, w2. split; [reflexivity|]. split; [exact S|].
  split; [exact D | exact J].
Defined.

(* ------------------------------------------------------------------ *)
(** ** The routers *)

(** X26.  No request reaches [bulkCompleteReminders]: its route,
    [PATCH /bulk/complete], is registered after [PATCH /:id/complete], which
    matches the same paths, so that the request goes to [completeReminder]
    with the id [bulk], and that, the id being no ObjectId, answers 400
    "Invalid reminder ID" and changes nothing.  Every other handler of the
    two routers is reached by some request. *)
Theorem bulk_complete_is_shadowed :
  (forall m segments params,
     dispatch reminderRoutes m segments
     <> Some (BulkCompleteReminders, params))
  /\ (forall segments,
        matchPath [Word "bulk"; Word "complete"] segments <> None ->
        exists id,
          dispatch reminderRoutes PATCH segments
          = Some (CompleteReminder, [("id"%string, id)])
          /\ sameWord (lit "bulk") id = true)
  /\ (forall env faults s user w,
        completeReminder env faults
          {| params_id := NotAnObjectId s; requester := user |} w
        = (Fulfilled (notice 400 (lit "Invalid reminder ID")), w))
  /\ (forall h,
        h <> BulkCompleteReminders ->
        exists m segments params,
          dispatch reminderRoutes m segments = Some (h, params))
  /\ (forall h,
        exists m segments params,
          dispatch documentRoutes m segments = Some (h, params)).
Proof.
  split; [|split; [|split; [|split]]].
  - intros m segments params.
    destruct m; cbn -[sameWord lit];
      destruct segments as [|a [|b [|c rest]]]; cbn -[sameWord lit];
      repeat match goal with
             | |- context [if ?b then _ else _] => destruct b eqn:?
             end;
      cbn -[sameWord lit]; try discriminate;
      exfalso; destruct a;
      match goal with
      | H : isEmpty (_ :: _) = true |- _ => discriminate H
      | H : sameWord _ [] = true |- _ => vm_compute in H; discriminate H
      end.
  - intros [|a [|b [|c rest]]]; cbn -[sameWord lit]; try congruence.
    + destruct (sameWord (lit "bulk") a); congruence.
    + destruct (sameWord (lit "bulk") a) eqn:A; [|congruence].
      destruct (sameWord (lit "complete") b) eqn:B; [|congruence].
      intros _. exists a. destruct a as [|x a]; [vm_compute in A; discriminate A|].
      cbn -[sameWord lit]. auto.
    + destruct (sameWord (lit "bulk") a); [|congruence].
      destruct (sameWord (lit "complete") b); congruence.
  - intros env faults s user w. reflexivity.
  - intros h N.
    destruct h;
      [ exists GET, [] | exists GET, [lit "upcoming"]
      | exists GET, [lit "overdue"] | exists GET, [lit "today"]
      | exists GET, [lit "stats"] | exists GET, [lit "66f0"]
      | exists PATCH, [lit "66f0"; lit "complete"]
      | exists PATCH, [lit "66f0"; lit "dismiss"]
      | exists PATCH, [lit "66f0"; lit "snooze"]
      | exists DELETE, [lit "66f0"]
      | exists DELETE, [lit "bulk"; lit "delete"]
      | contradiction ];
      eexists; vm_compute; reflexivity.
  - intros h.
    destruct h;
      [ exists POST, [lit "upload"] | exists GET, []
      | exists GET, [lit "stats"] | exists GET, [lit "66f0"]
      | exists DELETE, [lit "66f0"] ];
      eexists; vm_compute; reflexivity.
Qed.

(* ------------------------------------------------------------------ *)
(** ** The guard of the routes *)

Lemma splitBy_app_sep (sep : N) (a b : jsstring) :
  ~ In sep a -> splitBy sep (a ++ sep :: b) = a :: splitBy sep b.
Proof.
  induction a as [|c a IH]; simpl; intros N.
  - now rewrite N.eqb_refl.
  - destruct (c =? sep)%N eqn:E.
    + apply N.eqb_eq in E. exfalso. apply N. now left.
    + rewrite IH; [reflexivity|]. intros I. apply N. now right.
Qed.

Lemma splitBy_no_sep (sep : N) (a : jsstring) :
  ~ In sep a -> splitBy sep a = [a].
Proof.
  induction a as [|c a IH]; simpl; intros N; [reflexivity|].
  destruct (c =? sep)%N eqn:E.
  - apply N.eqb_eq in E. exfalso. apply N. now left.
  - rewrite IH; [reflexivity|]. intros I. apply N. now right.
Qed.

Lemma splitBy_pieces (sep : N) (s : jsstring) :
  Forall (fun piece => ~ In sep piece) (splitBy sep s).
Proof.
  induction s as [|c s IH]; simpl.
  - constructor; [intros []|constructor].
  - destruct (c =? sep)%N eqn:E.
    + constructor; [intros []|exact IH].
    + apply N.eqb_neq in E.
      destruct (splitBy sep s) as [|piece pieces].
      * constructor; [|constructor]. intros [I|[]]. now apply E.
      * inversion IH as [|? ? P Ps]; subst. constructor; [|exact Ps].
        intros [I|I]; [now apply E | now apply P].
Qed.

Lemma startsWith_app (prefix rest : jsstring) :
  startsWith prefix (prefix ++ rest) = true.
Proof.
  induction prefix as [|p prefix IH]; simpl; [reflexivity|].
  now rewrite N.eqb_refl.
Qed.

Lemma startsWith_shorter (a b s : jsstring) :
  startsWith (a ++ b) s = true -> startsWith a s = true.
Proof.
  revert s. induction a as [|p a IH]; intros [|c s]; simpl; try reflexivity;
    try discriminate.
  intros H. apply andb_true_iff in H as [E H]. rewrite E. simpl.
  now apply IH.
Qed.

Lemma protectWith_token (prefix : jsstring) (v : Verifier) (header : jsstring)
    (token : jsstring) :
  bearerToken prefix (val header) = val token ->
  token <> [] ->
  protectWith prefix v (val header)
  = match jwt_verify v token with
    | Throw _ => Refused 401 (lit "Not authorized, token invalid")
    | Normal decoded_id =>
        match User_findById v decoded_id with
        | Throw _ => Refused 401 (lit "Not authorized, token invalid")
        | Normal None => Refused 401 (lit "User no longer exists")
        | Normal (Some user) => Passed user
        end
    end.
Proof.
  intros B N. unfold protectWith. rewrite B.
  destruct token; [contradiction|reflexivity].
Qed.

Lemma splitBy_nonempty (sep : N) (s : jsstring) : splitBy sep s <> [].
Proof.
  destruct s as [|c s]; simpl; [discriminate|].
  destruct (c =? sep)%N; [discriminate|].
  destruct (splitBy sep s); discriminate.
Qed.

(** Up to its first space a header decides its first piece. *)
Lemma splitBy_first (sep : N) (a r r' : jsstring) :
  nth_error (splitBy sep (a ++ sep :: r)) 0
  = nth_error (splitBy sep (a ++ sep :: r')) 0.
Proof.
  induction a as [|c a IH]; simpl.
  - now rewrite N.eqb_refl.
  - destruct (c =? sep)%N; [reflexivity|].
    pose proof (splitBy_nonempty sep (a ++ sep :: r)) as A.
    pose proof (splitBy_nonempty sep (a ++ sep :: r')) as B.
    destruct (splitBy sep (a ++ sep :: r)) as [|x xs]; [contradiction|].
    destruct (splitBy sep (a ++ sep :: r')) as [|y ys]; [contradiction|].
    simpl in *. now injection IH as ->.
Qed.

(** Up to its second space a header decides its second piece. *)
Lemma splitBy_second (sep : N) (a b c : jsstring) :
  ~ In sep b ->
  nth_error (splitBy sep (a ++ sep :: b ++ sep :: c)) 1
  = nth_error (splitBy sep (a ++ sep :: b)) 1.
Proof.
  intros N. induction a as [|x a IH]; simpl.
  - rewrite N.eqb_refl. simpl.
    now rewrite (splitBy_app_sep sep b c N), (splitBy_no_sep sep b N).
  - destruct (x =? sep)%N.
    + simpl. apply splitBy_first.
    + pose proof (splitBy_nonempty sep (a ++ sep :: b ++ sep :: c)) as A.
      pose proof (splitBy_nonempty sep (a ++ sep :: b)) as B.
      destruct (splitBy sep (a ++ sep :: b ++ sep :: c)) as [|p ps];
        [contradiction|].
      destruct (splitBy sep (a ++ sep :: b)) as [|q qs]; [contradiction|].
      exact IH.
Qed.

(** X27.  [protect] refuses with 401 and nothing else, and calls [next()]
    only for a header that starts with the expected word and whose second
    piece, the pieces being cut at the spaces, is a token that is not empty,
    holds no space, is verified, and names a user that exists; this user is
    what the handlers find in [req.user].  Without such a piece nothing is
    verified.  What follows the second space of a header does not count. *)
Theorem protect_passes_verified_users_only (prefix : jsstring) (v : Verifier)
    (authorization : Js jsstring) :
  (forall status m,
     protectWith prefix v authorization = Refused status m -> status = 401)
  /\ (forall user,
        protectWith prefix v authorization = Passed user ->
        exists header token decoded_id,
          authorization = val header
          /\ startsWith prefix header = true
          /\ nth_error (splitBy 32 header) 1 = Some token
          /\ token <> []
          /\ ~ In 32%N token
          /\ jwt_verify v token = Normal decoded_id
          /\ User_findById v decoded_id = Normal (Some user))
  /\ (truthy (bearerToken prefix authorization) = false ->
      forall v',
        protectWith prefix v' authorization
        = Refused 401 (lit "Not authorized, no token"))
  /\ (forall word token extra,
        ~ In 32%N token ->
        startsWith prefix (word ++ 32%N :: token) = true ->
        protectWith prefix v (val (word ++ 32%N :: token ++ 32%N :: extra))
        = protectWith prefix v (val (word ++ 32%N :: token))).
Proof.
  split; [|split; [|split]].
  - intros status m. unfold protectWith.
    destruct (bearerToken prefix authorization) as [| |token];
      try (intros [= <- _]; reflexivity).
    destruct (negb (truthy token)); [intros [= <- _]; reflexivity|].
    destruct (jwt_verify v token) as [d|e]; [|intros [= <- _]; reflexivity].
    destruct (User_findById v d) as [[u|]|e]; try discriminate;
      intros [= <- _]; reflexivity.
  - intros user. unfold protectWith, bearerToken.
    destruct authorization as [| |header]; try discriminate.
    destruct (truthy header && startsWith prefix header) eqn:S;
      [|discriminate].
    apply andb_true_iff in S as [_ S].
    pose proof (splitBy_pieces 32 header) as P.
    destruct (nth_error (splitBy 32 header) 1) as [token|] eqn:T;
      [|discriminate].
    destruct (negb (truthy token)) eqn:E; [discriminate|].
    destruct (jwt_verify v token) as [d|e] eqn:V; [|discriminate].
    destruct (User_findById v d) as [[u|]|e] eqn:U; try discriminate.
    intros [= <-]. exists header, token, d.
    repeat split; auto.
    + intros ->. discriminate E.
    + rewrite Forall_forall in P. apply P. eapply nth_error_In, T.
  - intros F v'. unfold protectWith.
    destruct (bearerToken prefix authorization) as [| |token];
      try reflexivity.
    change (truthy token = false) in F. now rewrite F.
  - intros word token extra N S. unfold protectWith, bearerToken.
    rewrite (splitBy_second 32 word token extra N), S.
    replace (word ++ 32%N :: token ++ 32%N :: extra)
      with ((word ++ 32%N :: token) ++ 32%N :: extra)
      by (now rewrite <- app_assoc).
    destruct prefix as [|p prefix]; [|].
    + destruct word; reflexivity.
    + assert (S' : startsWith (p :: prefix)
                     ((word ++ 32%N :: token) ++ 32%N :: extra) = true).
      { revert S. generalize (word ++ 32%N :: token). generalize (p :: prefix).
        induction l as [|a l IH]; intros [|c s]; simpl; try reflexivity;
          try discriminate.
        intros H. apply andb_true_iff in H as [E H]. rewrite E. simpl.
        now apply IH. }
      rewrite S'.
      assert (T : forall s : jsstring, s <> [] -> truthy s = true)
        by (intros [|c s] X; [contradiction | reflexivity]).
      rewrite !T; [reflexivity | |]; destruct word; discriminate.
Qed.

(** The header [Bearer abc extra] of the user behind the token [abc]. *)
Lemma protect_passes_verified_users_only_witness :
  protectWith (lit "Bearer ") (singleUser (lit "abc") Stored.owner)
    (val (lit "Bearer abc extra"))
  = Passed Stored.owner.
Proof.
  destruct (protect_passes_verified_users_only (lit "Bearer ")
              (singleUser (lit "abc") Stored.owner)
              (val (lit "Bearer abc extra")))
    as (_ & _ & _ & H).
  transitivity (protectWith (lit "Bearer ")
                  (singleUser (lit "abc") Stored.owner)
                  (val (lit "Bearer" ++ 32%N :: lit "abc")));
    [|reflexivity].
  refine (H (lit "Bearer") (lit "abc") (lit "extra") _ eq_refl).
  vm_compute. intuition discriminate.
Defined.

Lemma startsWith_cancel (a b s : jsstring) :
  startsWith (a ++ b) (a ++ s) = startsWith b s.
Proof.
  induction a as [|p a IH]; simpl; [reflexivity|].
  now rewrite N.eqb_refl.
Qed.

Lemma bearer_no_space (junk : jsstring) :
  ~ In 32%N junk -> ~ In 32%N (lit "Bearer" ++ junk).
Proof.
  intros N I. apply in_app_or in I as [I|I]; [|now apply N].
  vm_compute in I. intuition discriminate.
Qed.

Lemma bearerToken_second (prefix word token : jsstring) :
  ~ In 32%N word -> ~ In 32%N token ->
  startsWith prefix (word ++ 32%N :: token) = true ->
  bearerToken prefix (val (word ++ 32%N :: token)) = val token.
Proof.
  intros Nw Nt S. unfold bearerToken.
  rewrite S, (splitBy_app_sep 32 word token Nw), (splitBy_no_sep 32 token Nt).
  destruct word; reflexivity.
Qed.

(** X28.  The two versions of [protect] in the file differ in the word they
    expect, "Bearer" or "Bearer" and a space.  They end alike on every header
    except those that start with "Bearer" and go on with something else than
    a space: there the second version finds no token, and the first takes
    the piece after the first space for the token, so that a header such as
    [BearerX abc] is let through by the first as [Bearer abc] is by both. *)
Theorem protect_versions (v : Verifier) :
  (forall authorization,
     (forall header,
        authorization = val header ->
        startsWith (lit "Bearer") header = true ->
        startsWith (lit "Bearer ") header = true) ->
     protect_first v authorization = protect v authorization)
  /\ (forall junk token,
        junk <> [] -> ~ In 32%N junk -> ~ In 32%N token ->
        protect v (val (lit "Bearer" ++ junk ++ 32%N :: token))
        = Refused 401 (lit "Not authorized, no token")
        /\ protect_first v (val (lit "Bearer" ++ junk ++ 32%N :: token))
           = protect v (val (lit "Bearer " ++ token))).
Proof.
  split.
  - intros authorization H.
    unfold protect_first, protect, protectWith, bearerToken.
    destruct authorization as [| |header]; try reflexivity.
    destruct (startsWith (lit "Bearer") header) eqn:S.
    + now rewrite (H header eq_refl S).
    + destruct (startsWith (lit "Bearer ") header) eqn:S'; [|reflexivity].
      apply (startsWith_shorter (lit "Bearer") (lit " ")) in S'. congruence.
  - intros junk token Ne Nj Nt. split.
    + destruct junk as [|c junk]; [contradiction|].
      assert (E : (32 =? c)%N = false).
      { apply N.eqb_neq. intros <-. apply Nj. now left. }
      unfold protect, protectWith, bearerToken.
      change (lit "Bearer ") with (lit "Bearer" ++ [32%N]).
      rewrite startsWith_cancel.
      change (startsWith [32%N] ((c :: junk) ++ 32%N :: token))
        with ((32 =? c)%N && true).
      rewrite E, andb_false_r. reflexivity.
    + unfold protect_first, protect, protectWith.
      change (lit "Bearer " ++ token) with (lit "Bearer" ++ 32%N :: token).
      rewrite (bearerToken_second (lit "Bearer ") (lit "Bearer") token
                 (bearer_no_space [] (@in_nil _ _)) Nt eq_refl).
      rewrite app_assoc.
      rewrite (bearerToken_second (lit "Bearer") (lit "Bearer" ++ junk) token
                 (bearer_no_space junk Nj) Nt).
      * reflexivity.
      * rewrite <- app_assoc. apply startsWith_app.
Qed.

(** [BearerX abc] against [Bearer abc]. *)
Lemma protect_versions_witness :
  protect_first (singleUser (lit "abc") Stored.owner)
    (val (lit "BearerX abc"))
  = Passed Stored.owner
  /\ protect (singleUser (lit "abc") Stored.owner) (val (lit "BearerX abc"))
     = Refused 401 (lit "Not authorized, no token").
Proof.
  destruct (protect_versions (singleUser (lit "abc") Stored.owner))
    as [_ H].
  destruct (H (lit "X") (lit "abc")) as [A B].
  - discriminate.
  - vm_compute. intuition discriminate.
  - vm_compute. intuition discriminate.
  - split; [|exact A]. etransitivity; [exact B|]. reflexivity.
Defined.

(* ------------------------------------------------------------------ *)
(** ** The lists by date *)

Lemma dateLe_total (a b : JsDate) : dateLe a b = false -> dateLe b a = true.
Proof.
  destruct a as [x|], b as [y|]; simpl; try discriminate; try reflexivity.
  rewrite Z.leb_gt, Z.leb_le. lia.
Qed.

Lemma in_insertByDate (x r : Reminder.t) (l : list Reminder.t) :
  In x (insertByDate r l) <-> x = r \/ In x l.
Proof.
  induction l as [|y l IH]; simpl; [intuition|].
  destruct (dateLe _ _); simpl; [intuition|]. rewrite IH. intuition.
Qed.

Lemma in_sortByDate (x : Reminder.t) (l : list Reminder.t) :
  In x (sortByDate l) <-> In x l.
Proof.
  induction l as [|y l IH]; simpl; [reflexivity|].
  rewrite in_insertByDate, IH. intuition.
Qed.

Lemma length_insertByDate (r : Reminder.t) (l : list Reminder.t) :
  List.length (insertByDate r l) = S (List.length l).
Proof.
  induction l as [|y l IH]; simpl; [reflexivity|].
  destruct (dateLe _ _); simpl; [reflexivity | now rewrite IH].
Qed.

Lemma length_sortByDate (l : list Reminder.t) :
  List.length (sortByDate l) = List.length l.
Proof.
  induction l as [|y l IH]; simpl; [reflexivity|].
  now rewrite length_insertByDate, IH.
Qed.

Lemma insertByDate_sorted (r : Reminder.t) (l : list Reminder.t) :
  Sorted byDate l -> Sorted byDate (insertByDate r l).
Proof.
  induction 1 as [|x l S IH H]; simpl; [repeat constructor|].
  destruct (dateLe (Reminder.reminderDate r) (Reminder.reminderDate x)) eqn:E.
  - constructor; [now constructor | now constructor].
  - constructor; [exact IH|].
    destruct l as [|y l]; simpl.
    + constructor. now apply dateLe_total.
    + destruct (dateLe (Reminder.reminderDate r) (Reminder.reminderDate y));
        constructor.
      * now apply dateLe_total.
      * now inversion H.
Qed.

Lemma sortByDate_sorted (l : list Reminder.t) : Sorted byDate (sortByDate l).
Proof.
  induction l as [|y l IH]; simpl; [constructor|].
  now apply insertByDate_sorted.
Qed.

Lemma ReminderStatus_eqb_eq (a b : ReminderStatus) :
  ReminderStatus_eqb a b = true <-> a = b.
Proof. destruct a, b; simpl; split; congruence. Qed.

Lemma pendingOf_spec (user : UserId) (r : Reminder.t) :
  pendingOf user r = true
  <-> Reminder.user r = user /\ Reminder.status r = PENDING.
Proof.
  unfold pendingOf.
  now rewrite andb_true_iff, jsstring_eqb_eq, ReminderStatus_eqb_eq.
Qed.

Lemma map_entry_reminder (docs : Reminder.t -> option Document.t)
    (l : list Reminder.t) :
  map entry_reminder
    (map (fun r => {| entry_reminder := r; entry_document := docs r |}) l)
  = l.
Proof. induction l as [|r l IH]; simpl; [|rewrite IH]; reflexivity. Qed.

Lemma upcomingReminders_enrich (now : Z) (l : list Entry) :
  upcomingReminders (map (enrich now) l) = map entry_reminder l.
Proof.
  unfold upcomingReminders. rewrite map_map. reflexivity.
Qed.

Lemma getUpcomingReminders_run (env : Env) (user : UserId) (w : World)
    (hi : Z) :
  setDate_getDate_plus (LocalTZA env)
    (Some (clock env (S (clockReads w)))) 30 = Some hi ->
  getUpcomingReminders env None user w
  = (let now := clock env (clockReads w) in
     let entries :=
       map (enrich now)
         (map (fun r =>
                 {| entry_reminder := r;
                    entry_document :=
                      find (fun d => (Document._id d
                                      =? Reminder.document r)%nat)
                           (documentsOf w) |})
              (sortByDate
                 (filter (fun r => pendingOf user r && dateBetween now hi r)
                         (remindersOf w)))) in
     (Fulfilled {| listCode := 200;
                   listJson := Listed (List.length entries) entries |},
      afterReadings 2 w)).
Proof.
  intros V.
  unfold getUpcomingReminders, Reminder_find, liftM, new_Date_now.
  unfold_crud. cbn [clockReads]. rewrite V. reflexivity.
Qed.

Lemma ceilDays_bounds (t now : Z) :
  exists d,
    ceilDays (Some t) now = Some d
    /\ (now <= t -> 0 <= d)
    /\ (forall k, t - now <= k * msPerDay <-> d <= k).
Proof.
  unfold ceilDays. eexists. split; [reflexivity|].
  pose proof (Z.div_mod (- (t - now)) msPerDay) as D.
  pose proof (Z.mod_pos_bound (- (t - now)) msPerDay) as B.
  unfold msPerDay in *. split; [lia|]. intros k. lia.
Qed.

Lemma upcoming_filter_spec (user : UserId) (lo hi : Z) (r : Reminder.t) :
  pendingOf user r && dateBetween lo hi r = true
  <-> Reminder.user r = user /\ Reminder.status r = PENDING
      /\ exists t, Reminder.reminderDate r = Some t /\ lo <= t <= hi.
Proof.
  unfold dateBetween. rewrite andb_true_iff, pendingOf_spec.
  destruct (Reminder.reminderDate r) as [t|].
  - rewrite andb_true_iff, !Z.leb_le. split.
    + intros [[U S] B]. eauto 6.
    + intros (U & S & t' & [= <-] & B). auto.
  - split; [intros [_ F]; discriminate F|].
    intros (_ & _ & t & F & _). discriminate F.
Qed.

Lemma overdue_filter_spec (user : UserId) (now : Z) (r : Reminder.t) :
  pendingOf user r && dateBefore now r = true
  <-> Reminder.user r = user /\ Reminder.status r = PENDING
      /\ exists t, Reminder.reminderDate r = Some t /\ t < now.
Proof.
  unfold dateBefore. rewrite andb_true_iff, pendingOf_spec.
  destruct (Reminder.reminderDate r) as [t|].
  - rewrite Z.ltb_lt. split.
    + intros [[U S] B]. eauto 6.
    + intros (U & S & t' & [= <-] & B). auto.
  - split; [intros [_ F]; discriminate F|].
    intros (_ & _ & t & F & _). discriminate F.
Qed.

Lemma getOverdueReminders_run (env : Env) (user : UserId) (w : World) :
  getOverdueReminders env None user w
  = (let entries :=
       map (fun r =>
              {| entry_reminder := r;
                 entry_document :=
                   find (fun d => (Document._id d
                                   =? Reminder.document r)%nat)
                        (documentsOf w) |})
           (sortByDate
              (filter (fun r => pendingOf user r
                                && dateBefore (clock env (clockReads w)) r)
                      (remindersOf w))) in
     (Fulfilled {| listCode := 200;
                   listJson := Listed (List.length entries) entries |},
      afterReadings 1 w)).
Proof. reflexivity. Qed.

(** X29.  [getUpcomingReminders], [now] and [next] being the two readings of
    the clock it makes and [hi] the date thirty days of the local calendar
    after [next]: the list holds, once each and by rising date, the PENDING
    reminders of the user dated from [now] to [hi], each with the Document
    its [document] names.  [daysUntil] is never negative, so that [isOverdue]
    is false in every entry; [isUrgent] says that the date is at most three
    days after [now].  Where the zone has one offset at [next] and at [hi],
    [hi] is [next + 30d], and [daysUntil] is at most 30 when the clock has
    not moved between the two readings.  Only the clock is touched. *)
Theorem upcoming_reminders (env : Env) (user : UserId) (w : World) (hi : Z) :
  let now := clock env (clockReads w) in
  let next := clock env (S (clockReads w)) in
  setDate_getDate_plus (LocalTZA env) (Some next) 30 = Some hi ->
  exists entries,
    getUpcomingReminders env None user w
    = (Fulfilled {| listCode := 200;
                    listJson := Listed (List.length entries) entries |},
       afterReadings 2 w)
    /\ (forall r,
          In r (upcomingReminders entries) <->
          In r (remindersOf w)
          /\ Reminder.user r = user
          /\ Reminder.status r = PENDING
          /\ exists t, Reminder.reminderDate r = Some t /\ now <= t <= hi)
    /\ List.length entries
       = List.length
           (filter (fun r => pendingOf user r && dateBetween now hi r)
                   (remindersOf w))
    /\ Sorted byDate (upcomingReminders entries)
    /\ (forall e,
          In e entries ->
          isOverdue e = false
          /\ entry_document (upcoming e)
             = find (byDocumentId (Reminder.document
                                     (entry_reminder (upcoming e))))
                    (documentsOf w)
          /\ exists t d,
               Reminder.reminderDate (entry_reminder (upcoming e)) = Some t
               /\ daysUntil e = Some d
               /\ 0 <= d
               /\ (isUrgent e = true <-> t - now <= 3 * msPerDay)
               /\ (sameOffset (LocalTZA env) next 30 ->
                   next <= now -> d <= 30))
    /\ (sameOffset (LocalTZA env) next 30 -> hi = next + 30 * msPerDay).
Proof.
  intros now next V.
  assert (Hi : sameOffset (LocalTZA env) next 30 ->
               hi = next + 30 * msPerDay).
  { intros Hs. rewrite (setDate_sameOffset _ _ _ Hs) in V.
    apply TimeClip_Some in V. tauto. }
  rewrite (getUpcomingReminders_run env user w hi V).
  cbv zeta. fold now. eexists. split; [reflexivity|].
  rewrite upcomingReminders_enrich, map_entry_reminder.
  split; [|split; [|split; [|split]]].
  - intros r. rewrite in_sortByDate, filter_In, upcoming_filter_spec. tauto.
  - now rewrite !length_map, length_sortByDate.
  - apply sortByDate_sorted.
  - intros e I. apply in_map_iff in I as (x & <- & I).
    apply in_map_iff in I as (r & <- & I).
    apply in_sortByDate, filter_In in I as [_ I].
    apply upcoming_filter_spec in I as (_ & _ & t & T & Lo & Up).
    cbn [enrich upcoming isOverdue isUrgent daysUntil entry_reminder
         entry_document].
    rewrite T. destruct (ceilDays_bounds t now) as (d & C & Pos & Le).
    rewrite C. cbn [ltNum leNum].
    split; [apply Z.ltb_ge; auto|]. split; [reflexivity|].
    exists t, d. split; [reflexivity|]. split; [reflexivity|].
    split; [auto|]. split.
    + rewrite Z.leb_le. symmetry. apply Le.
    + intros Hs Same. apply Le. rewrite (Hi Hs) in Up. lia.
  - exact Hi.
Qed.

(** The list on 2024-12-21, on UTC, for the owner of the stored bill, which
    is due on 2025-01-10. *)
Lemma upcoming_reminders_witness :
  exists entries,
    getUpcomingReminders Stored.env None Stored.owner Stored.world
    = (Fulfilled {| listCode := 200;
                    listJson := Listed (List.length entries) entries |},
       afterReadings 2 Stored.world)
    /\ Sorted byDate (upcomingReminders entries)
    /\ List.length entries = 2%nat.
Proof.
  destruct (upcoming_reminders Stored.env Stored.owner Stored.world
              (Scenario.dec21 + 30 * msPerDay) eq_refl)
    as (entries & R & _ & L & S & _).
  exists entries. split; [exact R|]. split; [exact S|].
  rewrite L. reflexivity.
Defined.

(** X30.  [getOverdueReminders] lists, by rising date, the PENDING reminders
    of the user dated before the reading of the clock it makes.  Asked at
    the same instant, [getOverdueReminders] and [getUpcomingReminders] never
    list the same reminder, and every PENDING reminder of the user dated up
    to [hi], the date thirty days of the local calendar after that instant,
    is in one of the two lists; [hi] is thirty days of 24 hours after the
    instant where the zone has one offset at both. *)
Theorem overdue_or_upcoming (env : Env) (user : UserId) (w : World)
    (now hi : Z) :
  (forall n, clock env n = now) ->
  setDate_getDate_plus (LocalTZA env) (Some now) 30 = Some hi ->
  exists overdue upcoming,
    getOverdueReminders env None user w
    = (Fulfilled {| listCode := 200;
                    listJson := Listed (List.length overdue) overdue |},
       afterReadings 1 w)
    /\ getUpcomingReminders env None user w
       = (Fulfilled {| listCode := 200;
                       listJson := Listed (List.length upcoming) upcoming |},
          afterReadings 2 w)
    /\ (forall r,
          In r (map entry_reminder overdue) <->
          In r (remindersOf w)
          /\ Reminder.user r = user
          /\ Reminder.status r = PENDING
          /\ exists t, Reminder.reminderDate r = Some t /\ t < now)
    /\ Sorted byDate (map entry_reminder overdue)
    /\ (forall r,
          In r (map entry_reminder overdue) ->
          ~ In r (upcomingReminders upcoming))
    /\ (forall r t,
          In r (remindersOf w) ->
          Reminder.user r = user ->
          Reminder.status r = PENDING ->
          Reminder.reminderDate r = Some t ->
          t <= hi ->
          In r (map entry_reminder overdue)
          \/ In r (upcomingReminders upcoming))
    /\ (sameOffset (LocalTZA env) now 30 -> hi = now + 30 * msPerDay).
Proof.
  intros C V.
  assert (Hi : sameOffset (LocalTZA env) now 30 -> hi = now + 30 * msPerDay).
  { intros Hs. rewrite (setDate_sameOffset _ _ _ Hs) in V.
    apply TimeClip_Some in V. tauto. }
  rewrite getOverdueReminders_run,
    (getUpcomingReminders_run env user w hi) by (now rewrite C).
  cbv zeta. rewrite !C. do 2 eexists.
  split; [reflexivity|]. split; [reflexivity|].
  rewrite upcomingReminders_enrich, !map_entry_reminder.
  assert (O : forall r,
            In r (sortByDate
                    (filter (fun r => pendingOf user r && dateBefore now r)
                            (remindersOf w)))
            <-> In r (remindersOf w)
                /\ Reminder.user r = user
                /\ Reminder.status r = PENDING
                /\ exists t, Reminder.reminderDate r = Some t /\ t < now).
  { intros r. now rewrite in_sortByDate, filter_In, overdue_filter_spec. }
  assert (U : forall r,
            In r (sortByDate
                    (filter (fun r => pendingOf user r
                                      && dateBetween now hi r)
                            (remindersOf w)))
            <-> In r (remindersOf w)
                /\ Reminder.user r = user
                /\ Reminder.status r = PENDING
                /\ exists t, Reminder.reminderDate r = Some t
                             /\ now <= t <= hi).
  { intros r. now rewrite in_sortByDate, filter_In, upcoming_filter_spec. }
  split; [exact O|]. split; [apply sortByDate_sorted|]. split; [|split].
  - intros r Io Iu. apply O in Io as (_ & _ & _ & t & T & Lt).
    apply U in Iu as (_ & _ & _ & t' & T' & Le & _).
    rewrite T in T'. injection T' as <-. lia.
  - intros r t I Us St T Le. destruct (Z.lt_ge_cases t now) as [Lt|Ge].
    + left. apply O. eauto 8.
    + right. apply U. eauto 8.
  - exact Hi.
Qed.

(** On 2025-01-15, on UTC, for the owner of the stored bill. *)
Lemma overdue_or_upcoming_witness :
  exists overdue upcoming,
    getOverdueReminders
      (Scenario.env (Normal (val Scenario.billText)) Scenario.bill
                    (fun _ => Scenario.jan15) None)
      None Stored.owner Stored.world
    = (Fulfilled {| listCode := 200;
                    listJson := Listed (List.length overdue) overdue |},
       afterReadings 1 Stored.world)
    /\ getUpcomingReminders
         (Scenario.env (Normal (val Scenario.billText)) Scenario.bill
                       (fun _ => Scenario.jan15) None)
         None Stored.owner Stored.world
       = (Fulfilled {| listCode := 200;
                       listJson := Listed (List.length upcoming) upcoming |},
          afterReadings 2 Stored.world)
    /\ Sorted byDate (map entry_reminder overdue).
Proof.
  destruct (overdue_or_upcoming
              (Scenario.env (Normal (val Scenario.billText)) Scenario.bill
                            (fun _ => Scenario.jan15) None)
              Stored.owner Stored.world Scenario.jan15
              (Scenario.jan15 + 30 * msPerDay))
    as (overdue & upcoming & Ro & Ru & _ & S & _).
  - reflexivity.
  - reflexivity.
  - exists overdue, upcoming. auto.
Defined.
